(** * fis-playground: validation, error taxonomy and request handlers

    A shallow embedding of the Go sources of the item service

      - [internal/models/item.go]          entity and request validation
      - [internal/repository/errors.go]    DynamoDB error translation
      - [internal/repository/dynamodb.go]  the DynamoDB storage adapter
      - package [handlers], errors         API error taxonomy and mapping
      - package [handlers], handlers       the HTTP handlers
      - package [handlers], tests          the mock storage port

    followed by the properties of the specification, proved (or refuted
    at a concrete input) against these definitions.

    Conventions.  A Go [string] is a sequence of bytes and is modelled by
    [string] (a list of [ascii] bytes); [len] is the number of bytes.  Go
    [int] is modelled by [Z].  A [time.Time] is modelled by the number of
    nanoseconds it denotes, a [Z].  A nil [error] is [None].  What a call
    observes from outside the program (the clock, the random UUID, a
    failure of the remote service) is passed explicitly in an [Env]; the
    state of the store is passed in and returned. *)

From Stdlib Require Import ZArith NArith Lia Bool.
From Stdlib Require Import Ascii String.
From stdpp Require Import base option list strings gmap.

Local Open Scope Z_scope.

(* ===================================================================== *)
(** * Go strings                                                          *)
(* ===================================================================== *)

Module GoString.

(** [len(s)], a number of bytes. *)
Definition len (s : string) : nat := String.length s.

(** [s[i]]: the byte at index [i].  Out of range Go panics; every use
    below is guarded by the loop bounds, and [None] stands for the
    panic. *)
Definition at_ (s : string) (i : nat) : option ascii := String.get i s.

(** The bytes of a string, for reasoning with list lemmas. *)
Definition bytes (s : string) : list ascii := list_ascii_of_string s.

Definition byte_val (c : ascii) : N := N_of_ascii c.

(** [substr] occurs in [s] as a contiguous run of bytes. *)
Definition Occurs (substr s : string) : Prop :=
  exists pre post : string, s = pre +:+ substr +:+ post.

(** ** [strings.TrimSpace] (Go standard library)

    [TrimSpace] removes leading and trailing white space, as defined by
    [unicode.IsSpace]: the six ASCII characters tab, line feed, vertical
    tab, form feed, carriage return and space, and the runes U+0085,
    U+00A0, U+1680, U+2000..U+200A, U+2028, U+2029, U+202F, U+205F and
    U+3000.  On the bytes of a string a white-space rune is one of the
    following UTF-8 encodings; a byte sequence that is not valid UTF-8
    decodes to U+FFFD, which is not white space. *)
Definition isSpaceRune (bs : list N) : bool :=
  match bs with
  | [b] => ((9 <=? b) && (b <=? 13) || (b =? 32))%N
  | [194; b] => ((b =? 133) || (b =? 160))%N                  (* C2 85, C2 A0 *)
  | [225; 154; 128] => true                                    (* E1 9A 80 *)
  | [226; 128; b] =>                                           (* E2 80 80..8A, A8, A9, AF *)
      ((128 <=? b) && (b <=? 138) || (b =? 168) || (b =? 169) || (b =? 175))%N
  | [226; 129; 159] => true                                    (* E2 81 9F *)
  | [227; 128; 128] => true                                    (* E3 80 80 *)
  | _ => false
  end%N.

Definition firstBytes (k : nat) (l : list N) : list N := take k l.
Definition lastBytes (k : nat) (l : list N) : list N :=
  if (k <=? length l)%nat then drop (length l - k) l else [].

(** [TrimLeftFunc(s, unicode.IsSpace)]: decode a rune at the front, drop
    it while it is white space.  [fuel] bounds the iterations by the
    length of the input. *)
Fixpoint trimLeft (fuel : nat) (l : list N) : list N :=
  match fuel with
  | O => l
  | S fuel' =>
      if isSpaceRune (firstBytes 1 l) then trimLeft fuel' (drop 1 l)
      else if isSpaceRune (firstBytes 2 l) then trimLeft fuel' (drop 2 l)
      else if isSpaceRune (firstBytes 3 l) then trimLeft fuel' (drop 3 l)
      else l
  end.

(** [TrimRightFunc(s, unicode.IsSpace)]: decode the last rune, drop it
    while it is white space. *)
Fixpoint trimRight (fuel : nat) (l : list N) : list N :=
  match fuel with
  | O => l
  | S fuel' =>
      if isSpaceRune (lastBytes 1 l) then trimRight fuel' (take (length l - 1) l)
      else if isSpaceRune (lastBytes 2 l) then trimRight fuel' (take (length l - 2) l)
      else if isSpaceRune (lastBytes 3 l) then trimRight fuel' (take (length l - 3) l)
      else l
  end.

Definition TrimSpace (s : string) : string :=
  let l := map byte_val (bytes s) in
  let l1 := trimLeft (length l) l in
  let l2 := trimRight (length l1) l1 in
  string_of_list_ascii (map ascii_of_N l2).

(** ** [strconv.Atoi] (Go standard library), for a 64-bit [int]

    [Atoi(s)] is [ParseInt(s, 10, 0)]: an optional sign, then one or
    more decimal digits; no underscores in base 10.  The digits are
    accumulated in a [uint64]; overflow is a range error. *)
Inductive NumError := ErrSyntax | ErrRange.

Definition digitVal (c : ascii) : option Z :=
  if ((48 <=? byte_val c) && (byte_val c <=? 57))%N
  then Some (Z.of_N (byte_val c) - 48) else None.

Definition maxUint64 : Z := 2 ^ 64 - 1.

(** The loop of [ParseUint(s, 10, 64)]; [cutoff = maxUint64/10 + 1] is
    the least [n] for which [n*10] overflows. *)
Fixpoint parseUintLoop (s : string) (n : Z) : Z + NumError :=
  match s with
  | EmptyString => inl n
  | String c rest =>
      match digitVal c with
      | None => inr ErrSyntax
      | Some d =>
          if maxUint64 / 10 + 1 <=? n then inr ErrRange
          else
            let n1 := n * 10 + d in
            if maxUint64 <? n1 then inr ErrRange
            else parseUintLoop rest n1
      end
  end.

Definition ParseUint (s : string) : Z + NumError :=
  match s with
  | EmptyString => inr ErrSyntax
  | _ => parseUintLoop s 0
  end.

Definition Atoi (s : string) : Z + NumError :=
  match s with
  | EmptyString => inr ErrSyntax
  | String c rest =>
      let neg := bool_decide (c = "-"%char) in
      let digits :=
        if bool_decide (c = "+"%char) || neg then rest else s in
      match ParseUint digits with
      | inr ErrSyntax => inr ErrSyntax
      | inr ErrRange => inr ErrRange
      | inl un =>
          if negb neg && (2 ^ 63 <=? un) then inr ErrRange
          else if neg && (2 ^ 63 <? un) then inr ErrRange
          else inl (if neg then - un else un)
      end
  end.

End GoString.


(* ===================================================================== *)
(** * Go error values                                                     *)
(* ===================================================================== *)

Module GoErrors.

(** The package-level values made with [errors.New].  [errors.Is] compares
    error values by identity, so each of them is a constant of its own. *)
Inductive ident :=
  (* internal/repository/errors.go *)
  | IdItemNotFound | IdItemAlreadyExists | IdInvalidInput
  | IdConnectionFailed | IdOperationFailed
  (* internal/models/item.go *)
  | IdEmptyName | IdEmptyDescription | IdInvalidStatus
  | IdNameTooLong | IdDescriptionTooLong.

#[global] Instance ident_eq_dec : EqDecision ident.
Proof. solve_decision. Defined.

Definition identMessage (v : ident) : string :=
  match v with
  | IdItemNotFound => "item not found"
  | IdItemAlreadyExists => "item already exists"
  | IdInvalidInput => "invalid input"
  | IdConnectionFailed => "database connection failed"
  | IdOperationFailed => "database operation failed"
  | IdEmptyName => "name cannot be empty"
  | IdEmptyDescription => "description cannot be empty"
  | IdInvalidStatus => "status must be one of: active, inactive, pending"
  | IdNameTooLong => "name cannot exceed 100 characters"
  | IdDescriptionTooLong => "description cannot exceed 500 characters"
  end.

(** The exception types of the DynamoDB SDK that [errors.As] looks for. *)
Inductive awsType :=
  | ResourceNotFoundException
  | ConditionalCheckFailedException
  | ProvisionedThroughputExceededException
  | ResourceInUseException
  | InternalServerError.

#[global] Instance awsType_eq_dec : EqDecision awsType.
Proof. solve_decision. Defined.

(** A non-nil error value: a chain of wrappers ending in a leaf. *)
Inductive error :=
  | PkgError (v : ident)                   (* one of the package-level values *)
  | NewError (msg : string)                (* any other leaf, e.g. a fresh [errors.New(msg)] *)
  | AwsError (t : awsType) (msg : string)  (* an SDK exception *)
  | WrapError (msg : string) (err : error) (* [Error()] is [msg], [Unwrap()] is [err] *).

(** [err.Error()] *)
Definition Error (e : error) : string :=
  match e with
  | PkgError v => identMessage v
  | NewError msg => msg
  | AwsError _ msg => msg
  | WrapError msg _ => msg
  end.

(** [errors.Is(err, target)] for a package-level [target]. *)
Fixpoint Is (err : error) (target : ident) : bool :=
  match err with
  | PkgError v => bool_decide (v = target)
  | WrapError _ inner => Is inner target
  | NewError _ | AwsError _ _ => false
  end.

(** [errors.As(err, &target)] for a [target] of SDK exception type [t]. *)
Fixpoint As (err : error) (t : awsType) : bool :=
  match err with
  | AwsError t' _ => bool_decide (t' = t)
  | WrapError _ inner => As inner t
  | PkgError _ | NewError _ => false
  end.

(** [fmt.Errorf("%w: %s", w, s)] *)
Definition Errorf_w_s (w : error) (s : string) : error :=
  WrapError (Error w +:+ ": " +:+ s) w.

(** [fmt.Errorf(prefix + "%w", err)] *)
Definition Errorf_s_w (prefix : string) (err : error) : error :=
  WrapError (prefix +:+ Error err) err.

End GoErrors.

(* ===================================================================== *)
(** * internal/models/item.go                                             *)
(* ===================================================================== *)

Module Models.
Import GoString GoErrors.

(** [time.Time]: nanoseconds since the zero [Time]. *)
Definition Time := Z.

Record Item := {
  ID : string;
  Name : string;
  Description : string;
  CreatedAt : Time;
  UpdatedAt : Time;
  Status : string
}.

Module CreateItemRequest.
Record t := { Name : string; Description : string }.
End CreateItemRequest.

Module UpdateItemRequest.
Record t := { Name : string; Description : string; Status : string }.
End UpdateItemRequest.

Record ErrorInfo := {
  Code : string;
  Message : string;
  Type_ : string;
  Details : string
}.

(** The values the handlers put in [Data interface{}]: an item, or a JSON
    object ([map[string]interface{}]) of strings, booleans, numbers and
    item lists. *)
Inductive Field :=
  | FString (s : string)
  | FBool (b : bool)
  | FInt (n : Z)
  | FItems (items : list Item).

Inductive Payload :=
  | PItem (item : Item)
  | PObject (fields : gmap string Field).

(** [Data] and [Error] are [omitempty]: [None] is the absent field. *)
Record APIResponse := {
  Success : bool;
  Data : option Payload;
  Error_ : option ErrorInfo
}.

Definition ErrEmptyName : error := PkgError IdEmptyName.
Definition ErrEmptyDescription : error := PkgError IdEmptyDescription.
Definition ErrInvalidStatus : error := PkgError IdInvalidStatus.
Definition ErrNameTooLong : error := PkgError IdNameTooLong.
Definition ErrDescriptionTooLong : error := PkgError IdDescriptionTooLong.

(** [isValidStatus] *)
Definition isValidStatus (status : string) : bool :=
  existsb (fun validStatus => bool_decide (status = validStatus))
          ["active"; "inactive"; "pending"].

(** [(r *CreateItemRequest) Validate] *)
Definition CreateItemRequest_Validate (r : CreateItemRequest.t) : option error :=
  if bool_decide (TrimSpace (CreateItemRequest.Name r) = "") then Some ErrEmptyName
  else if (100 <? len (CreateItemRequest.Name r))%nat then Some ErrNameTooLong
  else if bool_decide (TrimSpace (CreateItemRequest.Description r) = "") then Some ErrEmptyDescription
  else if (500 <? len (CreateItemRequest.Description r))%nat then Some ErrDescriptionTooLong
  else None.

(** [(r *UpdateItemRequest) Validate]: the three blocks in sequence, each
    returning early on failure. *)
Definition UpdateItemRequest_Validate (r : UpdateItemRequest.t) : option error :=
  let checkName :=
    if bool_decide (UpdateItemRequest.Name r <> "") then
      if bool_decide (TrimSpace (UpdateItemRequest.Name r) = "") then Some ErrEmptyName
      else if (100 <? len (UpdateItemRequest.Name r))%nat then Some ErrNameTooLong
      else None
    else None in
  let checkDescription :=
    if bool_decide (UpdateItemRequest.Description r <> "") then
      if bool_decide (TrimSpace (UpdateItemRequest.Description r) = "") then Some ErrEmptyDescription
      else if (500 <? len (UpdateItemRequest.Description r))%nat then Some ErrDescriptionTooLong
      else None
    else None in
  let checkStatus :=
    if bool_decide (UpdateItemRequest.Status r <> "") then
      if negb (isValidStatus (UpdateItemRequest.Status r)) then Some ErrInvalidStatus
      else None
    else None in
  match checkName with
  | Some e => Some e
  | None =>
      match checkDescription with
      | Some e => Some e
      | None => checkStatus
      end
  end.

(** [(i *Item) Validate] *)
Definition Item_Validate (i : Item) : option error :=
  if bool_decide (TrimSpace (Name i) = "") then Some ErrEmptyName
  else if (100 <? len (Name i))%nat then Some ErrNameTooLong
  else if bool_decide (TrimSpace (Description i) = "") then Some ErrEmptyDescription
  else if (500 <? len (Description i))%nat then Some ErrDescriptionTooLong
  else if negb (isValidStatus (Status i)) then Some ErrInvalidStatus
  else None.

(** [NewItem]; [now] is the reading of [time.Now()]. *)
Definition NewItem (now : Time) (name description : string) : Item :=
  {| ID := "";
     Name := name;
     Description := description;
     Status := "active";
     CreatedAt := now;
     UpdatedAt := now |}.

(** [(i *Item) UpdateFields]; [now] is the reading of [time.Now()]. *)
Definition UpdateFields (now : Time) (i : Item) (req : UpdateItemRequest.t) : Item :=
  let i1 := if bool_decide (UpdateItemRequest.Name req <> "")
            then {| ID := ID i; Name := UpdateItemRequest.Name req;
                    Description := Description i; CreatedAt := CreatedAt i;
                    UpdatedAt := UpdatedAt i; Status := Status i |}
            else i in
  let i2 := if bool_decide (UpdateItemRequest.Description req <> "")
            then {| ID := ID i1; Name := Name i1;
                    Description := UpdateItemRequest.Description req;
                    CreatedAt := CreatedAt i1; UpdatedAt := UpdatedAt i1;
                    Status := Status i1 |}
            else i1 in
  let i3 := if bool_decide (UpdateItemRequest.Status req <> "")
            then {| ID := ID i2; Name := Name i2; Description := Description i2;
                    CreatedAt := CreatedAt i2; UpdatedAt := UpdatedAt i2;
                    Status := UpdateItemRequest.Status req |}
            else i2 in
  {| ID := ID i3; Name := Name i3; Description := Description i3;
     CreatedAt := CreatedAt i3; UpdatedAt := now; Status := Status i3 |}.

End Models.

(* ===================================================================== *)
(** * internal/repository                                                 *)
(* ===================================================================== *)

Module Repository.
Import GoString GoErrors Models.

(** ** errors.go *)

Definition ErrItemNotFound : error := PkgError IdItemNotFound.
Definition ErrItemAlreadyExists : error := PkgError IdItemAlreadyExists.
Definition ErrInvalidInput : error := PkgError IdInvalidInput.
Definition ErrConnectionFailed : error := PkgError IdConnectionFailed.
Definition ErrOperationFailed : error := PkgError IdOperationFailed.

(** The slice [s[i:j]]. *)
Definition slice (s : string) (i j : nat) : string := substring i (j - i) s.

(** The loop of [containsSubstring]; [n] counts the iterations that
    remain. *)
Fixpoint containsSubstringFrom (s substr : string) (i n : nat) : bool :=
  match n with
  | O => false
  | S n' =>
      if bool_decide (slice s i (i + len substr) = substr) then true
      else containsSubstringFrom s substr (S i) n'
  end.

(** [containsSubstring]: [for i := 0; i <= len(s)-len(substr); i++]. *)
Definition containsSubstring (s substr : string) : bool :=
  containsSubstringFrom s substr 0
    (Z.to_nat (Z.of_nat (len s) - Z.of_nat (len substr) + 1)).

(** [contains] of repository/errors.go. *)
Definition contains (s substr : string) : bool :=
  (len substr <=? len s)%nat &&
  (bool_decide (s = substr) ||
   ((len substr <? len s)%nat &&
    (bool_decide (slice s 0 (len substr) = substr) ||
     bool_decide (slice s (len s - len substr) (len s) = substr) ||
     containsSubstring s substr))).

(** [containsValidationError] *)
Definition containsValidationError (errMsg : string) : bool :=
  existsb (fun keyword => (0 <? len errMsg)%nat && contains errMsg keyword)
          ["ValidationException"; "validation"; "invalid"; "malformed"; "bad request"].

(** [HandleDynamoDBError]; [None] is the nil error. *)
Definition HandleDynamoDBError (err : option error) : option error :=
  match err with
  | None => None
  | Some err =>
      Some
        (if As err ResourceNotFoundException then
           Errorf_w_s ErrItemNotFound (Error err)
         else if As err ConditionalCheckFailedException then
           Errorf_w_s ErrItemAlreadyExists "conditional check failed"
         else if As err ProvisionedThroughputExceededException then
           Errorf_w_s ErrOperationFailed "throughput exceeded"
         else if As err ResourceInUseException then
           Errorf_w_s ErrOperationFailed "resource in use"
         else if As err InternalServerError then
           Errorf_w_s ErrOperationFailed "internal server error"
         else
           let errMsg := Error err in
           if containsValidationError errMsg then Errorf_w_s ErrInvalidInput errMsg
           else Errorf_w_s ErrOperationFailed errMsg)
  end.

(** [IsRetryableError] *)
Definition IsRetryableError (err : error) : bool :=
  As err ProvisionedThroughputExceededException || As err InternalServerError.

Definition IsNotFoundError (err : error) : bool := Is err IdItemNotFound.
Definition IsConflictError (err : error) : bool := Is err IdItemAlreadyExists.
Definition IsValidationError (err : error) : bool := Is err IdInvalidInput.
Definition IsConnectionError (err : error) : bool := Is err IdConnectionFailed.
Definition IsOperationError (err : error) : bool := Is err IdOperationFailed.

(** ** What a call observes from outside the program *)

Record Env := {
  now : Time;              (* the reading of [time.Now()] *)
  uuid : list ascii;       (* the 16 random bytes of [uuid.New()] *)
  fault : option error;    (* the error of the SDK call when it fails for a
                              reason of its own (network, throttling, a
                              lost response, ...) *)
  applied : bool           (* when the call fails so: whether the service
                              had applied the request all the same *)
}.

(** [UUID.String()] of github.com/google/uuid: the 16 bytes in hexadecimal,
    grouped 4-2-2-2-6.  The array is read with a zero default. *)
Definition hexDigit (n : N) : ascii :=
  nth (N.to_nat n) (bytes "0123456789abcdef") "0"%char.

Definition hexByte (b : ascii) : string :=
  String (hexDigit (byte_val b / 16)) (String (hexDigit (byte_val b mod 16)) "").

Definition uuidByte (u : list ascii) (i : nat) : ascii := nth i u zero.

Definition UUID_String (u : list ascii) : string :=
  hexByte (uuidByte u 0) +:+ hexByte (uuidByte u 1) +:+
  hexByte (uuidByte u 2) +:+ hexByte (uuidByte u 3) +:+ "-" +:+
  hexByte (uuidByte u 4) +:+ hexByte (uuidByte u 5) +:+ "-" +:+
  hexByte (uuidByte u 6) +:+ hexByte (uuidByte u 7) +:+ "-" +:+
  hexByte (uuidByte u 8) +:+ hexByte (uuidByte u 9) +:+ "-" +:+
  hexByte (uuidByte u 10) +:+ hexByte (uuidByte u 11) +:+
  hexByte (uuidByte u 12) +:+ hexByte (uuidByte u 13) +:+
  hexByte (uuidByte u 14) +:+ hexByte (uuidByte u 15).

(** ** The DynamoDB table and the SDK calls

    The service is not part of the repository.  It is modelled as the
    key-value capability the adapter relies on: a table of attribute
    maps keyed by the [id] attribute, with conditional put, get, scan
    with a limit, conditional update and conditional delete.  A condition
    that does not hold makes the call fail with
    [ConditionalCheckFailedException], which the SDK returns wrapped in
    its operation error.

    A call can also fail for a reason of its own, [fault]: the request
    did not reach the service, or the answer did not reach the caller.
    In the second case a write has been applied although the call
    returns an error (a lost response, or a conditional write that the
    SDK sent again and that finds its own first attempt); [applied] says
    which of the two happened. *)

(** [types.AttributeValue]: the [S] member, and the [S] member holding
    the RFC 3339 text of a [time.Time], kept as the instant it denotes. *)
Inductive AttributeValue :=
  | AttrS (Value : string)
  | AttrTime (Value : Time).

Abbreviation attrs := (gmap string AttributeValue).
Abbreviation Table := (gmap string (gmap string AttributeValue)).

(** [attributevalue.MarshalMap(item)], by the [dynamodbav] tags. *)
Definition MarshalMap (item : Item) : attrs :=
  <["id" := AttrS (ID item)]>
  (<["name" := AttrS (Name item)]>
  (<["description" := AttrS (Description item)]>
  (<["created_at" := AttrTime (CreatedAt item)]>
  (<["updated_at" := AttrTime (UpdatedAt item)]>
  (<["status" := AttrS (Status item)]> ∅))))).

Definition unmarshalTypeError : error :=
  NewError "unmarshal failed, cannot unmarshal attribute into Go value".

(** A [string] field: a missing attribute leaves the zero value. *)
Definition unmarshalString (m : attrs) (tag : string) : string + error :=
  match m !! tag with
  | None => inl ""
  | Some (AttrS s) => inl s
  | Some (AttrTime _) => inr unmarshalTypeError
  end.

(** A [time.Time] field. *)
Definition unmarshalTime (m : attrs) (tag : string) : Time + error :=
  match m !! tag with
  | None => inl 0
  | Some (AttrTime t) => inl t
  | Some (AttrS _) => inr unmarshalTypeError
  end.

Definition bindE {A B : Type} (x : A + error) (k : A -> B + error) : B + error :=
  match x with
  | inl a => k a
  | inr e => inr e
  end.

Notation "x <-! e ; k" := (bindE e (fun x => k))
  (at level 60, e at next level, right associativity).

(** [attributevalue.UnmarshalMap(m, &item)] *)
Definition UnmarshalMap (m : attrs) : Item + error :=
  id <-! unmarshalString m "id";
  name <-! unmarshalString m "name";
  description <-! unmarshalString m "description";
  created <-! unmarshalTime m "created_at";
  updated <-! unmarshalTime m "updated_at";
  status <-! unmarshalString m "status";
  inl {| ID := id; Name := name; Description := description;
         CreatedAt := created; UpdatedAt := updated; Status := status |}.

(** [attributevalue.UnmarshalListOfMaps] *)
Fixpoint UnmarshalListOfMaps (l : list attrs) : list Item + error :=
  match l with
  | [] => inl []
  | m :: rest =>
      item <-! UnmarshalMap m;
      items <-! UnmarshalListOfMaps rest;
      inl (item :: items)
  end.

Inductive Condition :=
  | attribute_not_exists_id   (* "attribute_not_exists(id)" *)
  | attribute_exists_id.      (* "attribute_exists(id)" *)

Definition holds (c : Condition) (tbl : Table) (key : string) : bool :=
  match c, tbl !! key with
  | attribute_not_exists_id, None => true
  | attribute_not_exists_id, Some _ => false
  | attribute_exists_id, Some _ => true
  | attribute_exists_id, None => false
  end.

Module DynamoDBClient.

(** The error of a call whose condition expression is false. *)
Definition conditionalCheckFailed (operation : string) : error :=
  WrapError
    ("operation error DynamoDB: " +:+ operation +:+
     ", https response error StatusCode: 400, " +:+
     "ConditionalCheckFailedException: The conditional request failed")
    (AwsError ConditionalCheckFailedException
       "ConditionalCheckFailedException: The conditional request failed").

Definition validationException (operation message : string) : error :=
  NewError ("operation error DynamoDB: " +:+ operation +:+
            ", https response error StatusCode: 400, ValidationException: " +:+ message).

Definition keyOf (item : attrs) : option string :=
  match item !! "id" with
  | Some (AttrS k) => Some k
  | _ => None
  end.

Record PutItemInput := {
  put_Item : attrs;
  put_ConditionExpression : Condition
}.

(** What the service does with a [PutItem] request. *)
Definition servePutItem (tbl : Table) (input : PutItemInput) : Table * option error :=
  match keyOf (put_Item input) with
  | None => (tbl, Some (validationException "PutItem" "Missing the key id in the item"))
  | Some key =>
      if holds (put_ConditionExpression input) tbl key
      then (<[key := put_Item input]> tbl, None)
      else (tbl, Some (conditionalCheckFailed "PutItem"))
  end.

Definition PutItem (env : Env) (tbl : Table) (input : PutItemInput)
  : Table * option error :=
  match fault env with
  | Some e => (if applied env then (servePutItem tbl input).1 else tbl, Some e)
  | None => servePutItem tbl input
  end.

(** [GetItem]: [result.Item] is [nil] when no item has the key. *)
Definition GetItem (env : Env) (tbl : Table) (key : string)
  : option attrs + error :=
  match fault env with
  | Some e => inr e
  | None => inl (tbl !! key)
  end.

(** [Scan]: at most [limit] items after the exclusive start key, and the
    key of the last one when more remain. *)
Fixpoint dropThrough (key : string) (l : list (string * attrs)) : list (string * attrs) :=
  match l with
  | [] => []
  | (k, _) :: rest => if bool_decide (k = key) then rest else dropThrough key rest
  end.

Record ScanOutput := {
  scan_Items : list attrs;
  scan_LastEvaluatedKey : option attrs
}.

Definition Scan (env : Env) (tbl : Table) (limit : Z) (start : option attrs)
  : ScanOutput + error :=
  match fault env with
  | Some e => inr e
  | None =>
      let all := map_to_list tbl in
      let rest :=
        match start with
        | None => all
        | Some k => match keyOf k with
                    | Some key => dropThrough key all
                    | None => all
                    end
        end in
      let page := take (Z.to_nat limit) rest in
      inl {| scan_Items := page.*2;
             scan_LastEvaluatedKey :=
               if (length page <? length rest)%nat
               then (fun kv => <["id" := AttrS kv.1]> (∅ : attrs)) <$> last page
               else None |}
  end.

(** An update expression [SET p1 = v1, p2 = v2, ...] as the list of its
    clauses [(p, v)]; a path starting with [#] is looked up in the
    attribute names, a value [:v] in the attribute values. *)
Record UpdateItemInput := {
  upd_Key : string;
  upd_UpdateExpression : list (string * string);
  upd_ExpressionAttributeValues : attrs;
  upd_ExpressionAttributeNames : option (gmap string string);
  upd_ConditionExpression : Condition
}.

Definition resolvePath (names : option (gmap string string)) (path : string)
  : option string :=
  match path with
  | String "#" _ => match names with
                    | Some m => m !! path
                    | None => None
                    end
  | _ => Some path
  end.

Fixpoint applySet (input : UpdateItemInput) (clauses : list (string * string))
                  (item : attrs) : attrs + error :=
  match clauses with
  | [] => inl item
  | (path, placeholder) :: rest =>
      match resolvePath (upd_ExpressionAttributeNames input) path,
            upd_ExpressionAttributeValues input !! placeholder with
      | Some name, Some v => applySet input rest (<[name := v]> item)
      | _, _ => inr (validationException "UpdateItem" "Invalid UpdateExpression")
      end
  end.

(** What the service does with an [UpdateItem] request with
    [ReturnValues: ALL_NEW]: the attributes of the item after the
    update. *)
Definition serveUpdateItem (tbl : Table) (input : UpdateItemInput)
  : Table * (attrs + error) :=
  if holds (upd_ConditionExpression input) tbl (upd_Key input) then
    let old := default (<["id" := AttrS (upd_Key input)]> ∅) (tbl !! upd_Key input) in
    match applySet input (upd_UpdateExpression input) old with
    | inl new => (<[upd_Key input := new]> tbl, inl new)
    | inr e => (tbl, inr e)
    end
  else (tbl, inr (conditionalCheckFailed "UpdateItem")).

Definition UpdateItem (env : Env) (tbl : Table) (input : UpdateItemInput)
  : Table * (attrs + error) :=
  match fault env with
  | Some e => (if applied env then (serveUpdateItem tbl input).1 else tbl, inr e)
  | None => serveUpdateItem tbl input
  end.

(** What the service does with a [DeleteItem] request. *)
Definition serveDeleteItem (tbl : Table) (key : string) (c : Condition)
  : Table * option error :=
  if holds c tbl key then (delete key tbl, None)
  else (tbl, Some (conditionalCheckFailed "DeleteItem")).

Definition DeleteItem (env : Env) (tbl : Table) (key : string) (c : Condition)
  : Table * option error :=
  match fault env with
  | Some e => (if applied env then (serveDeleteItem tbl key c).1 else tbl, Some e)
  | None => serveDeleteItem tbl key c
  end.

(** [DescribeTable], used by the health check. *)
Definition DescribeTable (env : Env) (tbl : Table) : option error := fault env.

End DynamoDBClient.

(** ** dynamodb.go *)

Record ListItemsOptions := {
  Limit : Z;                              (* int32 *)
  opt_LastEvaluatedKey : option attrs
}.

Record ListItemsResult := {
  Items : list Item;
  LastEvaluatedKey : option attrs;
  HasMore : bool
}.

Module DynamoDBRepository.
Import DynamoDBClient.

Record t := {
  client : Table;        (* the table behind [*dynamodb.Client] *)
  tableName : string
}.

Definition withTable (r : t) (tbl : Table) : t :=
  {| client := tbl; tableName := tableName r |}.

Definition withID (item : Item) (id : string) : Item :=
  {| ID := id; Name := Name item; Description := Description item;
     CreatedAt := CreatedAt item; UpdatedAt := UpdatedAt item;
     Status := Status item |}.

(** [(r *DynamoDBRepository) CreateItem] *)
Definition CreateItem (r : t) (env : Env) (item : Item) : t * Item * option error :=
  let item := if bool_decide (ID item = "")
              then withID item (UUID_String (uuid env)) else item in
  match Item_Validate item with
  | Some err => (r, item, Some (Errorf_w_s ErrInvalidInput (Error err)))
  | None =>
      (* [MarshalMap] does not fail on an [Item] *)
      let av := MarshalMap item in
      let input := {| put_Item := av;
                      put_ConditionExpression := attribute_not_exists_id |} in
      let '(tbl, err) := PutItem env (client r) input in
      match err with
      | Some err =>
          if As err ConditionalCheckFailedException then
            (withTable r tbl, item,
             Some (Errorf_w_s ErrItemAlreadyExists "item with this ID already exists"))
          else (withTable r tbl, item, HandleDynamoDBError (Some err))
      | None => (withTable r tbl, item, None)
      end
  end.

(** [(r *DynamoDBRepository) GetItem] *)
Definition GetItem (r : t) (env : Env) (id : string) : t * (Item + error) :=
  if bool_decide (id = "") then
    (r, inr (Errorf_w_s ErrInvalidInput "item ID cannot be empty"))
  else
    match DynamoDBClient.GetItem env (client r) id with
    | inr err => (r, match HandleDynamoDBError (Some err) with
                     | Some e => inr e
                     | None => inr err
                     end)
    | inl None => (r, inr ErrItemNotFound)
    | inl (Some av) =>
        match UnmarshalMap av with
        | inr err => (r, inr (Errorf_s_w "failed to unmarshal item: " err))
        | inl item => (r, inl item)
        end
    end.

(** [(r *DynamoDBRepository) ListItems] *)
Definition ListItems (r : t) (env : Env) (options : option ListItemsOptions)
  : t * (ListItemsResult + error) :=
  let options := default {| Limit := 50; opt_LastEvaluatedKey := None |} options in
  let limit := if Limit options <=? 0 then 50 else Limit options in
  let limit := if 100 <? limit then 100 else limit in
  match Scan env (client r) limit (opt_LastEvaluatedKey options) with
  | inr err => (r, match HandleDynamoDBError (Some err) with
                   | Some e => inr e
                   | None => inr err
                   end)
  | inl result =>
      match UnmarshalListOfMaps (scan_Items result) with
      | inr err => (r, inr (Errorf_s_w "failed to unmarshal items: " err))
      | inl items =>
          (r, inl {| Items := items;
                     LastEvaluatedKey := scan_LastEvaluatedKey result;
                     HasMore := bool_decide (scan_LastEvaluatedKey result <> None) |})
      end
  end.

(** [(r *DynamoDBRepository) UpdateItem] *)
Definition UpdateItem (r : t) (env : Env) (id : string)
                      (updates : option UpdateItemRequest.t) : t * (Item + error) :=
  if bool_decide (id = "") then
    (r, inr (Errorf_w_s ErrInvalidInput "item ID cannot be empty"))
  else
    match updates with
    | None => (r, inr (Errorf_w_s ErrInvalidInput "updates cannot be nil"))
    | Some updates =>
        match UpdateItemRequest_Validate updates with
        | Some err => (r, inr (Errorf_w_s ErrInvalidInput (Error err)))
        | None =>
            let hasName := bool_decide (UpdateItemRequest.Name updates <> "") in
            let hasDescription := bool_decide (UpdateItemRequest.Description updates <> "") in
            let hasStatus := bool_decide (UpdateItemRequest.Status updates <> "") in
            (* "SET updated_at = :updated_at" and the clauses appended to it;
               marshalling the time stamp does not fail *)
            let updateExpression :=
              [("updated_at", ":updated_at")]
              ++ (if hasName then [("#name", ":name")] else [])
              ++ (if hasDescription then [("description", ":description")] else [])
              ++ (if hasStatus then [("#status", ":status")] else []) in
            let v0 : attrs := <[":updated_at" := AttrTime (now env)]> ∅ in
            let v1 := if hasName
                      then <[":name" := AttrS (UpdateItemRequest.Name updates)]> v0 else v0 in
            let v2 := if hasDescription
                      then <[":description" := AttrS (UpdateItemRequest.Description updates)]> v1
                      else v1 in
            let expressionAttributeValues :=
              if hasStatus
              then <[":status" := AttrS (UpdateItemRequest.Status updates)]> v2 else v2 in
            let n0 : gmap string string := ∅ in
            let n1 := if hasName then <["#name" := "name"]> n0 else n0 in
            let expressionAttributeNames :=
              if hasStatus then <["#status" := "status"]> n1 else n1 in
            let input :=
              {| upd_Key := id;
                 upd_UpdateExpression := updateExpression;
                 upd_ExpressionAttributeValues := expressionAttributeValues;
                 upd_ExpressionAttributeNames :=
                   if (0 <? size expressionAttributeNames)%nat
                   then Some expressionAttributeNames else None;
                 upd_ConditionExpression := attribute_exists_id |} in
            let '(tbl, result) := DynamoDBClient.UpdateItem env (client r) input in
            match result with
            | inr err => (withTable r tbl,
                          match HandleDynamoDBError (Some err) with
                          | Some e => inr e
                          | None => inr err
                          end)
            | inl av =>
                match UnmarshalMap av with
                | inr err =>
                    (withTable r tbl,
                     inr (Errorf_s_w "failed to unmarshal updated item: " err))
                | inl item => (withTable r tbl, inl item)
                end
            end
        end
    end.

(** [(r *DynamoDBRepository) DeleteItem] *)
Definition DeleteItem (r : t) (env : Env) (id : string) : t * option error :=
  if bool_decide (id = "") then
    (r, Some (Errorf_w_s ErrInvalidInput "item ID cannot be empty"))
  else
    let '(tbl, err) := DynamoDBClient.DeleteItem env (client r) id attribute_exists_id in
    match err with
    | Some err => (withTable r tbl, HandleDynamoDBError (Some err))
    | None => (withTable r tbl, None)
    end.

(** [(r *DynamoDBRepository) GetTableName] *)
Definition GetTableName (r : t) : string := tableName r.

(** [(r *DynamoDBRepository) HealthCheck], through
    [(cm *ClientManager) HealthCheck]. *)
Definition HealthCheck (r : t) (env : Env) : option error :=
  match DescribeTable env (client r) with
  | Some err => Some (Errorf_s_w "DynamoDB health check failed: " err)
  | None => None
  end.

End DynamoDBRepository.

(** [ItemRepository], the storage port.  A method takes the state of the
    store and what the call observes, and returns the new state with the
    Go results.  [CreateItem] receives a pointer and may assign the
    item's ID, so it also returns the item as it is after the call. *)
Class ItemRepository (R : Type) := {
  CreateItem : R -> Env -> Item -> R * Item * option error;
  GetItem : R -> Env -> string -> R * (Item + error);
  ListItems : R -> Env -> option ListItemsOptions -> R * (ListItemsResult + error);
  UpdateItem : R -> Env -> string -> option UpdateItemRequest.t -> R * (Item + error);
  DeleteItem : R -> Env -> string -> R * option error;
  (* the type assertion of [repo] to a pointer to [DynamoDBRepository] *)
  asDynamoDB : R -> option DynamoDBRepository.t
}.

#[global] Instance DynamoDB_ItemRepository : ItemRepository DynamoDBRepository.t := {|
  CreateItem := DynamoDBRepository.CreateItem;
  GetItem := DynamoDBRepository.GetItem;
  ListItems := DynamoDBRepository.ListItems;
  UpdateItem := DynamoDBRepository.UpdateItem;
  DeleteItem := DynamoDBRepository.DeleteItem;
  asDynamoDB := Some
|}.

End Repository.

(* ===================================================================== *)
(** * internal/handlers                                                   *)
(* ===================================================================== *)

Module Handlers.
Import GoString GoErrors Models Repository.

(** ** errors.go *)

(** [type ErrorType string] and [type ErrorCode string] *)
Definition ErrorType := string.
Definition ErrorCode := string.

Definition ErrorTypeValidation : ErrorType := "validation".
Definition ErrorTypeNotFound : ErrorType := "not_found".
Definition ErrorTypeConflict : ErrorType := "conflict".
Definition ErrorTypeDatabase : ErrorType := "database".
Definition ErrorTypeSystem : ErrorType := "system".
Definition ErrorTypeAuth : ErrorType := "authentication".
Definition ErrorTypeRate : ErrorType := "rate_limit".

Definition CodeInvalidRequest : ErrorCode := "INVALID_REQUEST".
Definition CodeMissingField : ErrorCode := "MISSING_FIELD".
Definition CodeInvalidFormat : ErrorCode := "INVALID_FORMAT".
Definition CodeValueTooLong : ErrorCode := "VALUE_TOO_LONG".
Definition CodeInvalidValue : ErrorCode := "INVALID_VALUE".
Definition CodeNotFound : ErrorCode := "NOT_FOUND".
Definition CodeAlreadyExists : ErrorCode := "ALREADY_EXISTS".
Definition CodeDatabaseError : ErrorCode := "DATABASE_ERROR".
Definition CodeConnectionError : ErrorCode := "CONNECTION_ERROR".
Definition CodeOperationFailed : ErrorCode := "OPERATION_FAILED".
Definition CodeThroughputExceeded : ErrorCode := "THROUGHPUT_EXCEEDED".
Definition CodeInternalError : ErrorCode := "INTERNAL_ERROR".
Definition CodeServiceUnavailable : ErrorCode := "SERVICE_UNAVAILABLE".
Definition CodeTimeout : ErrorCode := "TIMEOUT".
Definition CodeUnauthorized : ErrorCode := "UNAUTHORIZED".
Definition CodeForbidden : ErrorCode := "FORBIDDEN".
Definition CodeRateLimitExceeded : ErrorCode := "RATE_LIMIT_EXCEEDED".

(** The [net/http] status codes used. *)
Definition StatusOK : Z := 200.
Definition StatusCreated : Z := 201.
Definition StatusBadRequest : Z := 400.
Definition StatusNotFound : Z := 404.
Definition StatusRequestTimeout : Z := 408.
Definition StatusConflict : Z := 409.
Definition StatusTooManyRequests : Z := 429.
Definition StatusInternalServerError : Z := 500.
Definition StatusServiceUnavailable : Z := 503.

Module APIError.
Record t := {
  Type_ : ErrorType;
  Code : ErrorCode;
  Message : string;
  Details : string;
  StatusCode : Z;
  Cause : option error
}.
End APIError.

(** [NewValidationError(code, message, details...)] *)
Definition NewValidationError (code : ErrorCode) (message : string)
                              (details : list string) : APIError.t :=
  let detail := match details with
                | d :: _ => d
                | [] => ""
                end in
  {| APIError.Type_ := ErrorTypeValidation;
     APIError.Code := code;
     APIError.Message := message;
     APIError.Details := detail;
     APIError.StatusCode := StatusBadRequest;
     APIError.Cause := None |}.

(** [NewNotFoundError] *)
Definition NewNotFoundError (resource id : string) : APIError.t :=
  {| APIError.Type_ := ErrorTypeNotFound;
     APIError.Code := CodeNotFound;
     APIError.Message := resource +:+ " not found";
     APIError.Details := "No " +:+ resource +:+ " found with ID: " +:+ id;
     APIError.StatusCode := StatusNotFound;
     APIError.Cause := None |}.

(** [NewConflictError] *)
Definition NewConflictError (resource details : string) : APIError.t :=
  {| APIError.Type_ := ErrorTypeConflict;
     APIError.Code := CodeAlreadyExists;
     APIError.Message := resource +:+ " already exists";
     APIError.Details := details;
     APIError.StatusCode := StatusConflict;
     APIError.Cause := None |}.

(** [NewDatabaseError] *)
Definition NewDatabaseError (code : ErrorCode) (message : string)
                            (cause : option error) : APIError.t :=
  let statusCode := if bool_decide (code = CodeThroughputExceeded)
                    then StatusTooManyRequests else StatusInternalServerError in
  {| APIError.Type_ := ErrorTypeDatabase;
     APIError.Code := code;
     APIError.Message := message;
     APIError.Details := "";
     APIError.StatusCode := statusCode;
     APIError.Cause := cause |}.

(** [NewSystemError] *)
Definition NewSystemError (code : ErrorCode) (message : string)
                          (cause : option error) : APIError.t :=
  let statusCode :=
    if bool_decide (code = CodeServiceUnavailable) then StatusServiceUnavailable
    else if bool_decide (code = CodeTimeout) then StatusRequestTimeout
    else StatusInternalServerError in
  {| APIError.Type_ := ErrorTypeSystem;
     APIError.Code := code;
     APIError.Message := message;
     APIError.Details := "";
     APIError.StatusCode := statusCode;
     APIError.Cause := cause |}.

(** *** Helper functions *)

(** [toLower]:
<<
    for i, b := range []byte(s) {
        if b >= 'A' && b <= 'Z' { result[i] = b + 32 } else { result[i] = b }
    }
>> *)
Definition lowerByte (b : ascii) : ascii :=
  if ((65 <=? byte_val b) && (byte_val b <=? 90))%N
  then ascii_of_N (byte_val b + 32)
  else b.

Fixpoint toLower (s : string) : string :=
  match s with
  | EmptyString => EmptyString
  | String b rest => String (lowerByte b) (toLower rest)
  end.

(** The inner loop of [findSubstring]:
<<
    for j := 0; j < len(substr); j++ {
        if s[i+j] != substr[j] { match = false; break }
    }
>>
    [n] counts the iterations that remain. *)
Fixpoint matchAt (s substr : string) (i j n : nat) : bool :=
  match n with
  | O => true
  | S n' =>
      if bool_decide (at_ s (i + j) = at_ substr j)
      then matchAt s substr i (S j) n'
      else false
  end.

(** The outer loop [for i := 0; i <= len(s)-len(substr); i++]; [n]
    counts the iterations that remain. *)
Fixpoint findFrom (s substr : string) (i n : nat) : Z :=
  match n with
  | O => -1
  | S n' =>
      if matchAt s substr i 0 (len substr)
      then Z.of_nat i
      else findFrom s substr (S i) n'
  end.

(** [findSubstring]: the index of [substr] in [s], or -1. *)
Definition findSubstring (s substr : string) : Z :=
  if (len substr =? 0)%nat then 0
  else if (len s <? len substr)%nat then -1
  else findFrom s substr 0 (len s - len substr + 1).

(** [contains] (case-sensitive). *)
Definition contains (s substr : string) : bool :=
  (len substr <=? len s)%nat && (0 <=? findSubstring s substr).

(** [containsAnyKeyword]: the message is lower-cased once, every keyword
    is lower-cased and searched for. *)
Definition containsAnyKeyword (message : string) (keywords : list string) : bool :=
  let msgLower := toLower message in
  existsb (fun keyword => contains msgLower (toLower keyword)) keywords.

(** [containsThroughputError] *)
Definition containsThroughputError (errMsg : string) : bool :=
  containsAnyKeyword errMsg ["throughput"; "capacity"; "throttling"; "rate"].

(** [containsError(errMsg, keywords...)] *)
Definition containsError (errMsg : string) (keywords : list string) : bool :=
  containsAnyKeyword errMsg keywords.

(** [MapRepositoryError]; [None] is the nil error and the nil result. *)
Definition MapRepositoryError (err : option error) : option APIError.t :=
  match err with
  | None => None
  | Some err =>
      Some
        (if IsNotFoundError err then
           {| APIError.Type_ := ErrorTypeNotFound;
              APIError.Code := CodeNotFound;
              APIError.Message := "Resource not found";
              APIError.Details := Error err;
              APIError.StatusCode := StatusNotFound;
              APIError.Cause := Some err |}
         else if IsConflictError err then
           {| APIError.Type_ := ErrorTypeConflict;
              APIError.Code := CodeAlreadyExists;
              APIError.Message := "Resource already exists";
              APIError.Details := Error err;
              APIError.StatusCode := StatusConflict;
              APIError.Cause := Some err |}
         else if IsValidationError err then
           {| APIError.Type_ := ErrorTypeValidation;
              APIError.Code := CodeInvalidRequest;
              APIError.Message := "Invalid input provided";
              APIError.Details := Error err;
              APIError.StatusCode := StatusBadRequest;
              APIError.Cause := Some err |}
         else if IsConnectionError err then
           {| APIError.Type_ := ErrorTypeDatabase;
              APIError.Code := CodeConnectionError;
              APIError.Message := "Database connection failed";
              APIError.Details := "Unable to connect to the database";
              APIError.StatusCode := StatusServiceUnavailable;
              APIError.Cause := Some err |}
         else if IsOperationError err then
           if containsThroughputError (Error err) then
             {| APIError.Type_ := ErrorTypeDatabase;
                APIError.Code := CodeThroughputExceeded;
                APIError.Message := "Database throughput exceeded";
                APIError.Details := "Please retry your request after a brief delay";
                APIError.StatusCode := StatusTooManyRequests;
                APIError.Cause := Some err |}
           else
             {| APIError.Type_ := ErrorTypeDatabase;
                APIError.Code := CodeDatabaseError;
                APIError.Message := "Database operation failed";
                APIError.Details := Error err;
                APIError.StatusCode := StatusInternalServerError;
                APIError.Cause := Some err |}
         else
           {| APIError.Type_ := ErrorTypeSystem;
              APIError.Code := CodeInternalError;
              APIError.Message := "An unexpected error occurred";
              APIError.Details := "Please try again later";
              APIError.StatusCode := StatusInternalServerError;
              APIError.Cause := Some err |})
  end.

(** [MapValidationError] *)
Definition MapValidationError (err : option error) : option APIError.t :=
  match err with
  | None => None
  | Some err =>
      let message := Error err in
      let code :=
        if containsError message ["empty"; "required"] then CodeMissingField
        else if containsError message ["too long"; "exceed"] then CodeValueTooLong
        else if containsError message ["invalid"; "format"] then CodeInvalidFormat
        else if containsError message ["status"; "one of"] then CodeInvalidValue
        else CodeInvalidRequest in
      Some {| APIError.Type_ := ErrorTypeValidation;
              APIError.Code := code;
              APIError.Message := message;
              APIError.Details := "";
              APIError.StatusCode := StatusBadRequest;
              APIError.Cause := Some err |}
  end.

(** What [writeJSONResponse(w, statusCode, data)] sends: the status line
    and the envelope encoded as the JSON body. *)
Record Response := {
  StatusCode : Z;
  Body : APIResponse
}.

Definition writeJSONResponse (statusCode : Z) (data : APIResponse) : Response :=
  {| StatusCode := statusCode; Body := data |}.

(** [WriteErrorResponse] (the log line is not modelled). *)
Definition WriteErrorResponse (apiErr : APIError.t) : Response :=
  let errorInfo := {| Models.Code := APIError.Code apiErr;
                      Models.Message := APIError.Message apiErr;
                      Models.Type_ := APIError.Type_ apiErr;
                      Models.Details := APIError.Details apiErr |} in
  let response := {| Success := false; Data := None; Error_ := Some errorInfo |} in
  writeJSONResponse (APIError.StatusCode apiErr) response.

(** [WriteValidationErrorResponse] and [WriteRepositoryErrorResponse] are
    called with a non-nil error only. *)
Definition WriteValidationErrorResponse (err : error) : Response :=
  match MapValidationError (Some err) with
  | Some apiErr => WriteErrorResponse apiErr
  | None => writeJSONResponse StatusInternalServerError
              {| Success := false; Data := None; Error_ := None |}
  end.

Definition WriteRepositoryErrorResponse (err : error) : Response :=
  match MapRepositoryError (Some err) with
  | Some apiErr => WriteErrorResponse apiErr
  | None => writeJSONResponse StatusInternalServerError
              {| Success := false; Data := None; Error_ := None |}
  end.

(** [WriteJSONParseErrorResponse] *)
Definition WriteJSONParseErrorResponse (err : error) : Response :=
  WriteErrorResponse
    {| APIError.Type_ := ErrorTypeValidation;
       APIError.Code := CodeInvalidFormat;
       APIError.Message := "Invalid JSON format";
       APIError.Details := "Request body contains malformed JSON";
       APIError.StatusCode := StatusBadRequest;
       APIError.Cause := Some err |}.

(** [WriteMissingParameterErrorResponse] *)
Definition WriteMissingParameterErrorResponse (parameter : string) : Response :=
  WriteErrorResponse
    {| APIError.Type_ := ErrorTypeValidation;
       APIError.Code := CodeMissingField;
       APIError.Message := parameter +:+ " is required";
       APIError.Details := "The required parameter '" +:+ parameter +:+
                           "' is missing from the request";
       APIError.StatusCode := StatusBadRequest;
       APIError.Cause := None |}.

(** [WriteInternalErrorResponse] *)
Definition WriteInternalErrorResponse (err : error) : Response :=
  WriteErrorResponse
    {| APIError.Type_ := ErrorTypeSystem;
       APIError.Code := CodeInternalError;
       APIError.Message := "Internal server error";
       APIError.Details := "An unexpected error occurred. Please try again later.";
       APIError.StatusCode := StatusInternalServerError;
       APIError.Cause := Some err |}.

(** ** handlers.go *)

(** [type ItemHandler struct { repo repository.ItemRepository }] *)
Record ItemHandler (R : Type) := { repo : R }.
Arguments repo {R} _.

(** The outcome of [json.NewDecoder(r.Body).Decode(&v)]: the decoded
    request, or the decoder's error. *)
Inductive Decoded (A : Type) :=
  | DecodeOK (v : A)
  | DecodeError (err : error).
Arguments DecodeOK {A} _.
Arguments DecodeError {A} _.

Section ItemHandlers.
Context {R : Type} `{ItemRepository R}.

(** [HealthCheck] *)
Definition HealthCheck (h : ItemHandler R) : ItemHandler R * Response :=
  let response :=
    {| Success := true;
       Data := Some (PObject (<["status" := FString "healthy"]>
                              (<["service" := FString "FIS Playground API"]> ∅)));
       Error_ := None |} in
  (h, writeJSONResponse StatusOK response).

(** [getTableName] *)
Definition getTableName (h : ItemHandler R) : string :=
  match asDynamoDB (repo h) with
  | Some dynamoRepo => DynamoDBRepository.GetTableName dynamoRepo
  | None => "unknown"
  end.

(** [HealthCheckDB] *)
Definition HealthCheckDB (h : ItemHandler R) (env : Env) : ItemHandler R * Response :=
  let '(dynamoDBStatus, dynamoDBMessage) :=
    match asDynamoDB (repo h) with
    | Some dynamoRepo =>
        match DynamoDBRepository.HealthCheck dynamoRepo env with
        | Some err => ("unhealthy", Error err)
        | None => ("healthy", "Connected")
        end
    | None => ("unknown", "Repository type not recognized")
    end in
  let success := bool_decide (dynamoDBStatus = "healthy") in
  let statusCode := if negb success then StatusServiceUnavailable else StatusOK in
  let response :=
    {| Success := success;
       Data := Some (PObject (<["status" := FString dynamoDBStatus]>
                              (<["service" := FString "DynamoDB"]>
                              (<["message" := FString dynamoDBMessage]>
                              (<["tableName" := FString (getTableName h)]> ∅)))));
       Error_ := None |} in
  (h, writeJSONResponse statusCode response).

(** [CreateItem]: POST /items *)
Definition CreateItem (h : ItemHandler R) (env : Env)
                      (body : Decoded CreateItemRequest.t) : ItemHandler R * Response :=
  match body with
  | DecodeError err => (h, WriteJSONParseErrorResponse err)
  | DecodeOK createReq =>
      match CreateItemRequest_Validate createReq with
      | Some err => (h, WriteValidationErrorResponse err)
      | None =>
          let item := NewItem (now env) (CreateItemRequest.Name createReq)
                              (CreateItemRequest.Description createReq) in
          let '(r, item, err) := Repository.CreateItem (repo h) env item in
          match err with
          | Some err => ({| repo := r |}, WriteRepositoryErrorResponse err)
          | None =>
              let response := {| Success := true; Data := Some (PItem item);
                                 Error_ := None |} in
              ({| repo := r |}, writeJSONResponse StatusCreated response)
          end
      end
  end.

(** [GetItem]: GET /items/{id}; [itemID] is [chi.URLParam(r, "id")]. *)
Definition GetItem (h : ItemHandler R) (env : Env) (itemID : string)
  : ItemHandler R * Response :=
  if bool_decide (itemID = "") then (h, WriteMissingParameterErrorResponse "Item ID")
  else
    let '(r, result) := Repository.GetItem (repo h) env itemID in
    match result with
    | inr err => ({| repo := r |}, WriteRepositoryErrorResponse err)
    | inl item =>
        let response := {| Success := true; Data := Some (PItem item);
                           Error_ := None |} in
        ({| repo := r |}, writeJSONResponse StatusOK response)
    end.

(** The conversion [int32(limit)]. *)
Definition int32 (n : Z) : Z := (n + 2 ^ 31) mod 2 ^ 32 - 2 ^ 31.

(** [ListItems], first part: the options built from the [limit] query
    parameter ([limitStr] is [r.URL.Query().Get("limit")], empty when the
    parameter is absent), or the error response that ends the request. *)
Definition ListItems_options (limitStr : string) : ListItemsOptions + Response :=
  let options := {| Limit := 50; opt_LastEvaluatedKey := None |} in
  if bool_decide (limitStr <> "") then
    match Atoi limitStr with
    | inr _ =>
        let apiErr := NewValidationError CodeInvalidFormat "Invalid limit parameter"
                                         ["Limit must be a valid integer"] in
        inr (WriteErrorResponse apiErr)
    | inl limit =>
        if (limit <=? 0) || (100 <? limit) then
          let apiErr := NewValidationError CodeInvalidValue "Invalid limit value"
                                           ["Limit must be between 1 and 100"] in
          inr (WriteErrorResponse apiErr)
        else
          inl {| Limit := int32 limit;
                 opt_LastEvaluatedKey := opt_LastEvaluatedKey options |}
    end
  else inl options.

(** [ListItems], second part: the call of the storage port and the
    response.  The [next_token] query parameter is only logged. *)
Definition ListItems_query (h : ItemHandler R) (env : Env) (options : ListItemsOptions)
  : ItemHandler R * Response :=
  let '(r, result) := Repository.ListItems (repo h) env (Some options) in
  match result with
  | inr err => ({| repo := r |}, WriteRepositoryErrorResponse err)
  | inl result =>
      let responseData : gmap string Field :=
        <["items" := FItems (Items result)]>
        (<["has_more" := FBool (HasMore result)]>
        (<["count" := FInt (Z.of_nat (length (Items result)))]> ∅)) in
      let responseData :=
        if HasMore result
        then <["next_token" := FString "pagination_token_placeholder"]> responseData
        else responseData in
      let response := {| Success := true; Data := Some (PObject responseData);
                         Error_ := None |} in
      ({| repo := r |}, writeJSONResponse StatusOK response)
  end.

(** [ListItems]: GET /items *)
Definition ListItems (h : ItemHandler R) (env : Env) (limitStr token : string)
  : ItemHandler R * Response :=
  match ListItems_options limitStr with
  | inr response => (h, response)
  | inl options => ListItems_query h env options
  end.

(** [UpdateItem]: PUT /items/{id} *)
Definition UpdateItem (h : ItemHandler R) (env : Env) (itemID : string)
                      (body : Decoded UpdateItemRequest.t) : ItemHandler R * Response :=
  if bool_decide (itemID = "") then (h, WriteMissingParameterErrorResponse "Item ID")
  else
    match body with
    | DecodeError err => (h, WriteJSONParseErrorResponse err)
    | DecodeOK updateReq =>
        match UpdateItemRequest_Validate updateReq with
        | Some err => (h, WriteValidationErrorResponse err)
        | None =>
            let '(r, result) := Repository.UpdateItem (repo h) env itemID (Some updateReq) in
            match result with
            | inr err => ({| repo := r |}, WriteRepositoryErrorResponse err)
            | inl item =>
                let response := {| Success := true; Data := Some (PItem item);
                                   Error_ := None |} in
                ({| repo := r |}, writeJSONResponse StatusOK response)
            end
        end
    end.

(** [DeleteItem]: DELETE /items/{id} *)
Definition DeleteItem (h : ItemHandler R) (env : Env) (itemID : string)
  : ItemHandler R * Response :=
  if bool_decide (itemID = "") then (h, WriteMissingParameterErrorResponse "Item ID")
  else
    let '(r, err) := Repository.DeleteItem (repo h) env itemID in
    match err with
    | Some err => ({| repo := r |}, WriteRepositoryErrorResponse err)
    | None =>
        let response :=
          {| Success := true;
             Data := Some (PObject (<["message" := FString "Item deleted successfully"]>
                                    (<["id" := FString itemID]> ∅)));
             Error_ := None |} in
        ({| repo := r |}, writeJSONResponse StatusOK response)
    end.

End ItemHandlers.

(** ** handlers_test.go: the mock storage port *)

Module MockRepository.

Record t := { ShouldReturnError : option error }.

Definition withID (item : Item) (id : string) : Item :=
  {| ID := id; Name := Name item; Description := Description item;
     CreatedAt := CreatedAt item; UpdatedAt := UpdatedAt item;
     Status := Status item |}.

Definition CreateItem (m : t) (env : Env) (item : Item) : t * Item * option error :=
  match ShouldReturnError m with
  | Some err => (m, item, Some err)
  | None => (m, withID item "test-id", None)
  end.

Definition GetItem (m : t) (env : Env) (id : string) : t * (Item + error) :=
  match ShouldReturnError m with
  | Some err => (m, inr err)
  | None => (m, inl {| ID := id; Name := "Test Item"; Description := "Test Description";
                       CreatedAt := 0; UpdatedAt := 0; Status := "active" |})
  end.

Definition ListItems (m : t) (env : Env) (options : option ListItemsOptions)
  : t * (ListItemsResult + error) :=
  match ShouldReturnError m with
  | Some err => (m, inr err)
  | None =>
      (m, inl {| Items := [ {| ID := "1"; Name := "Item 1";
                               Description := "Description 1";
                               CreatedAt := 0; UpdatedAt := 0; Status := "active" |} ];
                 LastEvaluatedKey := None;
                 HasMore := false |})
  end.

Definition UpdateItem (m : t) (env : Env) (id : string)
                      (updates : option UpdateItemRequest.t) : t * (Item + error) :=
  match ShouldReturnError m with
  | Some err => (m, inr err)
  | None => (m, inl {| ID := id; Name := "Updated Item";
                       Description := "Updated Description";
                       CreatedAt := 0; UpdatedAt := 0; Status := "active" |})
  end.

Definition DeleteItem (m : t) (env : Env) (id : string) : t * option error :=
  (m, ShouldReturnError m).

End MockRepository.

#[global] Instance Mock_ItemRepository : ItemRepository MockRepository.t := {|
  Repository.CreateItem := MockRepository.CreateItem;
  Repository.GetItem := MockRepository.GetItem;
  Repository.ListItems := MockRepository.ListItems;
  Repository.UpdateItem := MockRepository.UpdateItem;
  Repository.DeleteItem := MockRepository.DeleteItem;
  asDynamoDB := fun _ => None
|}.

End Handlers.

(* ===================================================================== *)
(** * The vocabulary of the properties                                    *)
(* ===================================================================== *)

Module Properties.
Import GoString GoErrors Models Repository Handlers.

(** A message mentions a keyword when the keyword occurs in it, the
    ASCII letters of both taken in lower case. *)
Definition Mentions (keyword message : string) : Prop :=
  Occurs (toLower keyword) (toLower message).

(** The envelope carries a payload or an error, never both: with
    [success = true] a data payload and no error object, with
    [success = false] an error object with a type, a code and a message
    and no data payload. *)
Definition exclusive (a : APIResponse) : Prop :=
  if Success a
  then is_Some (Data a) /\ Error_ a = None
  else Data a = None /\
       exists info : ErrorInfo,
         Error_ a = Some info /\
         Models.Type_ info <> "" /\ Models.Code info <> "" /\ Models.Message info <> "".

(** The keywords that make an operation failure a throughput error. *)
Definition throttled (message : string) : Prop :=
  Mentions "throughput" message \/ Mentions "capacity" message \/
  Mentions "throttling" message \/ Mentions "rate" message.

(** The error envelope written for an API error of the given kind. *)
Definition errorResponse (status : Z) (type code message details : string) : Response :=
  {| StatusCode := status;
     Body := {| Success := false;
                Data := None;
                Error_ := Some {| Models.Code := code; Models.Message := message;
                                  Models.Type_ := type; Models.Details := details |} |} |}.

(** A stored attribute map that decodes to [item]. *)
Definition stores (tbl : Table) (id : string) (item : Item) : Prop :=
  exists av : attrs, tbl !! id = Some av /\ UnmarshalMap av = inl item.

(** The attributes of a stored item after the [SET] clauses of an update:
    the update time, and the fields the patch carries. *)
Definition patched (now : Time) (patch : UpdateItemRequest.t) (av : attrs) : attrs :=
  let av1 := <["updated_at" := AttrTime now]> av in
  let av2 := if bool_decide (UpdateItemRequest.Name patch <> "")
             then <["name" := AttrS (UpdateItemRequest.Name patch)]> av1 else av1 in
  let av3 := if bool_decide (UpdateItemRequest.Description patch <> "")
             then <["description" := AttrS (UpdateItemRequest.Description patch)]> av2
             else av2 in
  if bool_decide (UpdateItemRequest.Status patch <> "")
  then <["status" := AttrS (UpdateItemRequest.Status patch)]> av3 else av3.

(** The number of characters of a UTF-8 text: the bytes that begin a
    code point, that is, every byte but the continuation bytes
    [10xxxxxx] (128 to 191). *)
Definition continuation (c : ascii) : bool :=
  ((128 <=? byte_val c) && (byte_val c <=? 191))%N.

Fixpoint characters (s : string) : nat :=
  match s with
  | EmptyString => 0
  | String c rest => (if continuation c then 0 else 1) + characters rest
  end.

End Properties.

(* ===================================================================== *)
(** * Sample requests and stores                                          *)
(* ===================================================================== *)

Module Examples.
Import GoString GoErrors Models Repository Handlers.

(** A reachable service, the clock reading [t], the all-zero UUID. *)
Definition clock (t : Time) : Env :=
  {| now := t; uuid := []; fault := None; applied := false |}.

(** An unreachable service. *)
Definition unreachable : Env :=
  {| now := 0; uuid := [];
     fault := Some (NewError "dial tcp 10.0.0.1:443: i/o timeout");
     applied := false |}.

Definition testID : string := "00000000-0000-0000-0000-000000000000".

Definition testRequest : CreateItemRequest.t :=
  {| CreateItemRequest.Name := "Test Item"; CreateItemRequest.Description := "d" |}.

Definition testItem : Item :=
  {| ID := testID; Name := "Test Item"; Description := "d";
     CreatedAt := 1000; UpdatedAt := 1000; Status := "active" |}.

(** A patch that carries a status only. *)
Definition deactivate : UpdateItemRequest.t :=
  {| UpdateItemRequest.Name := ""; UpdateItemRequest.Description := "";
     UpdateItemRequest.Status := "inactive" |}.

Definition emptyStore : ItemHandler DynamoDBRepository.t :=
  {| repo := {| DynamoDBRepository.client := ∅;
                DynamoDBRepository.tableName := "items" |} |}.

(** The store after [testRequest] was created at clock reading 1000. *)
Definition oneItemStore : ItemHandler DynamoDBRepository.t :=
  {| repo := {| DynamoDBRepository.client := {[ testID := MarshalMap testItem ]};
                DynamoDBRepository.tableName := "items" |} |}.

(** The message of the SDK when its retry quota is used up. *)
Definition retryQuotaMessage : string :=
  "operation error DynamoDB: Scan, failed to get rate limit token, " +:+
  "retry quota exceeded, 0 available, 5 requested".

(** The handler of the unit tests: a mock port that fails with [err]. *)
Definition mock (err : option error) : ItemHandler MockRepository.t :=
  {| repo := {| MockRepository.ShouldReturnError := err |} |}.

(** [strings.Repeat(s, count)] *)
Fixpoint Repeat (s : string) (count : nat) : string :=
  match count with
  | O => ""
  | S n => s +:+ Repeat s n
  end.

(** The character U+65E5, three bytes in UTF-8: E6 97 A5. *)
Definition sun : string := String "230"%char (String "151"%char (String "165"%char "")).

(** A name of 34 characters and 102 bytes, and a create request for it. *)
Definition wideName : string := Repeat sun 34.

Definition wideRequest : CreateItemRequest.t :=
  {| CreateItemRequest.Name := wideName; CreateItemRequest.Description := "d" |}.

(** The status, and the type and code of the error object if any. *)
Definition kindOf (r : Response) : Z * option (string * string) :=
  (StatusCode r,
   (fun info => (Models.Type_ info, Models.Code info)) <$> Error_ (Body r)).

End Examples.

(* ===================================================================== *)
(** * internal/repository: the client configuration                       *)
(* ===================================================================== *)

Module Config.
Import GoString GoErrors.

Record DynamoDBConfig := {
  TableName : string;
  Region : string
}.

(** [os.Getenv(key)]: the value of the variable, empty when it is not
    set.  The process environment is a finite map. *)
Definition Getenv (environ : gmap string string) (key : string) : string :=
  default "" (environ !! key).

(** [NewDynamoDBConfig] *)
Definition NewDynamoDBConfig (environ : gmap string string) : DynamoDBConfig + error :=
  let tableName := Getenv environ "DYNAMODB_TABLE_NAME" in
  if bool_decide (tableName = "") then
    inr (NewError "DYNAMODB_TABLE_NAME environment variable is required")
  else
    let region := Getenv environ "AWS_REGION" in
    let region := if bool_decide (region = "") then "us-east-1" else region in
    inl {| TableName := tableName; Region := region |}.

End Config.

(* ===================================================================== *)
(** * The vocabulary of the further properties                            *)
(* ===================================================================== *)

Module Invariants.
Import GoString GoErrors Models Repository Handlers Properties.

(** [substr] occurs in [s] at byte index [i]. *)
Definition OccursAt (substr s : string) (i : nat) : Prop :=
  exists pre post : string, s = pre +:+ substr +:+ post /\ len pre = i.

(** Every attribute map of the table decodes to a valid item and is
    stored under the identifier of that item. *)
Definition storeOK (tbl : Table) : Prop :=
  forall (key : string) (av : attrs),
    tbl !! key = Some av ->
    exists item : Item,
      UnmarshalMap av = inl item /\ ID item = key /\ Item_Validate item = None.

(** The status of a response agrees with the type of its error object,
    and a success is 200 or 201. *)
Definition statusMatchesType (r : Response) : Prop :=
  match Error_ (Body r) with
  | None => Success (Body r) = true /\ (StatusCode r = 200 \/ StatusCode r = 201)
  | Some info =>
      Success (Body r) = false /\
      ((Models.Type_ info = "validation" /\ StatusCode r = 400) \/
       (Models.Type_ info = "not_found" /\ StatusCode r = 404) \/
       (Models.Type_ info = "conflict" /\ StatusCode r = 409) \/
       (Models.Type_ info = "database" /\
        (StatusCode r = 429 \/ StatusCode r = 500 \/ StatusCode r = 503)) \/
       (Models.Type_ info = "system" /\ StatusCode r = 500))
  end.


(** Two bytes that are equal, or the upper-case and the lower-case form
    of one ASCII letter (A..Z are 65..90, a..z are 97..122). *)
Definition sameLetter (c d : ascii) : Prop :=
  c = d \/
  ((65 <= byte_val c <= 90)%N /\ byte_val d = (byte_val c + 32)%N) \/
  ((65 <= byte_val d <= 90)%N /\ byte_val c = (byte_val d + 32)%N).

(** Two strings that are equal up to the case of their ASCII letters. *)
Definition sameText (s t : string) : Prop := Forall2 sameLetter (bytes s) (bytes t).

(** [keyword] occurs in [message] up to the case of ASCII letters. *)
Definition OccursIgnoringCase (keyword message : string) : Prop :=
  exists pre mid post : string,
    message = pre +:+ mid +:+ post /\ sameText mid keyword.

(** The same call when the SDK reports what the service did. *)
Definition answered (env : Env) : Env :=
  {| now := now env; uuid := uuid env; fault := None; applied := applied env |}.

(** A byte of ASCII white space. *)
Definition asciiSpace (c : ascii) : bool :=
  ((9 <=? byte_val c) && (byte_val c <=? 13) || (byte_val c =? 32))%N.

(** A string of ASCII white space only. *)
Fixpoint blank (s : string) : bool :=
  match s with
  | EmptyString => true
  | String c rest => asciiSpace c && blank rest
  end.

End Invariants.

(* ===================================================================== *)
(** * Facts about the string functions                                    *)
(* ===================================================================== *)

Section StringFacts.
Import GoString Handlers.

Lemma at_bytes (s : string) (i : nat) : at_ s i = bytes s !! i.
Proof.
  unfold at_, bytes. revert i.
  induction s as [|c s IH]; intros [|i]; simpl; auto.
Qed.

Lemma len_bytes (s : string) : len s = length (bytes s).
Proof. unfold len, bytes. induction s; simpl; auto. Qed.

Lemma bytes_append (s t : string) : bytes (s +:+ t) = bytes s ++ bytes t.
Proof. unfold bytes. induction s; simpl; [reflexivity | f_equal; assumption]. Qed.

Lemma bytes_inj (s t : string) : bytes s = bytes t -> s = t.
Proof.
  unfold bytes. intros E.
  rewrite <- (string_of_list_ascii_of_string s), <- (string_of_list_ascii_of_string t).
  now rewrite E.
Qed.

Lemma bytes_of_list (l : list ascii) : bytes (string_of_list_ascii l) = l.
Proof. apply list_ascii_of_string_of_list_ascii. Qed.

(** The inner loop succeeds exactly when the remaining bytes agree. *)
Lemma matchAt_spec (s substr : string) (i n j : nat) :
  matchAt s substr i j n = true <->
  forall k : nat, (k < n)%nat -> bytes s !! (i + j + k)%nat = bytes substr !! (j + k)%nat.
Proof.
  revert j. induction n as [|n IH]; intros j; simpl.
  - split; [intros _ k Hk; lia | reflexivity].
  - rewrite !at_bytes. case_bool_decide as E.
    + rewrite IH. split.
      * intros Hrest [|k] Hk.
        -- rewrite !Nat.add_0_r. exact E.
        -- replace (i + j + S k)%nat with (i + S j + k)%nat by lia.
           replace (j + S k)%nat with (S j + k)%nat by lia.
           apply Hrest. lia.
      * intros Hall k Hk.
        replace (i + S j + k)%nat with (i + j + S k)%nat by lia.
        replace (S j + k)%nat with (j + S k)%nat by lia.
        apply Hall. lia.
    + split; [discriminate |].
      intros Hall. exfalso. apply E.
      specialize (Hall 0%nat ltac:(lia)).
      now rewrite !Nat.add_0_r in Hall.
Qed.

(** At an index where the keyword fits, the inner loop compares the
    window of [s] at [i] with the whole keyword. *)
Lemma matchAt_window (s substr : string) (i : nat) :
  (i + len substr <= len s)%nat ->
  matchAt s substr i 0 (len substr) = true <->
  take (len substr) (drop i (bytes s)) = bytes substr.
Proof.
  intros Hfit. rewrite matchAt_spec. rewrite !len_bytes in *.
  split.
  - intros Hall. apply list_eq. intros k.
    destruct (decide (k < length (bytes substr))%nat) as [Hk|Hk].
    + rewrite lookup_take_lt by lia. rewrite lookup_drop.
      specialize (Hall k Hk). now rewrite Nat.add_0_r in Hall.
    + rewrite lookup_take_ge by lia. symmetry. apply lookup_ge_None. lia.
  - intros Heq k Hk. rewrite Nat.add_0_r. simpl.
    rewrite <- Heq. rewrite lookup_take_lt by lia. now rewrite lookup_drop.
Qed.

(** The outer loop finds an index exactly when the inner loop succeeds at
    one of the indices it visits. *)
Lemma findFrom_found (s substr : string) (n i : nat) :
  0 <= findFrom s substr i n <->
  exists k : nat, (k < n)%nat /\ matchAt s substr (i + k) 0 (len substr) = true.
Proof.
  revert i. induction n as [|n IH]; intros i; simpl.
  - split; [lia | intros (k & Hk & _); lia].
  - destruct (matchAt s substr i 0 (len substr)) eqn:E.
    + split; [intros _ | lia]. exists 0%nat. rewrite Nat.add_0_r. split; [lia | exact E].
    + rewrite IH. split.
      * intros (k & Hk & Hm). exists (S k). split; [lia |].
        now replace (i + S k)%nat with (S i + k)%nat by lia.
      * intros ([|k] & Hk & Hm).
        -- rewrite Nat.add_0_r in Hm. congruence.
        -- exists k. split; [lia |].
           now replace (S i + k)%nat with (i + S k)%nat by lia.
Qed.

Lemma Occurs_window (substr s : string) :
  Occurs substr s <->
  exists i : nat, (i + len substr <= len s)%nat /\
                  take (len substr) (drop i (bytes s)) = bytes substr.
Proof.
  split.
  - intros (pre & post & ->). exists (len pre).
    rewrite !len_bytes, !bytes_append, !length_app. split; [lia |].
    rewrite drop_app_length. apply take_app_length.
  - intros (i & Hfit & Hw). rewrite !len_bytes in *.
    exists (string_of_list_ascii (take i (bytes s))),
           (string_of_list_ascii (drop (i + length (bytes substr)) (bytes s))).
    apply bytes_inj. rewrite !bytes_append, !bytes_of_list.
    remember (length (bytes substr)) as n eqn:Hn. rewrite <- Hw.
    now rewrite <- drop_drop, !take_drop.
Qed.

(** [contains] decides [Occurs]. *)
Lemma contains_Occurs (s substr : string) :
  contains s substr = true <-> Occurs substr s.
Proof.
  rewrite Occurs_window. unfold contains, findSubstring.
  rewrite andb_true_iff, Nat.leb_le, Z.leb_le.
  destruct (Nat.eqb_spec (len substr) 0) as [E0|E0].
  - split.
    + intros [Hle _]. exists 0%nat. split; [lia |].
      rewrite E0. simpl. rewrite len_bytes in E0.
      now destruct (bytes substr).
    + intros (i & Hfit & _). split; lia.
  - destruct (Nat.ltb_spec (len s) (len substr)) as [Hlt|Hge].
    + split; [intros [? ?]; lia | intros (i & Hfit & _); lia].
    + rewrite findFrom_found. split.
      * intros [_ (k & Hk & Hm)]. exists k. simpl in Hm.
        assert (k + len substr <= len s)%nat as Hfit by lia.
        split; [exact Hfit |]. now apply matchAt_window.
      * intros (i & Hfit & Hw). split; [lia |].
        exists i. split; [lia |]. simpl. now apply matchAt_window.
Qed.

Lemma contains_not_Occurs (s substr : string) :
  contains s substr = false <-> ~ Occurs substr s.
Proof.
  rewrite <- contains_Occurs. destruct (contains s substr); split; congruence.
Qed.

End StringFacts.

Section KeywordFacts.
Import GoString Handlers Properties.

Lemma containsAnyKeyword_Mentions (message : string) (keywords : list string) :
  containsAnyKeyword message keywords = true <->
  exists keyword : string, In keyword keywords /\ Mentions keyword message.
Proof.
  unfold containsAnyKeyword, Mentions. rewrite existsb_exists.
  split; intros (kw & Hin & Hc); exists kw; (split; [exact Hin |]);
    now apply contains_Occurs.
Qed.

Lemma containsAnyKeyword_two (message k1 k2 : string) :
  containsAnyKeyword message [k1; k2] = true <->
  Mentions k1 message \/ Mentions k2 message.
Proof.
  rewrite containsAnyKeyword_Mentions. simpl. split.
  - intros (kw & [<- | [<- | []]] & Hm); auto.
  - intros [Hm | Hm]; eauto.
Qed.

Lemma containsAnyKeyword_four (message k1 k2 k3 k4 : string) :
  containsAnyKeyword message [k1; k2; k3; k4] = true <->
  Mentions k1 message \/ Mentions k2 message \/
  Mentions k3 message \/ Mentions k4 message.
Proof.
  rewrite containsAnyKeyword_Mentions. simpl. split.
  - intros (kw & [<- | [<- | [<- | [<- | []]]]] & Hm); auto.
  - intros [Hm | [Hm | [Hm | Hm]]]; eauto 7.
Qed.

(** On a concrete message and keyword, [Mentions] is settled by running
    the search. *)
Lemma Mentions_run (keyword message : string) :
  Mentions keyword message <-> contains (toLower message) (toLower keyword) = true.
Proof. unfold Mentions. symmetry. apply contains_Occurs. Qed.

Lemma not_Mentions_run (keyword message : string) :
  ~ Mentions keyword message <-> contains (toLower message) (toLower keyword) = false.
Proof. unfold Mentions. symmetry. apply contains_not_Occurs. Qed.

End KeywordFacts.

Section ErrorFacts.
Import GoErrors.

(** A chain ends in one leaf, so it is identical to at most one of the
    package-level values. *)
Lemma Is_unique (err : error) (a b : ident) :
  Is err a = true -> Is err b = true -> a = b.
Proof.
  induction err as [v | msg | t msg | msg inner IH]; simpl; try discriminate.
  - intros Ha Hb. apply bool_decide_eq_true in Ha, Hb. congruence.
  - exact IH.
Qed.

Lemma Is_other (err : error) (a b : ident) :
  Is err a = true -> a <> b -> Is err b = false.
Proof.
  intros Ha Hne. destruct (Is err b) eqn:Hb; [| reflexivity].
  exfalso. apply Hne. eapply Is_unique; eauto.
Qed.

Lemma Is_Errorf_w_s (v target : ident) (s : string) :
  Is (Errorf_w_s (PkgError v) s) target = bool_decide (v = target).
Proof. reflexivity. Qed.

Lemma Error_Errorf_w_s (w : error) (s : string) :
  Error (Errorf_w_s w s) = Error w +:+ ": " +:+ s.
Proof. reflexivity. Qed.

End ErrorFacts.

(* ===================================================================== *)
(** * The error taxonomy                                                  *)
(* ===================================================================== *)

Section Taxonomy.
Import GoString GoErrors Models Repository Handlers Properties Examples.

(** The classification predicates exclude one another. *)
Lemma classification_exclusive (err : error) (a b : ident) :
  Is err a = true -> a <> b -> Is err b = false.
Proof. apply Is_other. Qed.

Ltac other_class H :=
  match goal with
  | |- context [Is ?e ?b] =>
      rewrite (classification_exclusive e _ b H) by discriminate
  end.

(** C3 (amended).  [MapRepositoryError] gives every storage-port failure
    the status, type and code of its class: not found 404, conflict 409,
    validation 400, connection 503; an operation failure whose message
    mentions throughput, capacity, throttling or rate (in any letter
    case) 429 THROUGHPUT_EXCEEDED, any other operation failure 500
    DATABASE_ERROR; an error of no class 500, type system, code
    INTERNAL_ERROR. *)
Theorem MapRepositoryError_taxonomy (err : error) :
  exists apiErr : APIError.t,
    MapRepositoryError (Some err) = Some apiErr /\
    APIError.Cause apiErr = Some err /\
    let kind := (APIError.StatusCode apiErr, APIError.Type_ apiErr, APIError.Code apiErr) in
    (IsNotFoundError err = true -> kind = (404, "not_found", "NOT_FOUND")) /\
    (IsConflictError err = true -> kind = (409, "conflict", "ALREADY_EXISTS")) /\
    (IsValidationError err = true -> kind = (400, "validation", "INVALID_REQUEST")) /\
    (IsConnectionError err = true -> kind = (503, "database", "CONNECTION_ERROR")) /\
    (IsOperationError err = true -> throttled (Error err) ->
     kind = (429, "database", "THROUGHPUT_EXCEEDED")) /\
    (IsOperationError err = true -> ~ throttled (Error err) ->
     kind = (500, "database", "DATABASE_ERROR")) /\
    (IsNotFoundError err = false -> IsConflictError err = false ->
     IsValidationError err = false -> IsConnectionError err = false ->
     IsOperationError err = false ->
     kind = (500, "system", "INTERNAL_ERROR")).
Proof.
  unfold MapRepositoryError, IsNotFoundError, IsConflictError, IsValidationError,
    IsConnectionError, IsOperationError.
  assert (Hthr : containsThroughputError (Error err) = true <-> throttled (Error err)).
  { unfold containsThroughputError, throttled. apply containsAnyKeyword_four. }
  eexists. split; [reflexivity |].
  destruct (Is err IdItemNotFound) eqn:E1.
  { repeat other_class E1. cbn. repeat split; intros; congruence. }
  destruct (Is err IdItemAlreadyExists) eqn:E2.
  { repeat other_class E2. cbn. repeat split; intros; congruence. }
  destruct (Is err IdInvalidInput) eqn:E3.
  { repeat other_class E3. cbn. repeat split; intros; congruence. }
  destruct (Is err IdConnectionFailed) eqn:E4.
  { repeat other_class E4. cbn. repeat split; intros; congruence. }
  destruct (Is err IdOperationFailed) eqn:E5.
  - destruct (containsThroughputError (Error err)) eqn:E6; cbn;
      repeat split; intros; try congruence.
    + exfalso. apply H0, Hthr. reflexivity.
    + exfalso. apply Hthr in H0. discriminate.
  - cbn. repeat split; intros; congruence.
Qed.

(** C3 (as stated) fails: the failure the translator returns for the
    SDK's retry-quota error is an operation failure whose message
    mentions none of throughput, capacity and throttling, and it is
    mapped to 429 THROUGHPUT_EXCEEDED, not to 500 DATABASE_ERROR. *)
Lemma MapRepositoryError_rate_is_throughput :
  let err := Errorf_w_s ErrOperationFailed retryQuotaMessage in
  HandleDynamoDBError (Some (NewError retryQuotaMessage)) = Some err /\
  IsOperationError err = true /\
  ~ Mentions "throughput" (Error err) /\
  ~ Mentions "capacity" (Error err) /\
  ~ Mentions "throttling" (Error err) /\
  MapRepositoryError (Some err) =
  Some {| APIError.Type_ := "database";
          APIError.Code := "THROUGHPUT_EXCEEDED";
          APIError.Message := "Database throughput exceeded";
          APIError.Details := "Please retry your request after a brief delay";
          APIError.StatusCode := 429;
          APIError.Cause := Some err |} /\
  429 <> 500 /\ "THROUGHPUT_EXCEEDED" <> "DATABASE_ERROR".
Proof.
  cbv zeta.
  split; [vm_compute; reflexivity |].
  split; [vm_compute; reflexivity |].
  split; [apply not_Mentions_run; vm_compute; reflexivity |].
  split; [apply not_Mentions_run; vm_compute; reflexivity |].
  split; [apply not_Mentions_run; vm_compute; reflexivity |].
  split; [vm_compute; reflexivity |].
  split; discriminate.
Qed.

(** C10.  Whatever error the translator is given, the error it returns
    wraps one of NotFound, AlreadyExists, InvalidInput and
    OperationFailed and is not a connection failure, so
    [MapRepositoryError] never answers it with 503 CONNECTION_ERROR. *)
Theorem HandleDynamoDBError_never_connection (err : error) :
  exists repoErr : error,
    HandleDynamoDBError (Some err) = Some repoErr /\
    IsConnectionError repoErr = false /\
    (IsNotFoundError repoErr = true \/ IsConflictError repoErr = true \/
     IsValidationError repoErr = true \/ IsOperationError repoErr = true) /\
    exists apiErr : APIError.t,
      MapRepositoryError (Some repoErr) = Some apiErr /\
      APIError.Code apiErr <> CodeConnectionError /\
      APIError.StatusCode apiErr <> StatusServiceUnavailable.
Proof.
  unfold HandleDynamoDBError.
  eexists. split; [reflexivity |].
  destruct (As err ResourceNotFoundException);
    [ | destruct (As err ConditionalCheckFailedException);
    [ | destruct (As err ProvisionedThroughputExceededException);
    [ | destruct (As err ResourceInUseException);
    [ | destruct (As err InternalServerError);
    [ | destruct (containsValidationError (Error err)) ]]]]].
  all: split; [reflexivity |].
  all: split; [cbn; auto |].
  all: unfold MapRepositoryError; eexists; (split; [reflexivity |]).
  all: cbn -[containsThroughputError].
  all: try (split; discriminate).
  all: match goal with
       | |- context [containsThroughputError ?m] =>
           destruct (containsThroughputError m); cbn; split; discriminate
       end.
Qed.

End Taxonomy.

(* ===================================================================== *)
(** * Validation                                                          *)
(* ===================================================================== *)

Section Validation.
Import GoString GoErrors Models Repository Handlers Properties.

(** The create validator accepts exactly the requests that pass its four
    checks. *)
Lemma CreateItemRequest_Validate_None (r : CreateItemRequest.t) :
  CreateItemRequest_Validate r = None <->
  TrimSpace (CreateItemRequest.Name r) <> "" /\
  (len (CreateItemRequest.Name r) <= 100)%nat /\
  TrimSpace (CreateItemRequest.Description r) <> "" /\
  (len (CreateItemRequest.Description r) <= 500)%nat.
Proof.
  unfold CreateItemRequest_Validate.
  case_bool_decide as En;
    [ | destruct (Nat.ltb_spec 100 (len (CreateItemRequest.Name r))) as [Hn|Hn];
    [ | case_bool_decide as Ed;
    [ | destruct (Nat.ltb_spec 500 (len (CreateItemRequest.Description r))) as [Hd|Hd] ]]].
  all: split; intros Hyp; try discriminate; try reflexivity; try tauto;
    try (exfalso; intuition lia).
Qed.

(** The create validator in full: it accepts a request exactly when the
    name is not empty after trimming and at most 100 bytes long, and the
    description is not empty after trimming and at most 500 bytes long.
    The lengths are those of the raw, untrimmed strings ([len], which
    counts the bytes of the string, white space included): a name of 99
    letters followed by two spaces is too long although its trimmed form
    is not.  A rejected request gets the error of the first check that
    fails. *)
Lemma CreateItemRequest_Validate_accepts (r : CreateItemRequest.t) :
  let name := CreateItemRequest.Name r in
  let description := CreateItemRequest.Description r in
  (CreateItemRequest_Validate r = None <->
   TrimSpace name <> "" /\ (len name <= 100)%nat /\
   TrimSpace description <> "" /\ (len description <= 500)%nat) /\
  (CreateItemRequest_Validate r = Some ErrEmptyName <-> TrimSpace name = "") /\
  (CreateItemRequest_Validate r = Some ErrNameTooLong <->
   TrimSpace name <> "" /\ (100 < len name)%nat) /\
  (CreateItemRequest_Validate r = Some ErrEmptyDescription <->
   TrimSpace name <> "" /\ (len name <= 100)%nat /\ TrimSpace description = "") /\
  (CreateItemRequest_Validate r = Some ErrDescriptionTooLong <->
   TrimSpace name <> "" /\ (len name <= 100)%nat /\
   TrimSpace description <> "" /\ (500 < len description)%nat) /\
  (let padded := string_of_list_ascii (repeat "a"%char 99) +:+ "  " in
   len padded = 101%nat /\ len (TrimSpace padded) = 99%nat /\
   CreateItemRequest_Validate
     {| CreateItemRequest.Name := padded; CreateItemRequest.Description := "d" |}
   = Some ErrNameTooLong).
Proof.
  cbv zeta. split; [apply CreateItemRequest_Validate_None |].
  unfold CreateItemRequest_Validate.
  split; [| split; [| split; [| split]]].
  5: { repeat split; vm_compute; reflexivity. }
  all: case_bool_decide as En;
    [ | destruct (Nat.ltb_spec 100 (len (CreateItemRequest.Name r))) as [Hn|Hn];
    [ | case_bool_decide as Ed;
    [ | destruct (Nat.ltb_spec 500 (len (CreateItemRequest.Description r))) as [Hd|Hd] ]]].
  all: split; intros Hyp; try discriminate; try reflexivity; try tauto;
    try (exfalso; intuition lia); try (intuition lia).
Qed.

(** C7 (evaluation).  The length limits of [ValidateCreate] count bytes,
    not characters.  Of the requests the claim accepts (name and
    description not empty after trimming, at most 100 and at most 500
    characters), the validator accepts exactly those whose name is at
    most 100 and whose description is at most 500 bytes long; a name of
    more than 100 bytes is refused with the error whose text is "name
    cannot exceed 100 characters", a description of more than 500 bytes
    with "description cannot exceed 500 characters", however few
    characters they have.  The lengths are those of the untrimmed
    strings. *)
Theorem CreateItemRequest_Validate_counts_bytes (r : CreateItemRequest.t) :
  TrimSpace (CreateItemRequest.Name r) <> "" ->
  TrimSpace (CreateItemRequest.Description r) <> "" ->
  (characters (CreateItemRequest.Name r) <= 100)%nat ->
  (characters (CreateItemRequest.Description r) <= 500)%nat ->
  (CreateItemRequest_Validate r = None <->
   (len (CreateItemRequest.Name r) <= 100)%nat /\
   (len (CreateItemRequest.Description r) <= 500)%nat) /\
  ((100 < len (CreateItemRequest.Name r))%nat ->
   CreateItemRequest_Validate r = Some ErrNameTooLong) /\
  ((len (CreateItemRequest.Name r) <= 100)%nat ->
   (500 < len (CreateItemRequest.Description r))%nat ->
   CreateItemRequest_Validate r = Some ErrDescriptionTooLong) /\
  Error ErrNameTooLong = "name cannot exceed 100 characters" /\
  Error ErrDescriptionTooLong = "description cannot exceed 500 characters".
Proof.
  intros Hname Hdescription _ _.
  split; [rewrite CreateItemRequest_Validate_None; tauto |].
  unfold CreateItemRequest_Validate.
  rewrite (bool_decide_eq_false_2 _ Hname), (bool_decide_eq_false_2 _ Hdescription).
  split; [| split; [| split; reflexivity]].
  - intros Hlong. apply Nat.ltb_lt in Hlong. rewrite Hlong. reflexivity.
  - intros Hshort Hlong. apply Nat.ltb_ge in Hshort. apply Nat.ltb_lt in Hlong.
    rewrite Hshort, Hlong. reflexivity.
Qed.

End Validation.

Section ValidationMapping.
Import GoString GoErrors Models Repository Handlers Properties.

Lemma containsError_two (message k1 k2 : string) :
  containsError message [k1; k2] = true <-> Mentions k1 message \/ Mentions k2 message.
Proof. apply containsAnyKeyword_two. Qed.

(** C5.  [MapValidationError] turns every validation failure into a 400
    response of type validation whose code is chosen by the first group
    of keywords its message mentions (in any letter case): empty or
    required give MISSING_FIELD, else too long or exceed give
    VALUE_TOO_LONG, else invalid or format give INVALID_FORMAT, else
    status or one of give INVALID_VALUE, else INVALID_REQUEST.  The
    invalid-status error is mapped to INVALID_VALUE, and an update whose
    status is "invalid_status" is answered 400, code INVALID_VALUE, type
    validation, whatever the storage port. *)
Theorem MapValidationError_by_keyword :
  (forall err : error,
     exists apiErr : APIError.t,
       MapValidationError (Some err) = Some apiErr /\
       APIError.StatusCode apiErr = 400 /\
       APIError.Type_ apiErr = "validation" /\
       APIError.Message apiErr = Error err /\
       let m := Error err in
       let missing := Mentions "empty" m \/ Mentions "required" m in
       let tooLong := Mentions "too long" m \/ Mentions "exceed" m in
       let format := Mentions "invalid" m \/ Mentions "format" m in
       let value := Mentions "status" m \/ Mentions "one of" m in
       (missing -> APIError.Code apiErr = "MISSING_FIELD") /\
       (~ missing -> tooLong -> APIError.Code apiErr = "VALUE_TOO_LONG") /\
       (~ missing -> ~ tooLong -> format -> APIError.Code apiErr = "INVALID_FORMAT") /\
       (~ missing -> ~ tooLong -> ~ format -> value ->
        APIError.Code apiErr = "INVALID_VALUE") /\
       (~ missing -> ~ tooLong -> ~ format -> ~ value ->
        APIError.Code apiErr = "INVALID_REQUEST")) /\
  (APIError.Code <$> MapValidationError (Some ErrInvalidStatus) = Some "INVALID_VALUE" /\
   APIError.Code <$> MapValidationError (Some ErrEmptyName) = Some "MISSING_FIELD" /\
   APIError.Code <$> MapValidationError (Some ErrEmptyDescription) = Some "MISSING_FIELD" /\
   APIError.Code <$> MapValidationError (Some ErrNameTooLong) = Some "VALUE_TOO_LONG" /\
   APIError.Code <$> MapValidationError (Some ErrDescriptionTooLong) = Some "VALUE_TOO_LONG") /\
  (forall (R : Type) (port : ItemRepository R) (h : ItemHandler R) (env : Env)
          (itemID : string),
     itemID <> "" ->
     Handlers.UpdateItem h env itemID
       (DecodeOK {| UpdateItemRequest.Name := ""; UpdateItemRequest.Description := "";
                    UpdateItemRequest.Status := "invalid_status" |})
     = (h, errorResponse 400 "validation" "INVALID_VALUE"
             "status must be one of: active, inactive, pending" "")).
Proof.
  split; [| split].
  - intros err. unfold MapValidationError. eexists. split; [reflexivity |].
    cbn -[containsError]. repeat (split; [reflexivity |]).
    pose proof (containsError_two (Error err) "empty" "required") as H1.
    pose proof (containsError_two (Error err) "too long" "exceed") as H2.
    pose proof (containsError_two (Error err) "invalid" "format") as H3.
    pose proof (containsError_two (Error err) "status" "one of") as H4.
    destruct (containsError (Error err) ["empty"; "required"]);
      [ | destruct (containsError (Error err) ["too long"; "exceed"]);
      [ | destruct (containsError (Error err) ["invalid"; "format"]);
      [ | destruct (containsError (Error err) ["status"; "one of"]) ]]].
    all: repeat split; intros; try reflexivity.
    all: exfalso;
      repeat match goal with
             | Hn : ~ (_ \/ _), Hi : true = true <-> _ |- _ =>
                 apply Hn, Hi; reflexivity
             | Hp : _ \/ _, Hi : false = true <-> _ |- _ =>
                 apply Hi in Hp; discriminate
             end.
  - repeat split; vm_compute; reflexivity.
  - intros R port h env itemID Hid.
    unfold Handlers.UpdateItem. rewrite bool_decide_eq_false_2 by exact Hid.
    reflexivity.
Qed.

End ValidationMapping.

(* ===================================================================== *)
(** * The handlers                                                        *)
(* ===================================================================== *)

Section HandlerFacts.
Import GoString GoErrors Models Repository Handlers Properties.
Context {R : Type} {port : ItemRepository R}.

(** C4.  The [limit] query parameter of List: a value that [Atoi] reads
    as an integer at most 0 or above 100 (0 and 101 among them) ends the
    request with 400 INVALID_VALUE, and a value that [Atoi] does not
    read as an integer ("abc" among them) with 400 INVALID_FORMAT; in
    both cases the handler returns without calling the storage port.
    A value from 1 to 100 is passed on as the limit, and without the
    parameter the storage port is called with the limit 50. *)
Theorem ListItems_limit (h : ItemHandler R) (env : Env) (token : string) :
  let invalidValue := errorResponse 400 "validation" "INVALID_VALUE"
                        "Invalid limit value" "Limit must be between 1 and 100" in
  let invalidFormat := errorResponse 400 "validation" "INVALID_FORMAT"
                         "Invalid limit parameter" "Limit must be a valid integer" in
  (forall (limitStr : string) (limit : Z),
     Atoi limitStr = inl limit -> limit <= 0 \/ 100 < limit ->
     ListItems h env limitStr token = (h, invalidValue)) /\
  ListItems h env "0" token = (h, invalidValue) /\
  ListItems h env "101" token = (h, invalidValue) /\
  (forall (limitStr : string) (e : NumError),
     limitStr <> "" -> Atoi limitStr = inr e ->
     ListItems h env limitStr token = (h, invalidFormat)) /\
  ListItems h env "abc" token = (h, invalidFormat) /\
  (forall (limitStr : string) (limit : Z),
     Atoi limitStr = inl limit -> 1 <= limit <= 100 ->
     ListItems h env limitStr token =
     ListItems_query h env {| Limit := limit; opt_LastEvaluatedKey := None |}) /\
  ListItems h env "" token =
  ListItems_query h env {| Limit := 50; opt_LastEvaluatedKey := None |}.
Proof.
  cbv zeta.
  assert (Hout : forall (limitStr : string) (limit : Z),
             Atoi limitStr = inl limit -> limit <= 0 \/ 100 < limit ->
             ListItems h env limitStr token =
             (h, errorResponse 400 "validation" "INVALID_VALUE"
                   "Invalid limit value" "Limit must be between 1 and 100")).
  { intros limitStr limit Hparse Hrange.
    unfold ListItems, ListItems_options.
    destruct limitStr as [|c rest]; [discriminate Hparse |].
    rewrite bool_decide_eq_true_2 by discriminate. rewrite Hparse.
    replace ((limit <=? 0) || (100 <? limit)) with true; [reflexivity |].
    symmetry. apply orb_true_iff. rewrite Z.leb_le, Z.ltb_lt. exact Hrange. }
  assert (Hbad : forall (limitStr : string) (e : NumError),
             limitStr <> "" -> Atoi limitStr = inr e ->
             ListItems h env limitStr token =
             (h, errorResponse 400 "validation" "INVALID_FORMAT"
                   "Invalid limit parameter" "Limit must be a valid integer")).
  { intros limitStr e Hne Hparse.
    unfold ListItems, ListItems_options.
    rewrite bool_decide_eq_true_2 by exact Hne. rewrite Hparse. reflexivity. }
  split; [exact Hout |].
  split; [apply (Hout "0" 0); [reflexivity | lia] |].
  split; [apply (Hout "101" 101); [reflexivity | lia] |].
  split; [exact Hbad |].
  split; [apply (Hbad "abc" ErrSyntax); [discriminate | reflexivity] |].
  split; [| reflexivity].
  intros limitStr limit Hparse Hrange.
  unfold ListItems, ListItems_options.
  destruct limitStr as [|c rest]; [discriminate Hparse |].
  rewrite bool_decide_eq_true_2 by discriminate. rewrite Hparse.
  replace ((limit <=? 0) || (100 <? limit)) with false.
  - replace (int32 limit) with limit; [reflexivity |].
    unfold int32. rewrite Z.mod_small by lia. lia.
  - symmetry. apply orb_false_iff. rewrite Z.leb_gt, Z.ltb_ge. lia.
Qed.

(** An error response written for a storage-port failure is a well-formed
    error envelope. *)
Lemma WriteRepositoryErrorResponse_exclusive (err : error) :
  exclusive (Body (WriteRepositoryErrorResponse err)).
Proof.
  unfold WriteRepositoryErrorResponse, MapRepositoryError.
  destruct (IsNotFoundError err);
    [ | destruct (IsConflictError err);
    [ | destruct (IsValidationError err);
    [ | destruct (IsConnectionError err);
    [ | destruct (IsOperationError err);
    [ destruct (containsThroughputError (Error err)) | ]]]]].
  all: split; [reflexivity |].
  all: eexists; split; [reflexivity |].
  all: cbn; repeat split; discriminate.
Qed.

Lemma WriteValidationErrorResponse_exclusive (err : error) :
  Error err <> "" -> exclusive (Body (WriteValidationErrorResponse err)).
Proof.
  intros Hmsg. unfold WriteValidationErrorResponse, MapValidationError.
  unfold exclusive; cbn -[containsError]. split; [reflexivity |].
  eexists. split; [reflexivity |]. cbn -[containsError].
  split; [discriminate |]. split; [| exact Hmsg].
  destruct (containsError (Error err) ["empty"; "required"]); [discriminate |].
  destruct (containsError (Error err) ["too long"; "exceed"]); [discriminate |].
  destruct (containsError (Error err) ["invalid"; "format"]); [discriminate |].
  destruct (containsError (Error err) ["status"; "one of"]); discriminate.
Qed.

Lemma CreateItemRequest_Validate_message (r : CreateItemRequest.t) (err : error) :
  CreateItemRequest_Validate r = Some err -> Error err <> "".
Proof.
  unfold CreateItemRequest_Validate.
  repeat (case_match; [intros [= <-]; discriminate |]). discriminate.
Qed.

Lemma UpdateItemRequest_Validate_message (r : UpdateItemRequest.t) (err : error) :
  UpdateItemRequest_Validate r = Some err -> Error err <> "".
Proof.
  unfold UpdateItemRequest_Validate.
  repeat case_match; intros Heq; simplify_eq; discriminate.
Qed.

End HandlerFacts.

(* ===================================================================== *)
(** * The DynamoDB adapter                                                *)
(* ===================================================================== *)

Section AdapterFacts.
Import GoString GoErrors Models Repository Handlers Properties.
Import DynamoDBClient.

Lemma UUID_String_length (u : list ascii) : len (UUID_String u) = 36%nat.
Proof. reflexivity. Qed.

Lemma UUID_String_nonempty (u : list ascii) : UUID_String u <> "".
Proof. discriminate. Qed.

Lemma UnmarshalMap_MarshalMap (item : Item) : UnmarshalMap (MarshalMap item) = inl item.
Proof. destruct item. reflexivity. Qed.

Lemma keyOf_MarshalMap (item : Item) : keyOf (MarshalMap item) = Some (ID item).
Proof. reflexivity. Qed.

(** Decoding reads the six attributes one by one. *)
Lemma UnmarshalMap_fields (av : attrs) (item : Item) :
  UnmarshalMap av = inl item <->
  unmarshalString av "id" = inl (ID item) /\
  unmarshalString av "name" = inl (Name item) /\
  unmarshalString av "description" = inl (Description item) /\
  unmarshalTime av "created_at" = inl (CreatedAt item) /\
  unmarshalTime av "updated_at" = inl (UpdatedAt item) /\
  unmarshalString av "status" = inl (Status item).
Proof.
  unfold UnmarshalMap, bindE. destruct item as [i n d c u s].
  cbn [ID Name Description CreatedAt UpdatedAt Status].
  destruct (unmarshalString av "id"), (unmarshalString av "name"),
    (unmarshalString av "description"), (unmarshalTime av "created_at"),
    (unmarshalTime av "updated_at"), (unmarshalString av "status");
    split; intros Hyp; try discriminate; try (intuition discriminate).
  - injection Hyp as -> -> -> -> -> ->. repeat split.
  - destruct Hyp as ([= ->] & [= ->] & [= ->] & [= ->] & [= ->] & [= ->]). reflexivity.
Qed.

Lemma unmarshalString_insert (av : attrs) (k tag : string) (v : AttributeValue) :
  unmarshalString (<[k := v]> av) tag =
  if decide (k = tag)
  then match v with
       | AttrS s => inl s
       | AttrTime _ => inr unmarshalTypeError
       end
  else unmarshalString av tag.
Proof.
  unfold unmarshalString. rewrite lookup_insert. 
  destruct (decide (k = tag)); [destruct v |]; reflexivity.
Qed.

Lemma unmarshalTime_insert (av : attrs) (k tag : string) (v : AttributeValue) :
  unmarshalTime (<[k := v]> av) tag =
  if decide (k = tag)
  then match v with
       | AttrTime t => inl t
       | AttrS _ => inr unmarshalTypeError
       end
  else unmarshalTime av tag.
Proof.
  unfold unmarshalTime. rewrite lookup_insert.
  destruct (decide (k = tag)); [destruct v |]; reflexivity.
Qed.

Lemma withTable_same (r : DynamoDBRepository.t) :
  DynamoDBRepository.withTable r (DynamoDBRepository.client r) = r.
Proof. destruct r. reflexivity. Qed.

(** A valid create request gives a valid item. *)
Lemma NewItem_valid (now : Time) (req : CreateItemRequest.t) (id : string) :
  CreateItemRequest_Validate req = None ->
  Item_Validate
    (DynamoDBRepository.withID
       (NewItem now (CreateItemRequest.Name req) (CreateItemRequest.Description req)) id)
  = None.
Proof.
  unfold CreateItemRequest_Validate, Item_Validate.
  cbn [DynamoDBRepository.withID NewItem ID Name Description CreatedAt UpdatedAt Status].
  repeat case_match; try discriminate. reflexivity.
Qed.

End AdapterFacts.

Section CreatePipeline.
Import GoString GoErrors Models Repository Handlers Properties.
Import DynamoDBClient.

(** What the adapter's [CreateItem] does with a valid item when the
    service is reachable and the key is free. *)
Lemma DynamoDB_CreateItem_fresh (r : DynamoDBRepository.t) (env : Env) (item : Item) :
  Item_Validate item = None -> ID item <> "" ->
  fault env = None -> DynamoDBRepository.client r !! ID item = None ->
  DynamoDBRepository.CreateItem r env item =
  (DynamoDBRepository.withTable r (<[ID item := MarshalMap item]> (DynamoDBRepository.client r)),
   item, None).
Proof.
  intros Hvalid Hid Hfault Hfree. unfold DynamoDBRepository.CreateItem.
  rewrite bool_decide_eq_false_2 by exact Hid. rewrite Hvalid.
  unfold PutItem, servePutItem. rewrite Hfault.
  cbn [put_Item put_ConditionExpression]. rewrite keyOf_MarshalMap.
  unfold holds. rewrite Hfree. reflexivity.
Qed.

(** Creation when the lengths are within the limits in bytes, as [len]
    counts them.  A create request whose name is 1 to 100 bytes long and
    whose description is 1 to 500 bytes long, both non-blank after
    trimming, is answered 201 with the created item, when the service is
    reachable and the generated identifier is not yet in the table: the
    item carries the generated identifier, which is not empty, the
    status "active", equal creation and update times, and the name and
    description of the request; the table stores it under its
    identifier. *)
Lemma CreateItem_valid_request
    (h : ItemHandler DynamoDBRepository.t) (env : Env) (req : CreateItemRequest.t) :
  TrimSpace (CreateItemRequest.Name req) <> "" ->
  (1 <= len (CreateItemRequest.Name req) <= 100)%nat ->
  TrimSpace (CreateItemRequest.Description req) <> "" ->
  (1 <= len (CreateItemRequest.Description req) <= 500)%nat ->
  fault env = None ->
  DynamoDBRepository.client (repo h) !! UUID_String (uuid env) = None ->
  exists (h' : ItemHandler DynamoDBRepository.t) (item : Item),
    CreateItem h env (DecodeOK req) =
    (h', {| StatusCode := 201;
            Body := {| Success := true; Data := Some (PItem item); Error_ := None |} |}) /\
    ID item = UUID_String (uuid env) /\
    ID item <> "" /\
    Status item = "active" /\
    CreatedAt item = UpdatedAt item /\
    Name item = CreateItemRequest.Name req /\
    Description item = CreateItemRequest.Description req /\
    stores (DynamoDBRepository.client (repo h')) (ID item) item.
Proof.
  intros Hname Hnlen Hdesc Hdlen Hfault Hfree.
  assert (Hvalid : CreateItemRequest_Validate req = None).
  { apply CreateItemRequest_Validate_None. repeat split; (assumption || lia). }
  unfold CreateItem. rewrite Hvalid.
  set (item0 := NewItem (now env) (CreateItemRequest.Name req)
                        (CreateItemRequest.Description req)).
  set (item := DynamoDBRepository.withID item0 (UUID_String (uuid env))).
  assert (Hcreate : Repository.CreateItem (repo h) env item0 =
                    (DynamoDBRepository.withTable (repo h)
                       (<[ID item := MarshalMap item]> (DynamoDBRepository.client (repo h))),
                     item, None)).
  { change (Repository.CreateItem (repo h) env item0)
      with (DynamoDBRepository.CreateItem (repo h) env item0).
    unfold DynamoDBRepository.CreateItem.
    rewrite bool_decide_eq_true_2 by reflexivity. fold item.
    assert (Hv : Item_Validate item = None) by (apply NewItem_valid; exact Hvalid).
    rewrite Hv. unfold PutItem, servePutItem. rewrite Hfault.
    cbn [put_Item put_ConditionExpression]. rewrite keyOf_MarshalMap.
    unfold holds. change (ID item) with (UUID_String (uuid env)).
    rewrite Hfree. reflexivity. }
  rewrite Hcreate. eexists. exists item.
  split; [reflexivity |].
  split; [reflexivity |]. split; [apply UUID_String_nonempty |].
  split; [reflexivity |]. split; [reflexivity |].
  split; [reflexivity |]. split; [reflexivity |].
  exists (MarshalMap item). split.
  - cbn [repo DynamoDBRepository.client DynamoDBRepository.withTable].
    apply lookup_insert_eq.
  - apply UnmarshalMap_MarshalMap.
Qed.

(** C2 (evaluation).  A create request in the range of the claim - name
    and description not empty after trimming, the name 1 to 100 and the
    description 1 to 500 characters - whose name is longer than 100
    bytes or whose description is longer than 500 bytes is not created:
    whatever the storage port, the handler answers 400 VALUE_TOO_LONG
    with the validator's message and does not call the port. *)
Theorem CreateItem_counts_bytes {R : Type} {port : ItemRepository R}
    (h : ItemHandler R) (env : Env) (req : CreateItemRequest.t) :
  TrimSpace (CreateItemRequest.Name req) <> "" ->
  TrimSpace (CreateItemRequest.Description req) <> "" ->
  (1 <= characters (CreateItemRequest.Name req) <= 100)%nat ->
  (1 <= characters (CreateItemRequest.Description req) <= 500)%nat ->
  (100 < len (CreateItemRequest.Name req))%nat \/
  (500 < len (CreateItemRequest.Description req))%nat ->
  exists message : string,
    CreateItem h env (DecodeOK req) =
    (h, errorResponse 400 "validation" "VALUE_TOO_LONG" message "") /\
    (message = "name cannot exceed 100 characters" \/
     message = "description cannot exceed 500 characters").
Proof.
  intros Hname Hdescription _ _ Hlong.
  assert (Hrefused : CreateItemRequest_Validate req = Some ErrNameTooLong \/
                     CreateItemRequest_Validate req = Some ErrDescriptionTooLong).
  { unfold CreateItemRequest_Validate.
    rewrite (bool_decide_eq_false_2 _ Hname), (bool_decide_eq_false_2 _ Hdescription).
    destruct (Nat.ltb_spec 100 (len (CreateItemRequest.Name req))) as [Hn | Hn];
      [left; reflexivity |].
    destruct (Nat.ltb_spec 500 (len (CreateItemRequest.Description req))) as [Hd | Hd];
      [right; reflexivity | lia]. }
  unfold CreateItem. destruct Hrefused as [-> | ->].
  - exists "name cannot exceed 100 characters". split; [f_equal | left; reflexivity].
  - exists "description cannot exceed 500 characters".
    split; [f_equal | right; reflexivity].
Qed.

End CreatePipeline.

Section CreateWitness.
Import GoString GoErrors Models Repository Handlers Properties Examples.

(** Creation of the request [testRequest] on an empty table. *)
Lemma CreateItem_valid_request_witness :
  TrimSpace "Test Item" <> "" /\ (1 <= len "Test Item" <= 100)%nat /\
  TrimSpace "d" <> "" /\ (1 <= len "d" <= 500)%nat /\
  exists (h' : ItemHandler DynamoDBRepository.t) (item : Item),
    Handlers.CreateItem emptyStore (clock 1000) (DecodeOK testRequest) =
    (h', {| StatusCode := 201;
            Body := {| Success := true; Data := Some (PItem item); Error_ := None |} |}) /\
    ID item = UUID_String (uuid (clock 1000)) /\
    ID item <> "" /\
    Status item = "active" /\
    CreatedAt item = UpdatedAt item /\
    Name item = CreateItemRequest.Name testRequest /\
    Description item = CreateItemRequest.Description testRequest /\
    stores (DynamoDBRepository.client (repo h')) (ID item) item.
Proof.
  split; [vm_compute; discriminate |].
  split; [vm_compute; lia |].
  split; [vm_compute; discriminate |].
  split; [vm_compute; lia |].
  apply (CreateItem_valid_request emptyStore (clock 1000) testRequest).
  - vm_compute; discriminate.
  - vm_compute; lia.
  - vm_compute; discriminate.
  - vm_compute; lia.
  - reflexivity.
  - reflexivity.
Defined.

(** The validator on a name of 34 characters of three bytes each. *)
Lemma CreateItemRequest_Validate_counts_bytes_witness :
  characters wideName = 34%nat /\ len wideName = 102%nat /\
  CreateItemRequest_Validate wideRequest = Some ErrNameTooLong.
Proof.
  split; [vm_compute; reflexivity |].
  split; [vm_compute; reflexivity |].
  apply (CreateItemRequest_Validate_counts_bytes wideRequest).
  - vm_compute; discriminate.
  - vm_compute; discriminate.
  - vm_compute; lia.
  - vm_compute; lia.
  - vm_compute; lia.
Defined.

(** The create handler on the same name, on an empty table. *)
Lemma CreateItem_counts_bytes_witness :
  characters wideName = 34%nat /\ len wideName = 102%nat /\
  exists message : string,
    Handlers.CreateItem emptyStore (clock 1000) (DecodeOK wideRequest) =
    (emptyStore, errorResponse 400 "validation" "VALUE_TOO_LONG" message "") /\
    (message = "name cannot exceed 100 characters" \/
     message = "description cannot exceed 500 characters").
Proof.
  split; [vm_compute; reflexivity |].
  split; [vm_compute; reflexivity |].
  apply (CreateItem_counts_bytes emptyStore (clock 1000) wideRequest).
  - vm_compute; discriminate.
  - vm_compute; discriminate.
  - vm_compute; lia.
  - vm_compute; lia.
  - left. vm_compute; lia.
Defined.

End CreateWitness.

Section UpdatePipeline.
Import GoString GoErrors Models Repository Handlers Properties.
Import DynamoDBClient.

(** [UpdateFields] touches the fields the patch carries, and the update
    time. *)
Lemma UpdateFields_frame (now : Time) (item : Item) (patch : UpdateItemRequest.t) :
  ID (UpdateFields now item patch) = ID item /\
  CreatedAt (UpdateFields now item patch) = CreatedAt item /\
  UpdatedAt (UpdateFields now item patch) = now /\
  Name (UpdateFields now item patch) =
    (if bool_decide (UpdateItemRequest.Name patch <> "")
     then UpdateItemRequest.Name patch else Name item) /\
  Description (UpdateFields now item patch) =
    (if bool_decide (UpdateItemRequest.Description patch <> "")
     then UpdateItemRequest.Description patch else Description item) /\
  Status (UpdateFields now item patch) =
    (if bool_decide (UpdateItemRequest.Status patch <> "")
     then UpdateItemRequest.Status patch else Status item).
Proof.
  unfold UpdateFields.
  destruct (bool_decide (UpdateItemRequest.Name patch <> ""));
    destruct (bool_decide (UpdateItemRequest.Description patch <> ""));
    destruct (bool_decide (UpdateItemRequest.Status patch <> ""));
    repeat split.
Qed.

(** Decoding the patched attributes gives the item changed by
    [UpdateFields]: the [SET] clauses and the in-memory update agree. *)
Lemma patched_decodes (now : Time) (patch : UpdateItemRequest.t) (av : attrs) (item : Item) :
  UnmarshalMap av = inl item ->
  UnmarshalMap (patched now patch av) = inl (UpdateFields now item patch).
Proof.
  intros Hdecode. apply UnmarshalMap_fields in Hdecode.
  destruct Hdecode as (Hi & Hn & Hd & Hc & Hu & Hs).
  apply UnmarshalMap_fields. unfold patched, UpdateFields.
  destruct (bool_decide (UpdateItemRequest.Name patch <> ""));
    destruct (bool_decide (UpdateItemRequest.Description patch <> ""));
    destruct (bool_decide (UpdateItemRequest.Status patch <> "")).
  all: cbn [ID Name Description CreatedAt UpdatedAt Status].
  all: rewrite ?unmarshalString_insert, ?unmarshalTime_insert.
  all: repeat first [ rewrite decide_True by reflexivity
                    | rewrite decide_False by discriminate ].
  all: repeat split; (reflexivity || assumption).
Qed.

(** The update the adapter sends for a stored item: the table holds the
    patched attributes, and the result is their decoding. *)
Lemma DynamoDB_UpdateItem_existing
    (r : DynamoDBRepository.t) (env : Env) (key : string)
    (patch : UpdateItemRequest.t) (av : attrs) (item : Item) :
  key <> "" ->
  UpdateItemRequest_Validate patch = None ->
  fault env = None ->
  DynamoDBRepository.client r !! key = Some av ->
  UnmarshalMap av = inl item ->
  DynamoDBRepository.UpdateItem r env key (Some patch) =
  (DynamoDBRepository.withTable r
     (<[key := patched (now env) patch av]> (DynamoDBRepository.client r)),
   inl (UpdateFields (now env) item patch)).
Proof.
  intros Hkey Hvalid Hfault Hstored Hdecode.
  pose proof (patched_decodes (now env) patch av item Hdecode) as Hpatched.
  unfold DynamoDBRepository.UpdateItem.
  rewrite bool_decide_eq_false_2 by exact Hkey. rewrite Hvalid.
  unfold DynamoDBClient.UpdateItem, serveUpdateItem. rewrite Hfault.
  cbn [upd_Key upd_UpdateExpression upd_ExpressionAttributeValues
       upd_ExpressionAttributeNames upd_ConditionExpression].
  unfold holds. rewrite Hstored. cbn [default from_option]. unfold Datatypes.id.
  unfold patched in Hpatched |- *.
  destruct (bool_decide (UpdateItemRequest.Name patch <> ""));
    destruct (bool_decide (UpdateItemRequest.Description patch <> ""));
    destruct (bool_decide (UpdateItemRequest.Status patch <> "")).
  all: cbn [app applySet resolvePath upd_ExpressionAttributeNames
            upd_ExpressionAttributeValues].
  all: repeat match goal with
         | |- context [(0 <? size ?m)%nat] =>
             change (0 <? size m)%nat with true || change (0 <? size m)%nat with false
         end.
  all: cbn [applySet resolvePath upd_ExpressionAttributeNames
            upd_ExpressionAttributeValues].
  all: repeat (rewrite lookup_insert_eq || (rewrite lookup_insert_ne by discriminate)).
  all: cbn [applySet resolvePath upd_ExpressionAttributeNames
            upd_ExpressionAttributeValues].
  all: rewrite Hpatched; reflexivity.
Qed.

End UpdatePipeline.

Section UpdateAndDelete.
Import GoString GoErrors Models Repository Handlers Properties Examples.
Import DynamoDBClient.

(** C6 (amended).  An update of a stored item, with a valid patch and a
    reachable service, is answered 200 with the item changed as by
    [UpdateFields]: a field is replaced when the patch carries it (is
    not empty) and kept otherwise, so a patch with a status only leaves
    name and description as they were; the identifier and the creation
    time are kept; the update time is the clock reading of the update,
    whichever fields the patch carries.  The update time is strictly
    greater than the creation time exactly when that reading is later
    than the creation time. *)
Theorem UpdateItem_frame
    (h : ItemHandler DynamoDBRepository.t) (env : Env) (itemID : string)
    (patch : UpdateItemRequest.t) (item : Item) :
  itemID <> "" ->
  UpdateItemRequest_Validate patch = None ->
  fault env = None ->
  stores (DynamoDBRepository.client (repo h)) itemID item ->
  exists (h' : ItemHandler DynamoDBRepository.t) (item' : Item),
    Handlers.UpdateItem h env itemID (DecodeOK patch) =
    (h', {| StatusCode := 200;
            Body := {| Success := true; Data := Some (PItem item'); Error_ := None |} |}) /\
    item' = UpdateFields (now env) item patch /\
    stores (DynamoDBRepository.client (repo h')) itemID item' /\
    ID item' = ID item /\
    CreatedAt item' = CreatedAt item /\
    (UpdateItemRequest.Name patch = "" -> Name item' = Name item) /\
    (UpdateItemRequest.Name patch <> "" -> Name item' = UpdateItemRequest.Name patch) /\
    (UpdateItemRequest.Description patch = "" -> Description item' = Description item) /\
    (UpdateItemRequest.Description patch <> "" ->
     Description item' = UpdateItemRequest.Description patch) /\
    (UpdateItemRequest.Status patch = "" -> Status item' = Status item) /\
    (UpdateItemRequest.Status patch <> "" -> Status item' = UpdateItemRequest.Status patch) /\
    UpdatedAt item' = now env /\
    (CreatedAt item' < UpdatedAt item' <-> CreatedAt item < now env).
Proof.
  intros Hid Hvalid Hfault (av & Hstored & Hdecode).
  unfold Handlers.UpdateItem. rewrite bool_decide_eq_false_2 by exact Hid. rewrite Hvalid.
  change (Repository.UpdateItem (repo h) env itemID (Some patch))
    with (DynamoDBRepository.UpdateItem (repo h) env itemID (Some patch)).
  rewrite (DynamoDB_UpdateItem_existing (repo h) env itemID patch av item)
    by assumption.
  destruct (UpdateFields_frame (now env) item patch) as (Fi & Fc & Fu & Fn & Fd & Fs).
  eexists. exists (UpdateFields (now env) item patch).
  split; [reflexivity |]. split; [reflexivity |].
  split.
  { exists (patched (now env) patch av). split.
    - cbn [repo DynamoDBRepository.client DynamoDBRepository.withTable].
      apply lookup_insert_eq.
    - apply patched_decodes. exact Hdecode. }
  split; [exact Fi |]. split; [exact Fc |].
  split; [intros E; rewrite Fn; rewrite bool_decide_eq_false_2; [reflexivity | tauto] |].
  split; [intros E; rewrite Fn; rewrite bool_decide_eq_true_2; [reflexivity | exact E] |].
  split; [intros E; rewrite Fd; rewrite bool_decide_eq_false_2; [reflexivity | tauto] |].
  split; [intros E; rewrite Fd; rewrite bool_decide_eq_true_2; [reflexivity | exact E] |].
  split; [intros E; rewrite Fs; rewrite bool_decide_eq_false_2; [reflexivity | tauto] |].
  split; [intros E; rewrite Fs; rewrite bool_decide_eq_true_2; [reflexivity | exact E] |].
  split; [exact Fu |].
  rewrite Fc, Fu. reflexivity.
Qed.

(** C6 (as stated) fails: an item created at clock reading 1000 and
    updated at the same reading, or at the earlier reading 999 of
    another host, is updated successfully, and its update time is not
    greater than its creation time. *)
Lemma UpdateItem_clock_not_advanced :
  let updated (t : Time) :=
    {| StatusCode := 200;
       Body := {| Success := true;
                  Data := Some (PItem {| ID := testID; Name := "Test Item";
                                         Description := "d"; CreatedAt := 1000;
                                         UpdatedAt := t; Status := "inactive" |});
                  Error_ := None |} |} in
  (Handlers.CreateItem emptyStore (clock 1000) (DecodeOK testRequest)).2 =
    {| StatusCode := 201;
       Body := {| Success := true; Data := Some (PItem testItem); Error_ := None |} |} /\
  (Handlers.CreateItem emptyStore (clock 1000) (DecodeOK testRequest)).1 = oneItemStore /\
  (Handlers.UpdateItem oneItemStore (clock 1000) testID (DecodeOK deactivate)).2
    = updated 1000 /\
  (Handlers.UpdateItem oneItemStore (clock 999) testID (DecodeOK deactivate)).2
    = updated 999 /\
  ~ 1000 < 1000 /\ ~ 1000 < 999.
Proof.
  cbv zeta.
  split; [vm_compute; reflexivity |].
  split; [vm_compute; reflexivity |].
  split; [vm_compute; reflexivity |].
  split; [vm_compute; reflexivity |].
  split; lia.
Qed.

(** The update theorem at the patch [deactivate] on the stored test
    item, at clock reading 2000. *)
Lemma UpdateItem_frame_witness :
  exists (h' : ItemHandler DynamoDBRepository.t) (item' : Item),
    Handlers.UpdateItem oneItemStore (clock 2000) testID (DecodeOK deactivate) =
    (h', {| StatusCode := 200;
            Body := {| Success := true; Data := Some (PItem item'); Error_ := None |} |}) /\
    item' = UpdateFields (now (clock 2000)) testItem deactivate /\
    stores (DynamoDBRepository.client (repo h')) testID item' /\
    ID item' = ID testItem /\
    CreatedAt item' = CreatedAt testItem /\
    (UpdateItemRequest.Name deactivate = "" -> Name item' = Name testItem) /\
    (UpdateItemRequest.Name deactivate <> "" ->
     Name item' = UpdateItemRequest.Name deactivate) /\
    (UpdateItemRequest.Description deactivate = "" ->
     Description item' = Description testItem) /\
    (UpdateItemRequest.Description deactivate <> "" ->
     Description item' = UpdateItemRequest.Description deactivate) /\
    (UpdateItemRequest.Status deactivate = "" -> Status item' = Status testItem) /\
    (UpdateItemRequest.Status deactivate <> "" ->
     Status item' = UpdateItemRequest.Status deactivate) /\
    UpdatedAt item' = now (clock 2000) /\
    (CreatedAt item' < UpdatedAt item' <-> CreatedAt testItem < now (clock 2000)).
Proof.
  apply (UpdateItem_frame oneItemStore (clock 2000) testID deactivate testItem).
  - discriminate.
  - vm_compute; reflexivity.
  - reflexivity.
  - exists (MarshalMap testItem). split; [vm_compute; reflexivity | reflexivity].
Defined.

(** The translation of a failed condition does not depend on the
    operation: whatever call the exception comes from, the translator
    wraps AlreadyExists and the API error is 409 ALREADY_EXISTS. *)
Lemma failed_condition_is_conflict (sdkErr : error) :
  As sdkErr ResourceNotFoundException = false ->
  As sdkErr ConditionalCheckFailedException = true ->
  HandleDynamoDBError (Some sdkErr) =
    Some (Errorf_w_s ErrItemAlreadyExists "conditional check failed") /\
  WriteRepositoryErrorResponse
    (Errorf_w_s ErrItemAlreadyExists "conditional check failed") =
  errorResponse 409 "conflict" "ALREADY_EXISTS" "Resource already exists"
    "item already exists: conditional check failed".
Proof.
  intros Hnot Hcond. unfold HandleDynamoDBError. rewrite Hnot, Hcond.
  split; reflexivity.
Qed.

(** C1 (evaluation).  Delete and Update of an identifier that is not in
    the table: the service rejects the conditional write, the adapter
    returns an error that wraps AlreadyExists, not NotFound, and the
    handler answers 409 ALREADY_EXISTS, not 404 NOT_FOUND; the table is
    left as it was.  Deleting a stored item twice gives 200 and then
    409. *)
Theorem missing_item_is_conflict
    (h : ItemHandler DynamoDBRepository.t) (env : Env) (itemID : string) :
  itemID <> "" ->
  fault env = None ->
  DynamoDBRepository.client (repo h) !! itemID = None ->
  let conflict := errorResponse 409 "conflict" "ALREADY_EXISTS" "Resource already exists"
                    "item already exists: conditional check failed" in
  (exists e : error,
     (DynamoDBRepository.DeleteItem (repo h) env itemID).2 = Some e /\
     IsConflictError e = true /\ IsNotFoundError e = false) /\
  (Handlers.DeleteItem h env itemID).2 = conflict /\
  DynamoDBRepository.client (repo (Handlers.DeleteItem h env itemID).1) =
    DynamoDBRepository.client (repo h) /\
  (forall patch : UpdateItemRequest.t,
     UpdateItemRequest_Validate patch = None ->
     (exists e : error,
        (DynamoDBRepository.UpdateItem (repo h) env itemID (Some patch)).2 = inr e /\
        IsConflictError e = true /\ IsNotFoundError e = false) /\
     (Handlers.UpdateItem h env itemID (DecodeOK patch)).2 = conflict /\
     DynamoDBRepository.client (repo (Handlers.UpdateItem h env itemID (DecodeOK patch)).1) =
       DynamoDBRepository.client (repo h)) /\
  (forall (h0 : ItemHandler DynamoDBRepository.t) (env0 : Env),
     fault env0 = None ->
     is_Some (DynamoDBRepository.client (repo h0) !! itemID) ->
     StatusCode (Handlers.DeleteItem h0 env0 itemID).2 = 200 /\
     (Handlers.DeleteItem (Handlers.DeleteItem h0 env0 itemID).1 env itemID).2 = conflict).
Proof.
  intros Hid Hfault Habsent. cbv zeta.
  assert (Hdel : forall r : DynamoDBRepository.t,
             DynamoDBRepository.client r !! itemID = None ->
             DynamoDBRepository.DeleteItem r env itemID =
             (DynamoDBRepository.withTable r (DynamoDBRepository.client r),
              Some (Errorf_w_s ErrItemAlreadyExists "conditional check failed"))).
  { intros r Hr. unfold DynamoDBRepository.DeleteItem.
    rewrite bool_decide_eq_false_2 by exact Hid.
    unfold DynamoDBClient.DeleteItem, serveDeleteItem, holds. rewrite Hfault, Hr. reflexivity. }
  assert (Hdelh : forall h1 : ItemHandler DynamoDBRepository.t,
             DynamoDBRepository.client (repo h1) !! itemID = None ->
             Handlers.DeleteItem h1 env itemID =
             ({| repo := DynamoDBRepository.withTable (repo h1)
                           (DynamoDBRepository.client (repo h1)) |},
              errorResponse 409 "conflict" "ALREADY_EXISTS" "Resource already exists"
                "item already exists: conditional check failed")).
  { intros h1 Hr. unfold Handlers.DeleteItem.
    rewrite bool_decide_eq_false_2 by exact Hid.
    change (Repository.DeleteItem (repo h1) env itemID)
      with (DynamoDBRepository.DeleteItem (repo h1) env itemID).
    rewrite (Hdel _ Hr). reflexivity. }
  split.
  { rewrite (Hdel _ Habsent). eexists. split; [reflexivity |]. split; reflexivity. }
  split; [rewrite (Hdelh _ Habsent); reflexivity |].
  split; [rewrite (Hdelh _ Habsent); reflexivity |].
  split.
  - intros patch Hvalid.
    assert (Hupd : DynamoDBRepository.UpdateItem (repo h) env itemID (Some patch) =
                   (DynamoDBRepository.withTable (repo h) (DynamoDBRepository.client (repo h)),
                    inr (Errorf_w_s ErrItemAlreadyExists "conditional check failed"))).
    { unfold DynamoDBRepository.UpdateItem.
      rewrite bool_decide_eq_false_2 by exact Hid. rewrite Hvalid.
      unfold DynamoDBClient.UpdateItem, serveUpdateItem, holds. rewrite Hfault.
      cbn [upd_Key upd_ConditionExpression]. rewrite Habsent. reflexivity. }
    split; [rewrite Hupd; eexists; split; [reflexivity | split; reflexivity] |].
    unfold Handlers.UpdateItem. rewrite bool_decide_eq_false_2 by exact Hid. rewrite Hvalid.
    change (Repository.UpdateItem (repo h) env itemID (Some patch))
      with (DynamoDBRepository.UpdateItem (repo h) env itemID (Some patch)).
    rewrite Hupd. split; reflexivity.
  - intros h0 env0 Hfault0 [av Hstored].
    assert (Hfirst : Handlers.DeleteItem h0 env0 itemID =
                     ({| repo := DynamoDBRepository.withTable (repo h0)
                                   (delete itemID (DynamoDBRepository.client (repo h0))) |},
                      (Handlers.DeleteItem h0 env0 itemID).2)).
    { unfold Handlers.DeleteItem. rewrite bool_decide_eq_false_2 by exact Hid.
      change (Repository.DeleteItem (repo h0) env0 itemID)
        with (DynamoDBRepository.DeleteItem (repo h0) env0 itemID).
      unfold DynamoDBRepository.DeleteItem.
      rewrite bool_decide_eq_false_2 by exact Hid.
      unfold DynamoDBClient.DeleteItem, serveDeleteItem, holds. rewrite Hfault0, Hstored. reflexivity. }
    split.
    + unfold Handlers.DeleteItem. rewrite bool_decide_eq_false_2 by exact Hid.
      change (Repository.DeleteItem (repo h0) env0 itemID)
        with (DynamoDBRepository.DeleteItem (repo h0) env0 itemID).
      unfold DynamoDBRepository.DeleteItem.
      rewrite bool_decide_eq_false_2 by exact Hid.
      unfold DynamoDBClient.DeleteItem, serveDeleteItem, holds. rewrite Hfault0, Hstored. reflexivity.
    + rewrite Hfirst. cbn [fst]. rewrite Hdelh; [reflexivity |].
      cbn [repo DynamoDBRepository.client DynamoDBRepository.withTable].
      apply lookup_delete_eq.
Qed.

(** The conflict theorem at the test identifier on an empty table. *)
Lemma missing_item_is_conflict_witness :
  let conflict := errorResponse 409 "conflict" "ALREADY_EXISTS" "Resource already exists"
                    "item already exists: conditional check failed" in
  (exists e : error,
     (DynamoDBRepository.DeleteItem (repo emptyStore) (clock 3000) testID).2 = Some e /\
     IsConflictError e = true /\ IsNotFoundError e = false) /\
  (Handlers.DeleteItem emptyStore (clock 3000) testID).2 = conflict /\
  DynamoDBRepository.client (repo (Handlers.DeleteItem emptyStore (clock 3000) testID).1) =
    DynamoDBRepository.client (repo emptyStore) /\
  (forall patch : UpdateItemRequest.t,
     UpdateItemRequest_Validate patch = None ->
     (exists e : error,
        (DynamoDBRepository.UpdateItem (repo emptyStore) (clock 3000) testID
           (Some patch)).2 = inr e /\
        IsConflictError e = true /\ IsNotFoundError e = false) /\
     (Handlers.UpdateItem emptyStore (clock 3000) testID (DecodeOK patch)).2 = conflict /\
     DynamoDBRepository.client
       (repo (Handlers.UpdateItem emptyStore (clock 3000) testID (DecodeOK patch)).1) =
       DynamoDBRepository.client (repo emptyStore)) /\
  (forall (h0 : ItemHandler DynamoDBRepository.t) (env0 : Env),
     fault env0 = None ->
     is_Some (DynamoDBRepository.client (repo h0) !! testID) ->
     StatusCode (Handlers.DeleteItem h0 env0 testID).2 = 200 /\
     (Handlers.DeleteItem (Handlers.DeleteItem h0 env0 testID).1 (clock 3000) testID).2
     = conflict).
Proof.
  apply (missing_item_is_conflict emptyStore (clock 3000) testID).
  - discriminate.
  - reflexivity.
  - reflexivity.
Defined.

End UpdateAndDelete.

Section Envelopes.
Import GoString GoErrors Models Repository Handlers Properties.
Context {R : Type} {port : ItemRepository R}.

(** C9.  The envelope of every response of the handlers that the router
    registers - the health check and the item handlers Create, Get,
    List, Update and Delete - carries a payload or an error, never
    both, whatever the request and the storage port: with success a
    data payload and no error object, without success an error object
    with a non-empty type, code and message and no data payload. *)
Theorem handlers_envelope_exclusive (h : ItemHandler R) (env : Env) :
  exclusive (Body (HealthCheck h).2) /\
  (forall body : Decoded CreateItemRequest.t,
     exclusive (Body (Handlers.CreateItem h env body).2)) /\
  (forall itemID : string, exclusive (Body (Handlers.GetItem h env itemID).2)) /\
  (forall limitStr token : string,
     exclusive (Body (Handlers.ListItems h env limitStr token).2)) /\
  (forall (itemID : string) (body : Decoded UpdateItemRequest.t),
     exclusive (Body (Handlers.UpdateItem h env itemID body).2)) /\
  (forall itemID : string, exclusive (Body (Handlers.DeleteItem h env itemID).2)).
Proof.
  assert (Hparam : exclusive (Body (WriteMissingParameterErrorResponse "Item ID"))).
  { split; [reflexivity |]. eexists. split; [reflexivity |].
    cbn. repeat split; discriminate. }
  assert (Hparse : forall e : error, exclusive (Body (WriteJSONParseErrorResponse e))).
  { intros e. split; [reflexivity |]. eexists. split; [reflexivity |].
    cbn. repeat split; discriminate. }
  split; [split; [eexists; reflexivity | reflexivity] |].
  split.
  { intros [req | e]; unfold Handlers.CreateItem; [| apply Hparse].
    destruct (CreateItemRequest_Validate req) as [e |] eqn:Hv.
    - apply WriteValidationErrorResponse_exclusive.
      eapply CreateItemRequest_Validate_message; exact Hv.
    - destruct (Repository.CreateItem (repo h) env _) as [[r item] [e |]].
      + apply WriteRepositoryErrorResponse_exclusive.
      + split; [eexists; reflexivity | reflexivity]. }
  split.
  { intros itemID. unfold Handlers.GetItem. case_bool_decide; [exact Hparam |].
    destruct (Repository.GetItem (repo h) env itemID) as [r [item | e]].
    - split; [eexists; reflexivity | reflexivity].
    - apply WriteRepositoryErrorResponse_exclusive. }
  split.
  { intros limitStr token. unfold Handlers.ListItems, ListItems_options.
    case_bool_decide.
    - destruct (Atoi limitStr) as [limit | e].
      + destruct ((limit <=? 0) || (100 <? limit)).
        * split; [reflexivity |]. eexists. split; [reflexivity |].
          cbn. repeat split; discriminate.
        * unfold ListItems_query.
          destruct (Repository.ListItems (repo h) env _) as [r [res | e]].
          -- split; [eexists; reflexivity | reflexivity].
          -- apply WriteRepositoryErrorResponse_exclusive.
      + split; [reflexivity |]. eexists. split; [reflexivity |].
        cbn. repeat split; discriminate.
    - unfold ListItems_query.
      destruct (Repository.ListItems (repo h) env _) as [r [res | e]].
      + split; [eexists; reflexivity | reflexivity].
      + apply WriteRepositoryErrorResponse_exclusive. }
  split.
  { intros itemID [req | e]; unfold Handlers.UpdateItem;
      (case_bool_decide; [exact Hparam |]); [| apply Hparse].
    destruct (UpdateItemRequest_Validate req) as [e |] eqn:Hv.
    - apply WriteValidationErrorResponse_exclusive.
      eapply UpdateItemRequest_Validate_message; exact Hv.
    - destruct (Repository.UpdateItem (repo h) env itemID _) as [r [item | e]].
      + split; [eexists; reflexivity | reflexivity].
      + apply WriteRepositoryErrorResponse_exclusive. }
  intros itemID. unfold Handlers.DeleteItem. case_bool_decide; [exact Hparam |].
  destruct (Repository.DeleteItem (repo h) env itemID) as [r [e |]].
  - apply WriteRepositoryErrorResponse_exclusive.
  - split; [eexists; reflexivity | reflexivity].
Qed.

(** [HealthCheckDB], which the router does not register, follows the
    rule when the store is healthy; when it is not, it answers with
    success false, a data payload describing the store, and no error
    object. *)
Lemma HealthCheckDB_envelope (h : ItemHandler R) (env : Env) :
  (Success (Body (HealthCheckDB h env).2) = true ->
   exclusive (Body (HealthCheckDB h env).2)) /\
  (Success (Body (HealthCheckDB h env).2) = false ->
   is_Some (Data (Body (HealthCheckDB h env).2)) /\
   Error_ (Body (HealthCheckDB h env).2) = None).
Proof.
  unfold HealthCheckDB.
  destruct (asDynamoDB (repo h)) as [d |];
    [destruct (DynamoDBRepository.HealthCheck d env) as [e |] |].
  all: split; intros Hs; try discriminate Hs.
  all: split; [eexists; reflexivity | reflexivity].
Qed.

(** C8 (evaluation).  A successful Delete is answered 200 with a success
    envelope whose data payload has exactly the fields [message] and
    [id], the latter holding the deleted identifier; it has no field
    [deleted_id]. *)
Theorem DeleteItem_success_payload
    (h : ItemHandler R) (env : Env) (itemID : string) (r : R) :
  itemID <> "" ->
  Repository.DeleteItem (repo h) env itemID = (r, None) ->
  exists fields : gmap string Field,
    Handlers.DeleteItem h env itemID =
    ({| repo := r |},
     {| StatusCode := 200;
        Body := {| Success := true; Data := Some (PObject fields); Error_ := None |} |}) /\
    fields !! "message" = Some (FString "Item deleted successfully") /\
    fields !! "id" = Some (FString itemID) /\
    fields !! "deleted_id" = None /\
    dom fields = {["message"; "id"]}.
Proof.
  intros Hid Hdel. unfold Handlers.DeleteItem.
  rewrite bool_decide_eq_false_2 by exact Hid. rewrite Hdel.
  eexists. split; [reflexivity |].
  split; [reflexivity |]. split; [reflexivity |]. split; [reflexivity |].
  rewrite !dom_insert_L, dom_empty_L. set_solver.
Qed.

End Envelopes.

Section EnvelopeExamples.
Import GoString GoErrors Models Repository Handlers Properties Examples.

(** The database health check when the table cannot be described: 503
    with success false, a data payload and no error object. *)
Lemma HealthCheckDB_unhealthy_envelope :
  (HealthCheckDB oneItemStore unreachable).2 =
  {| StatusCode := 503;
     Body :=
       {| Success := false;
          Data := Some (PObject
                    (<["status" := FString "unhealthy"]>
                    (<["service" := FString "DynamoDB"]>
                    (<["message" := FString ("DynamoDB health check failed: " +:+
                                             "dial tcp 10.0.0.1:443: i/o timeout")]>
                    (<["tableName" := FString "items"]> ∅)))));
          Error_ := None |} |} /\
  ~ exclusive (Body (HealthCheckDB oneItemStore unreachable).2).
Proof.
  split; [vm_compute; reflexivity |].
  intros [Hdata _]. discriminate Hdata.
Qed.

(** The delete theorem at the stored test item. *)
Lemma DeleteItem_success_payload_witness :
  exists fields : gmap string Field,
    Handlers.DeleteItem oneItemStore (clock 3000) testID =
    ({| repo := (DynamoDBRepository.DeleteItem (repo oneItemStore) (clock 3000) testID).1 |},
     {| StatusCode := 200;
        Body := {| Success := true; Data := Some (PObject fields); Error_ := None |} |}) /\
    fields !! "message" = Some (FString "Item deleted successfully") /\
    fields !! "id" = Some (FString testID) /\
    fields !! "deleted_id" = None /\
    dom fields = {["message"; "id"]}.
Proof.
  apply (DeleteItem_success_payload oneItemStore (clock 3000) testID).
  - discriminate.
  - vm_compute; reflexivity.
Defined.

End EnvelopeExamples.

(* ===================================================================== *)
(** * The unit tests of the handlers, replayed on the embedding           *)
(* ===================================================================== *)

Section UnitTests.
Import GoString GoErrors Models Repository Handlers Properties Examples.

(** TestMapRepositoryError *)
Example test_MapRepositoryError :
  (fun e => (fun a => (APIError.Type_ a, APIError.Code a, APIError.StatusCode a))
              <$> MapRepositoryError (Some e))
    <$> [ErrItemNotFound; ErrItemAlreadyExists; ErrInvalidInput;
         ErrConnectionFailed; ErrOperationFailed; NewError "unknown error"]
  = [Some (ErrorTypeNotFound, CodeNotFound, 404);
     Some (ErrorTypeConflict, CodeAlreadyExists, 409);
     Some (ErrorTypeValidation, CodeInvalidRequest, 400);
     Some (ErrorTypeDatabase, CodeConnectionError, 503);
     Some (ErrorTypeDatabase, CodeDatabaseError, 500);
     Some (ErrorTypeSystem, CodeInternalError, 500)].
Proof. vm_compute. reflexivity. Qed.

(** TestMapValidationError *)
Example test_MapValidationError :
  (fun m => (fun a => (APIError.Type_ a, APIError.Code a, APIError.StatusCode a))
              <$> MapValidationError (Some (NewError m)))
    <$> ["name cannot be empty"; "name cannot exceed 100 characters";
         "status must be one of: active, inactive, pending"; "some validation error"]
  = [Some (ErrorTypeValidation, CodeMissingField, 400);
     Some (ErrorTypeValidation, CodeValueTooLong, 400);
     Some (ErrorTypeValidation, CodeInvalidValue, 400);
     Some (ErrorTypeValidation, CodeInvalidRequest, 400)].
Proof. vm_compute. reflexivity. Qed.

(** TestCreateItem, TestCreateItem_ValidationError,
    TestCreateItem_InvalidJSON, TestCreateItem_RepositoryError *)
Example test_CreateItem :
  StatusCode (Handlers.CreateItem (mock None) (clock 0)
                (DecodeOK {| CreateItemRequest.Name := "Test Item";
                             CreateItemRequest.Description := "Test Description" |})).2
  = 201 /\
  kindOf (Handlers.CreateItem (mock None) (clock 0)
            (DecodeOK {| CreateItemRequest.Name := "";
                         CreateItemRequest.Description := "Test Description" |})).2
  = (400, Some ("validation", "MISSING_FIELD")) /\
  kindOf (Handlers.CreateItem (mock None) (clock 0)
            (DecodeError (NewError "invalid character 'i' looking for beginning of value"))).2
  = (400, Some ("validation", "INVALID_FORMAT")) /\
  kindOf (Handlers.CreateItem (mock (Some ErrItemAlreadyExists)) (clock 0)
            (DecodeOK {| CreateItemRequest.Name := "Test Item";
                         CreateItemRequest.Description := "Test Description" |})).2
  = (409, Some ("conflict", "ALREADY_EXISTS")).
Proof. repeat split; vm_compute; reflexivity. Qed.

(** TestGetItem, TestGetItem_MissingID, TestGetItem_NotFound *)
Example test_GetItem :
  kindOf (Handlers.GetItem (mock None) (clock 0) "test-id").2 = (200, None) /\
  kindOf (Handlers.GetItem (mock None) (clock 0) "").2
  = (400, Some ("validation", "MISSING_FIELD")) /\
  kindOf (Handlers.GetItem (mock (Some ErrItemNotFound)) (clock 0) "nonexistent").2
  = (404, Some ("not_found", "NOT_FOUND")).
Proof. repeat split; vm_compute; reflexivity. Qed.

(** TestListItems_InvalidLimit, TestListItems_LimitOutOfRange *)
Example test_ListItems :
  kindOf (Handlers.ListItems (mock None) (clock 0) "invalid" "").2
  = (400, Some ("validation", "INVALID_FORMAT")) /\
  kindOf (Handlers.ListItems (mock None) (clock 0) "200" "").2
  = (400, Some ("validation", "INVALID_VALUE")).
Proof. repeat split; vm_compute; reflexivity. Qed.

(** TestUpdateItem_ValidationError, TestDeleteItem_NotFound *)
Example test_Update_Delete :
  kindOf (Handlers.UpdateItem (mock None) (clock 0) "test-id"
            (DecodeOK {| UpdateItemRequest.Name := ""; UpdateItemRequest.Description := "";
                         UpdateItemRequest.Status := "invalid_status" |})).2
  = (400, Some ("validation", "INVALID_VALUE")) /\
  kindOf (Handlers.DeleteItem (mock (Some ErrItemNotFound)) (clock 0) "nonexistent").2
  = (404, Some ("not_found", "NOT_FOUND")).
Proof. repeat split; vm_compute; reflexivity. Qed.

(** [TrimSpace] and [Atoi] on sample inputs. *)
Example test_TrimSpace_Atoi :
  TrimSpace "  a b  " = "a b" /\
  TrimSpace (String "009" (String "010" " ")) = "" /\
  TrimSpace (String (ascii_of_N 194) (String (ascii_of_N 160) "x")) = "x" /\
  Atoi "42" = inl 42 /\ Atoi "-7" = inl (-7) /\ Atoi "+7" = inl 7 /\
  Atoi "" = inr ErrSyntax /\ Atoi "4 2" = inr ErrSyntax /\ Atoi "1_0" = inr ErrSyntax /\
  Atoi "9223372036854775807" = inl 9223372036854775807 /\
  Atoi "9223372036854775808" = inr ErrRange /\
  Atoi "-9223372036854775808" = inl (-9223372036854775808).
Proof. repeat split; vm_compute; reflexivity. Qed.

(** The life of one item on the DynamoDB adapter: created (201), an
    update with an invalid status refused (400 INVALID_VALUE), deleted
    (200), then not found (404 NOT_FOUND). *)
Example test_item_life_cycle :
  let s1 := Handlers.CreateItem emptyStore (clock 1000) (DecodeOK testRequest) in
  let s2 := Handlers.UpdateItem s1.1 (clock 2000) testID
              (DecodeOK {| UpdateItemRequest.Name := ""; UpdateItemRequest.Description := "";
                           UpdateItemRequest.Status := "invalid_status" |}) in
  let s3 := Handlers.DeleteItem s2.1 (clock 3000) testID in
  let s4 := Handlers.GetItem s3.1 (clock 4000) testID in
  kindOf s1.2 = (201, None) /\
  Data (Body s1.2) = Some (PItem testItem) /\
  kindOf s2.2 = (400, Some ("validation", "INVALID_VALUE")) /\
  kindOf s3.2 = (200, None) /\
  kindOf s4.2 = (404, Some ("not_found", "NOT_FOUND")).
Proof. cbv zeta. repeat split; vm_compute; reflexivity. Qed.

End UnitTests.

(* ===================================================================== *)
(** * Further properties: the string helpers                              *)
(* ===================================================================== *)

Section SearchFacts.
Import GoString GoErrors Models Repository Handlers Properties Invariants.

Lemma OccursAt_window (substr s : string) (i : nat) :
  OccursAt substr s i <->
  (i + len substr <= len s)%nat /\
  take (len substr) (drop i (bytes s)) = bytes substr.
Proof.
  split.
  - intros (pre & post & -> & <-).
    rewrite !len_bytes, !bytes_append, !length_app. split; [lia |].
    rewrite drop_app_length. apply take_app_length.
  - intros (Hfit & Hw). rewrite !len_bytes in *.
    exists (string_of_list_ascii (take i (bytes s))),
           (string_of_list_ascii (drop (i + length (bytes substr)) (bytes s))).
    split.
    + apply bytes_inj. rewrite !bytes_append, !bytes_of_list.
      remember (length (bytes substr)) as n eqn:Hn. rewrite <- Hw.
      now rewrite <- drop_drop, !take_drop.
    + rewrite len_bytes, bytes_of_list, length_take. lia.
Qed.

Lemma Occurs_OccursAt (substr s : string) :
  Occurs substr s <-> exists i : nat, OccursAt substr s i.
Proof.
  split.
  - intros (pre & post & E). exists (len pre), pre, post. split; [exact E | reflexivity].
  - intros (i & pre & post & E & _). exists pre, post. exact E.
Qed.

(** The outer loop returns the first index it visits at which the inner
    loop succeeds, and -1 when there is none. *)
Lemma findFrom_first (s substr : string) (n i : nat) (r : Z) :
  findFrom s substr i n = r ->
  (r = -1 /\ forall k : nat, (k < n)%nat -> matchAt s substr (i + k) 0 (len substr) = false) \/
  (exists k : nat, (k < n)%nat /\ r = Z.of_nat (i + k) /\
     matchAt s substr (i + k) 0 (len substr) = true /\
     forall j : nat, (j < k)%nat -> matchAt s substr (i + j) 0 (len substr) = false).
Proof.
  revert i r. induction n as [|n IH]; intros i r; simpl.
  - intros <-. left. split; [reflexivity | intros k Hk; lia].
  - destruct (matchAt s substr i 0 (len substr)) eqn:E.
    + intros <-. right. exists 0%nat. rewrite Nat.add_0_r.
      repeat split; [lia | exact E | intros j Hj; lia].
    + intros Hr. destruct (IH (S i) r Hr) as [[-> Hnone] | (k & Hk & -> & Hm & Hbefore)].
      * left. split; [reflexivity |]. intros [|k] Hk.
        -- now rewrite Nat.add_0_r.
        -- replace (i + S k)%nat with (S i + k)%nat by lia. apply Hnone. lia.
      * right. exists (S k).
        replace (i + S k)%nat with (S i + k)%nat by lia.
        repeat split; [lia | exact Hm |].
        intros [|j] Hj.
        -- now rewrite Nat.add_0_r.
        -- replace (i + S j)%nat with (S i + j)%nat by lia. apply Hbefore. lia.
Qed.

Lemma matchAt_false_window (s substr : string) (i : nat) :
  (i + len substr <= len s)%nat ->
  matchAt s substr i 0 (len substr) = false ->
  ~ OccursAt substr s i.
Proof.
  intros Hfit Hm Hocc. apply OccursAt_window in Hocc as [_ Hw].
  apply (matchAt_window s substr i Hfit) in Hw. congruence.
Qed.

(** X1.  [findSubstring] returns the index of the first occurrence of
    the substring, and -1 exactly when the substring does not occur; the
    empty substring is found at index 0. *)
Theorem findSubstring_first_occurrence (s substr : string) :
  (findSubstring s substr = -1 <-> ~ Occurs substr s) /\
  (forall i : nat,
     findSubstring s substr = Z.of_nat i <->
     OccursAt substr s i /\ forall j : nat, (j < i)%nat -> ~ OccursAt substr s j) /\
  (-1 <= findSubstring s substr <= Z.of_nat (len s)) /\
  findSubstring s "" = 0.
Proof.
  assert (Hcases :
    (findSubstring s substr = -1 /\ forall k : nat, ~ OccursAt substr s k) \/
    (exists k : nat, findSubstring s substr = Z.of_nat k /\ OccursAt substr s k /\
                     forall j : nat, (j < k)%nat -> ~ OccursAt substr s j)).
  { unfold findSubstring.
    destruct (Nat.eqb_spec (len substr) 0) as [E0|E0].
    - right. exists 0%nat. split; [reflexivity |]. split; [| intros j Hj; lia].
      apply OccursAt_window. split; [lia |]. rewrite E0. simpl.
      rewrite len_bytes in E0. now destruct (bytes substr).
    - destruct (Nat.ltb_spec (len s) (len substr)) as [Hlt|Hge].
      + left. split; [reflexivity |]. intros k Hocc.
        apply OccursAt_window in Hocc as [Hfit _]. lia.
      + destruct (findFrom_first s substr (len s - len substr + 1) 0 _ eq_refl)
          as [[Hr Hnone] | (k & Hk & Hr & Hm & Hbefore)].
        * left. split; [exact Hr |]. intros k Hocc.
          pose proof Hocc as Hocc'. apply OccursAt_window in Hocc' as [Hfit _].
          revert Hocc. apply matchAt_false_window; [exact Hfit |].
          apply (Hnone k). lia.
        * right. exists k. simpl in Hr, Hm. split; [exact Hr |]. split.
          -- apply OccursAt_window. assert (k + len substr <= len s)%nat as Hfit by lia.
             split; [exact Hfit |]. now apply matchAt_window.
          -- intros j Hj. apply matchAt_false_window; [lia |]. apply (Hbefore j Hj). }
  split; [| split; [| split]].
  - rewrite Occurs_OccursAt. destruct Hcases as [[Hr Hnone] | (k & Hr & Hocc & _)].
    + split; [intros _ (i & Hi); exact (Hnone i Hi) | intros _; exact Hr].
    + split; [intros E; lia | intros Hno; exfalso; apply Hno; eauto].
  - intros i. destruct Hcases as [[Hr Hnone] | (k & Hr & Hocc & Hbefore)].
    + split; [intros E; lia | intros [Hocc _]; exfalso; exact (Hnone i Hocc)].
    + split.
      * intros E. assert (i = k) as -> by lia. split; assumption.
      * intros [Hocc' Hbefore']. rewrite Hr. f_equal.
        destruct (Nat.lt_trichotomy i k) as [Hlt | [-> | Hgt]]; [| reflexivity |].
        -- exfalso. exact (Hbefore i Hlt Hocc').
        -- exfalso. exact (Hbefore' k Hgt Hocc).
  - destruct Hcases as [[Hr _] | (k & Hr & Hocc & _)]; [lia |].
    apply OccursAt_window in Hocc as [Hfit _]. lia.
  - reflexivity.
Qed.

End SearchFacts.

Section RepositorySearch.
Import GoString GoErrors Models Repository Handlers Properties Invariants.

Lemma bytes_substring (s : string) (n m : nat) :
  bytes (substring n m s) = take m (drop n (bytes s)).
Proof.
  unfold bytes. revert n m. induction s as [|c s IH]; intros n m.
  - destruct n, m; reflexivity.
  - destruct n as [|n]; simpl.
    + destruct m as [|m]; simpl; [reflexivity |]. f_equal. apply (IH 0%nat m).
    + apply IH.
Qed.

(** A slice equals the substring exactly when the substring occurs at
    the start of the slice. *)
Lemma slice_eq_OccursAt (s substr : string) (i : nat) :
  (i <= len s)%nat ->
  Repository.slice s i (i + len substr) = substr <-> OccursAt substr s i.
Proof.
  intros Hi. unfold Repository.slice. replace (i + len substr - i)%nat with (len substr) by lia.
  rewrite OccursAt_window. split.
  - intros E. assert (Hb : bytes (substring i (len substr) s) = bytes substr) by now rewrite E.
    rewrite bytes_substring in Hb. split; [| exact Hb].
    assert (Hl : length (take (len substr) (drop i (bytes s))) = len substr)
      by (rewrite Hb; symmetry; apply len_bytes).
    rewrite length_take, length_drop, <- len_bytes in Hl. lia.
  - intros [_ Hw]. apply bytes_inj. now rewrite bytes_substring.
Qed.

Lemma containsSubstringFrom_spec (s substr : string) (n i : nat) :
  (i + n <= len s + 1)%nat ->
  containsSubstringFrom s substr i n = true <->
  exists k : nat, (k < n)%nat /\ OccursAt substr s (i + k).
Proof.
  revert i. induction n as [|n IH]; intros i Hin; simpl.
  - split; [discriminate | intros (k & Hk & _); lia].
  - case_bool_decide as E.
    + split; [intros _ | reflexivity]. exists 0%nat. rewrite Nat.add_0_r.
      split; [lia |]. apply slice_eq_OccursAt; [lia | exact E].
    + rewrite IH by lia. split.
      * intros (k & Hk & Hocc). exists (S k). split; [lia |].
        now replace (i + S k)%nat with (S i + k)%nat by lia.
      * intros ([|k] & Hk & Hocc).
        -- rewrite Nat.add_0_r in Hocc. exfalso. apply E.
           apply slice_eq_OccursAt; [lia | exact Hocc].
        -- exists k. split; [lia |].
           now replace (S i + k)%nat with (i + S k)%nat by lia.
Qed.

(** X2.  [contains] of the repository package decides, byte for byte
    and with no folding of letter case, whether the substring occurs in
    the string; [containsSubstring] alone decides the same. *)
Theorem Repository_contains_Occurs (s substr : string) :
  (Repository.contains s substr = true <-> Occurs substr s) /\
  (containsSubstring s substr = true <-> Occurs substr s).
Proof.
  assert (Hsub : containsSubstring s substr = true <-> Occurs substr s).
  { unfold containsSubstring. rewrite containsSubstringFrom_spec by lia.
    rewrite Occurs_OccursAt. split.
    - intros (k & _ & Hocc). exists k. exact Hocc.
    - intros (k & Hocc). exists k. split; [| exact Hocc].
      apply OccursAt_window in Hocc as [Hfit _]. lia. }
  split; [| exact Hsub].
  unfold Repository.contains.
  rewrite andb_true_iff, !orb_true_iff, andb_true_iff, !orb_true_iff.
  rewrite Nat.leb_le, Nat.ltb_lt, !bool_decide_eq_true, Hsub.
  split.
  - intros [_ [-> | [_ [[Hp | Hs] | Hocc]]]].
    + exists "", "". apply bytes_inj. rewrite !bytes_append. simpl. now rewrite app_nil_r.
    + apply Occurs_OccursAt. exists 0%nat.
      apply (slice_eq_OccursAt s substr 0); [lia | exact Hp].
    + apply Occurs_OccursAt. exists (len s - len substr)%nat.
      apply slice_eq_OccursAt; [lia |].
      destruct (Nat.le_gt_cases (len substr) (len s)) as [Hle | Hgt].
      * now replace (len s - len substr + len substr)%nat with (len s) by lia.
      * exfalso. unfold Repository.slice in Hs.
        assert (Hl : len (substring (len s - len substr) (len s - (len s - len substr)) s)
                     = len substr) by now rewrite Hs.
        rewrite len_bytes, bytes_substring, length_take, length_drop, <- len_bytes in Hl.
        lia.
    + exact Hocc.
  - intros Hocc. pose proof Hocc as (pre & post & E).
    assert (Hlen : (len s = len pre + len substr + len post)%nat).
    { rewrite E, !len_bytes, !bytes_append, !length_app. lia. }
    split; [lia |].
    destruct (Nat.eq_dec (len s) (len substr)) as [Heq | Hne].
    + left. assert (len pre = 0 /\ len post = 0)%nat as [Hp Hq] by lia.
      destruct pre; [| discriminate Hp]. destruct post; [| discriminate Hq].
      rewrite E. apply bytes_inj. rewrite !bytes_append. simpl. now rewrite app_nil_r.
    + right. split; [lia |]. right. exact Hocc.
Qed.

(** [containsValidationError] looks for its five keywords as they are
    spelled. *)
Lemma containsValidationError_Occurs (errMsg : string) :
  containsValidationError errMsg = true <->
  Occurs "ValidationException" errMsg \/ Occurs "validation" errMsg \/
  Occurs "invalid" errMsg \/ Occurs "malformed" errMsg \/ Occurs "bad request" errMsg.
Proof.
  unfold containsValidationError. rewrite existsb_exists.
  assert (Hnonempty : forall kw : string, (0 < len kw)%nat -> Occurs kw errMsg ->
                                          (0 < len errMsg)%nat).
  { intros kw Hkw (pre & post & ->).
    rewrite (len_bytes (pre +:+ kw +:+ post)), !bytes_append, !length_app, <- !len_bytes.
    lia. }
  split.
  - intros (kw & Hin & Hc). apply andb_true_iff in Hc as [_ Hc].
    apply Repository_contains_Occurs in Hc.
    simpl in Hin. destruct Hin as [<- | [<- | [<- | [<- | [<- | []]]]]]; tauto.
  - intros Hany.
    assert (Hkw : exists kw : string,
               In kw ["ValidationException"; "validation"; "invalid"; "malformed";
                      "bad request"] /\ Occurs kw errMsg /\ (0 < len kw)%nat).
    { destruct Hany as [H | [H | [H | [H | H]]]];
        eexists; (split; [| split; [exact H | simpl; lia]]); simpl; tauto. }
    destruct Hkw as (kw & Hin & Hocc & Hpos). exists kw. split; [exact Hin |].
    apply andb_true_iff. split.
    + apply Nat.ltb_lt. eapply Hnonempty; eassumption.
    + now apply Repository_contains_Occurs.
Qed.

End RepositorySearch.

Section LowerCase.
Import GoString GoErrors Models Repository Handlers Properties Invariants.

Lemma lowerByte_idempotent (b : ascii) : lowerByte (lowerByte b) = lowerByte b.
Proof. destruct b as [[] [] [] [] [] [] [] []]; vm_compute; reflexivity. Qed.

Lemma toLower_idempotent (s : string) : toLower (toLower s) = toLower s.
Proof.
  induction s as [|b s IH]; simpl; [reflexivity |].
  now rewrite lowerByte_idempotent, IH.
Qed.

Lemma toLower_len (s : string) : len (toLower s) = len s.
Proof. unfold len. induction s; simpl; [reflexivity | now f_equal]. Qed.

(** Lower-casing the message or the keywords does not change the answer
    of [containsAnyKeyword]. *)
Lemma containsAnyKeyword_toLower (message : string) (keywords : list string) :
  containsAnyKeyword (toLower message) keywords = containsAnyKeyword message keywords /\
  containsAnyKeyword message (map toLower keywords) = containsAnyKeyword message keywords.
Proof.
  split.
  - unfold containsAnyKeyword. now rewrite toLower_idempotent.
  - unfold containsAnyKeyword. induction keywords as [|kw kws IH]; simpl; [reflexivity |].
    now rewrite toLower_idempotent, IH.
Qed.

(** What [lowerByte] does to the value of a byte. *)
Lemma byte_val_lowerByte (b : ascii) :
  byte_val (lowerByte b) =
  (if (65 <=? byte_val b) && (byte_val b <=? 90) then byte_val b + 32 else byte_val b)%N.
Proof. destruct b as [[] [] [] [] [] [] [] []]; vm_compute; reflexivity. Qed.

Lemma byte_val_inj (c d : ascii) : byte_val c = byte_val d -> c = d.
Proof.
  unfold byte_val. intros Heq.
  rewrite <- (ascii_N_embedding c), <- (ascii_N_embedding d). now rewrite Heq.
Qed.

(** Two bytes have the same lower-case form exactly when they are the
    same letter up to case. *)
Lemma lowerByte_sameLetter (c d : ascii) :
  lowerByte c = lowerByte d <-> sameLetter c d.
Proof.
  unfold sameLetter. split.
  - intros Heq. apply (f_equal byte_val) in Heq. rewrite !byte_val_lowerByte in Heq.
    destruct (N.leb_spec 65 (byte_val c)), (N.leb_spec (byte_val c) 90),
             (N.leb_spec 65 (byte_val d)), (N.leb_spec (byte_val d) 90);
      cbn [andb] in Heq;
      first [ left; apply byte_val_inj; lia | right; left; lia | right; right; lia ].
  - intros [-> | [[Hc Hd] | [Hd Hc]]]; [reflexivity | |].
    all: apply byte_val_inj; rewrite !byte_val_lowerByte.
    all: destruct (N.leb_spec 65 (byte_val c)), (N.leb_spec (byte_val c) 90),
                  (N.leb_spec 65 (byte_val d)), (N.leb_spec (byte_val d) 90);
           cbn [andb]; lia.
Qed.

Lemma toLower_sameText (s t : string) : toLower s = toLower t <-> sameText s t.
Proof.
  unfold sameText. revert t.
  induction s as [|c s IH]; intros [|d t]; cbn [toLower bytes list_ascii_of_string].
  - split; [constructor | reflexivity].
  - split; [discriminate | intros Hall; inversion Hall].
  - split; [discriminate | intros Hall; inversion Hall].
  - split.
    + intros [= Hc Hs]. constructor; [apply lowerByte_sameLetter; exact Hc |].
      apply IH. exact Hs.
    + intros Hall. inversion Hall as [| ? ? ? ? Hc Hs]; subst. f_equal.
      * apply lowerByte_sameLetter. exact Hc.
      * apply IH. exact Hs.
Qed.

Lemma toLower_app (a b : string) : toLower (a +:+ b) = toLower a +:+ toLower b.
Proof.
  induction a as [|c a IH]; [reflexivity |].
  change (String c a +:+ b) with (String c (a +:+ b)).
  cbn [toLower]. rewrite IH. reflexivity.
Qed.

Lemma toLower_app_inv (m a b : string) :
  toLower m = a +:+ b ->
  exists a' b' : string, m = a' +:+ b' /\ toLower a' = a /\ toLower b' = b.
Proof.
  revert m. induction a as [|c a IH]; intros m Heq.
  - exists "", m. repeat split. exact Heq.
  - change (String c a +:+ b) with (String c (a +:+ b)) in Heq.
    destruct m as [|c' m]; [discriminate Heq |].
    cbn [toLower] in Heq. injection Heq as Hc Hm.
    destruct (IH m Hm) as (a' & b' & -> & <- & <-).
    exists (String c' a'), b'. repeat split. cbn [toLower]. rewrite Hc. reflexivity.
Qed.

(** The search on lower-cased strings finds the occurrences up to
    case. *)
Lemma Mentions_OccursIgnoringCase (keyword message : string) :
  Mentions keyword message <-> OccursIgnoringCase keyword message.
Proof.
  unfold Mentions, Occurs, OccursIgnoringCase. split.
  - intros (pre & post & Heq).
    apply toLower_app_inv in Heq as (pre' & rest & -> & <- & Hrest).
    apply toLower_app_inv in Hrest as (mid & post' & -> & Hmid & <-).
    exists pre', mid, post'. split; [reflexivity |].
    apply toLower_sameText. exact Hmid.
  - intros (pre & mid & post & -> & Hsame). apply toLower_sameText in Hsame.
    exists (toLower pre), (toLower post). rewrite !toLower_app, Hsame. reflexivity.
Qed.

(** X3.  Keyword matching ignores the case of ASCII letters.
    [containsAnyKeyword] answers true exactly when one of the keywords
    occurs in the message up to the case of ASCII letters: some run of
    bytes of the message agrees with the keyword byte by byte, where an
    upper-case letter A..Z and its lower-case form count as the same
    and every other byte only agrees with itself.  Hence two messages,
    and two lists of keywords, that differ in the case of letters only
    get the same answer. *)
Theorem containsAnyKeyword_ignores_case (message : string) (keywords : list string) :
  (containsAnyKeyword message keywords = true <->
   exists keyword : string,
     In keyword keywords /\ OccursIgnoringCase keyword message) /\
  (forall (message' : string) (keywords' : list string),
     sameText message message' -> Forall2 sameText keywords keywords' ->
     containsAnyKeyword message' keywords' = containsAnyKeyword message keywords).
Proof.
  split.
  - rewrite containsAnyKeyword_Mentions.
    split; intros (keyword & Hin & Hoccurs); exists keyword; (split; [exact Hin |]);
      apply Mentions_OccursIgnoringCase; exact Hoccurs.
  - intros message' keywords' Hmessage Hkeywords.
    apply toLower_sameText in Hmessage. unfold containsAnyKeyword. rewrite <- Hmessage.
    induction Hkeywords as [| keyword keyword' rest rest' Hkeyword _ IH]; [reflexivity |].
    apply toLower_sameText in Hkeyword. cbn [existsb]. rewrite <- Hkeyword, IH.
    reflexivity.
Qed.

End LowerCase.

(* ===================================================================== *)
(** * Further properties: error translation and validation                *)
(* ===================================================================== *)

Section Translation.
Import GoString GoErrors Models Repository Handlers Properties Invariants Examples.

(** X4.  What the API answers for an error of the DynamoDB SDK, once
    translated by [HandleDynamoDBError] and mapped by
    [MapRepositoryError].  The exception types are tried in order: a
    missing resource gives 404 NOT_FOUND, a failed condition 409
    ALREADY_EXISTS, exceeded provisioned throughput 429
    THROUGHPUT_EXCEEDED, a resource in use and an internal server error
    500 DATABASE_ERROR.  Any other error whose message contains one of
    ValidationException, validation, invalid, malformed, bad request (as
    spelled) gives 400 INVALID_REQUEST; the rest give 429 or 500
    DATABASE_ERROR, by the throughput keywords.  No SDK error is
    answered with type system. *)
Theorem sdk_error_response (sdkErr : error) :
  exists repoErr : error,
    HandleDynamoDBError (Some sdkErr) = Some repoErr /\
    let answer := kindOf (WriteRepositoryErrorResponse repoErr) in
    let validationWord :=
      Occurs "ValidationException" (Error sdkErr) \/ Occurs "validation" (Error sdkErr) \/
      Occurs "invalid" (Error sdkErr) \/ Occurs "malformed" (Error sdkErr) \/
      Occurs "bad request" (Error sdkErr) in
    let untyped :=
      As sdkErr ResourceNotFoundException = false /\
      As sdkErr ConditionalCheckFailedException = false /\
      As sdkErr ProvisionedThroughputExceededException = false /\
      As sdkErr ResourceInUseException = false /\
      As sdkErr InternalServerError = false in
    (As sdkErr ResourceNotFoundException = true ->
     answer = (404, Some ("not_found", "NOT_FOUND")) /\
     Error repoErr = "item not found: " +:+ Error sdkErr) /\
    (As sdkErr ResourceNotFoundException = false ->
     As sdkErr ConditionalCheckFailedException = true ->
     answer = (409, Some ("conflict", "ALREADY_EXISTS"))) /\
    (As sdkErr ResourceNotFoundException = false ->
     As sdkErr ConditionalCheckFailedException = false ->
     As sdkErr ProvisionedThroughputExceededException = true ->
     answer = (429, Some ("database", "THROUGHPUT_EXCEEDED"))) /\
    (As sdkErr ResourceNotFoundException = false ->
     As sdkErr ConditionalCheckFailedException = false ->
     As sdkErr ProvisionedThroughputExceededException = false ->
     As sdkErr ResourceInUseException = true \/ As sdkErr InternalServerError = true ->
     answer = (500, Some ("database", "DATABASE_ERROR"))) /\
    (untyped -> validationWord ->
     answer = (400, Some ("validation", "INVALID_REQUEST")) /\
     Error repoErr = "invalid input: " +:+ Error sdkErr) /\
    (untyped -> ~ validationWord ->
     Error repoErr = "database operation failed: " +:+ Error sdkErr /\
     (throttled (Error repoErr) ->
      answer = (429, Some ("database", "THROUGHPUT_EXCEEDED"))) /\
     (~ throttled (Error repoErr) ->
      answer = (500, Some ("database", "DATABASE_ERROR")))) /\
    (forall code : string, answer <> (500, Some ("system", code))).
Proof.
  unfold HandleDynamoDBError. eexists. split; [reflexivity |]. cbv zeta.
  pose proof (containsValidationError_Occurs (Error sdkErr)) as Hval.
  destruct (As sdkErr ResourceNotFoundException) eqn:E1.
  { repeat split; intros; try discriminate; try tauto; try reflexivity.
    all: try (intuition discriminate). }
  destruct (As sdkErr ConditionalCheckFailedException) eqn:E2.
  { repeat split; intros; try discriminate; try tauto; try reflexivity.
    all: try (intuition discriminate). }
  destruct (As sdkErr ProvisionedThroughputExceededException) eqn:E3.
  { repeat split; intros; try discriminate; try tauto; try reflexivity.
    all: try (intuition discriminate). }
  destruct (As sdkErr ResourceInUseException) eqn:E4.
  { repeat split; intros; try discriminate; try tauto; try reflexivity.
    all: try (intuition discriminate). }
  destruct (As sdkErr InternalServerError) eqn:E5.
  { repeat split; intros; try discriminate; try tauto; try reflexivity.
    all: try (intuition discriminate). }
  destruct (containsValidationError (Error sdkErr)) eqn:E6.
  - repeat split; intros; try discriminate; try reflexivity.
    all: try (intuition discriminate).
    all: try (exfalso; match goal with H : ~ _ |- _ => apply H, Hval; reflexivity end).
  - assert (Hno : ~ (Occurs "ValidationException" (Error sdkErr) \/
                     Occurs "validation" (Error sdkErr) \/
                     Occurs "invalid" (Error sdkErr) \/
                     Occurs "malformed" (Error sdkErr) \/
                     Occurs "bad request" (Error sdkErr))).
    { intros Hany. apply Hval in Hany. discriminate. }
    set (repoErr := Errorf_w_s ErrOperationFailed (Error sdkErr)).
    assert (Hthr : containsThroughputError (Error repoErr) = true <->
                   throttled (Error repoErr)).
    { unfold containsThroughputError, throttled. apply containsAnyKeyword_four. }
    unfold WriteRepositoryErrorResponse, MapRepositoryError.
    change (IsNotFoundError repoErr) with false.
    change (IsConflictError repoErr) with false.
    change (IsValidationError repoErr) with false.
    change (IsConnectionError repoErr) with false.
    change (IsOperationError repoErr) with true.
    cbv iota.
    destruct (containsThroughputError (Error repoErr)) eqn:E7.
    + repeat split; intros; try discriminate; try tauto; try reflexivity.
      all: try (intuition discriminate).
      all: try (exfalso;
                match goal with H : ~ throttled _ |- _ => apply H, Hthr; reflexivity end).
    + repeat split; intros; try discriminate; try tauto; try reflexivity.
      all: try (intuition discriminate).
      all: try match goal with H : throttled _ |- _ => apply Hthr in H; discriminate end.
Qed.

End Translation.

Section MoreValidation.
Import GoString GoErrors Models Repository Handlers Properties Invariants Examples.

Lemma isValidStatus_spec (status : string) :
  isValidStatus status = true <->
  status = "active" \/ status = "inactive" \/ status = "pending".
Proof.
  unfold isValidStatus. simpl. rewrite !orb_true_iff, !bool_decide_eq_true.
  split; [intros [H | [H | [H | H]]]; (discriminate || tauto) | tauto].
Qed.

(** The three blocks of [ValidateUpdate], one by one. *)
Lemma name_block (n : string) :
  let c := if bool_decide (n <> "") then
             if bool_decide (TrimSpace n = "") then Some ErrEmptyName
             else if (100 <? len n)%nat then Some ErrNameTooLong
             else None
           else None in
  (c = None <-> n = "" \/ (TrimSpace n <> "" /\ (len n <= 100)%nat)) /\
  (c = None \/ c = Some ErrEmptyName \/ c = Some ErrNameTooLong).
Proof.
  cbv zeta. destruct (decide (n = "")) as [Hn | Hn].
  - rewrite bool_decide_eq_false_2 by tauto. split; [tauto | left; reflexivity].
  - rewrite bool_decide_eq_true_2 by exact Hn.
    case_bool_decide as Ht; [split; [split; [discriminate | tauto] | tauto] |].
    destruct (Nat.ltb_spec 100 (len n)) as [Hl | Hl].
    + split; [split; [discriminate | intros [? | [_ ?]]; [tauto | lia]] | tauto].
    + split; [split; [tauto | reflexivity] | tauto].
Qed.

Lemma description_block (d : string) :
  let c := if bool_decide (d <> "") then
             if bool_decide (TrimSpace d = "") then Some ErrEmptyDescription
             else if (500 <? len d)%nat then Some ErrDescriptionTooLong
             else None
           else None in
  (c = None <-> d = "" \/ (TrimSpace d <> "" /\ (len d <= 500)%nat)) /\
  (c = None \/ c = Some ErrEmptyDescription \/ c = Some ErrDescriptionTooLong).
Proof.
  cbv zeta. destruct (decide (d = "")) as [Hd | Hd].
  - rewrite bool_decide_eq_false_2 by tauto. split; [tauto | left; reflexivity].
  - rewrite bool_decide_eq_true_2 by exact Hd.
    case_bool_decide as Ht; [split; [split; [discriminate | tauto] | tauto] |].
    destruct (Nat.ltb_spec 500 (len d)) as [Hl | Hl].
    + split; [split; [discriminate | intros [? | [_ ?]]; [tauto | lia]] | tauto].
    + split; [split; [tauto | reflexivity] | tauto].
Qed.

Lemma status_block (st : string) :
  let c := if bool_decide (st <> "") then
             if negb (isValidStatus st) then Some ErrInvalidStatus else None
           else None in
  (c = None <-> st = "" \/ st = "active" \/ st = "inactive" \/ st = "pending") /\
  (c = None \/ c = Some ErrInvalidStatus).
Proof.
  cbv zeta. pose proof (isValidStatus_spec st) as Hst.
  destruct (decide (st = "")) as [Hs | Hs].
  - rewrite bool_decide_eq_false_2 by tauto. split; [tauto | left; reflexivity].
  - rewrite bool_decide_eq_true_2 by exact Hs.
    destruct (isValidStatus st); cbn [negb].
    + split; [split; [intros _; right; apply Hst; reflexivity | reflexivity] | tauto].
    + split; [split; [discriminate |] | tauto].
      intros [? | Hv]; [tauto |]. apply Hst in Hv. discriminate.
Qed.

(** The update validator accepts exactly the patches whose three blocks
    pass. *)
Lemma UpdateItemRequest_Validate_None (r : UpdateItemRequest.t) :
  UpdateItemRequest_Validate r = None <->
  (UpdateItemRequest.Name r = "" \/
   (TrimSpace (UpdateItemRequest.Name r) <> "" /\
    (len (UpdateItemRequest.Name r) <= 100)%nat)) /\
  (UpdateItemRequest.Description r = "" \/
   (TrimSpace (UpdateItemRequest.Description r) <> "" /\
    (len (UpdateItemRequest.Description r) <= 500)%nat)) /\
  (UpdateItemRequest.Status r = "" \/
   UpdateItemRequest.Status r = "active" \/
   UpdateItemRequest.Status r = "inactive" \/
   UpdateItemRequest.Status r = "pending").
Proof.
  unfold UpdateItemRequest_Validate.
  destruct (name_block (UpdateItemRequest.Name r)) as [Hn Hn'];
    destruct (description_block (UpdateItemRequest.Description r)) as [Hd Hd'];
    destruct (status_block (UpdateItemRequest.Status r)) as [Hs Hs'].
  cbv zeta in Hn, Hn', Hd, Hd', Hs, Hs'.
  destruct Hn' as [En | [En | En]]; rewrite En in Hn |- *.
  all: try (split; [discriminate | intros [Hbad _]; apply Hn in Hbad; discriminate]).
  destruct Hd' as [Ed | [Ed | Ed]]; rewrite Ed in Hd |- *.
  all: try (split; [discriminate | intros (_ & Hbad & _); apply Hd in Hbad; discriminate]).
  destruct Hs' as [Es | Es]; rewrite Es in Hs |- *.
  - split; [intros _ | reflexivity]. repeat split; [apply Hn | apply Hd | apply Hs]; reflexivity.
  - split; [discriminate | intros (_ & _ & Hbad); apply Hs in Hbad; discriminate].
Qed.

(** X5.  [ValidateUpdate] accepts a patch exactly when each field it
    carries is valid: a name that is not empty must be non-blank after
    trimming and at most 100 long, a description that is not empty
    non-blank and at most 500 long, a status that is not empty one of
    active, inactive, pending (as spelled).  Fields left empty are not
    checked, so the empty patch is accepted.  The status is checked
    last: the invalid-status error means that name and description
    passed. *)
Theorem UpdateItemRequest_Validate_accepts (r : UpdateItemRequest.t) :
  let nameOK := UpdateItemRequest.Name r = "" \/
                (TrimSpace (UpdateItemRequest.Name r) <> "" /\
                 (len (UpdateItemRequest.Name r) <= 100)%nat) in
  let descriptionOK := UpdateItemRequest.Description r = "" \/
                       (TrimSpace (UpdateItemRequest.Description r) <> "" /\
                        (len (UpdateItemRequest.Description r) <= 500)%nat) in
  let statusOK := UpdateItemRequest.Status r = "" \/
                  UpdateItemRequest.Status r = "active" \/
                  UpdateItemRequest.Status r = "inactive" \/
                  UpdateItemRequest.Status r = "pending" in
  (UpdateItemRequest_Validate r = None <-> nameOK /\ descriptionOK /\ statusOK) /\
  (UpdateItemRequest_Validate r = Some ErrInvalidStatus <->
   nameOK /\ descriptionOK /\ ~ statusOK) /\
  (~ nameOK -> UpdateItemRequest_Validate r = Some ErrEmptyName \/
               UpdateItemRequest_Validate r = Some ErrNameTooLong) /\
  UpdateItemRequest_Validate
    {| UpdateItemRequest.Name := ""; UpdateItemRequest.Description := "";
       UpdateItemRequest.Status := "" |} = None.
Proof.
  cbv zeta. split; [apply UpdateItemRequest_Validate_None |].
  split; [| split; [| reflexivity]].
  all: unfold UpdateItemRequest_Validate.
  all: destruct (name_block (UpdateItemRequest.Name r)) as [Hn Hn'];
    destruct (description_block (UpdateItemRequest.Description r)) as [Hd Hd'];
    destruct (status_block (UpdateItemRequest.Status r)) as [Hs Hs'].
  all: cbv zeta in Hn, Hn', Hd, Hd', Hs, Hs'.
  all: destruct Hn' as [En | [En | En]]; rewrite En in Hn |- *.
  all: try (split; [discriminate | intros [Hbad _]; apply Hn in Hbad; discriminate]).
  all: try (intros _; tauto).
  all: try (intros Hbad; exfalso; apply Hbad, Hn; reflexivity).
  all: destruct Hd' as [Ed | [Ed | Ed]]; rewrite Ed in Hd |- *.
  all: try (split; [discriminate | intros (_ & Hbad & _); apply Hd in Hbad; discriminate]).
  all: destruct Hs' as [Es | Es]; rewrite Es in Hs |- *.
  - split; [discriminate |]. intros (_ & _ & Hbad). exfalso. apply Hbad, Hs. reflexivity.
  - split; [intros _ | reflexivity].
    repeat split; [apply Hn; reflexivity | apply Hd; reflexivity |].
    intros Hok. apply Hs in Hok. discriminate.
Qed.

End MoreValidation.

Section ItemValidation.
Import GoString GoErrors Models Repository Handlers Properties Invariants Examples.

Lemma Item_Validate_None (i : Item) :
  Item_Validate i = None <->
  TrimSpace (Name i) <> "" /\ (len (Name i) <= 100)%nat /\
  TrimSpace (Description i) <> "" /\ (len (Description i) <= 500)%nat /\
  (Status i = "active" \/ Status i = "inactive" \/ Status i = "pending").
Proof.
  unfold Item_Validate. pose proof (isValidStatus_spec (Status i)) as Hst.
  case_bool_decide as En; [split; [discriminate | tauto] |].
  destruct (Nat.ltb_spec 100 (len (Name i))) as [Hn | Hn];
    [split; [discriminate | intros (_ & ? & _); lia] |].
  case_bool_decide as Ed; [split; [discriminate | tauto] |].
  destruct (Nat.ltb_spec 500 (len (Description i))) as [Hd | Hd];
    [split; [discriminate | intros (_ & _ & _ & ? & _); lia] |].
  destruct (isValidStatus (Status i)); cbn [negb].
  - split; [intros _ | reflexivity]. repeat split; try assumption. apply Hst. reflexivity.
  - split; [discriminate |]. intros (_ & _ & _ & _ & Hv). apply Hst in Hv. discriminate.
Qed.

(** X6.  [(i *Item) Validate] accepts an item exactly when its name and
    description pass the checks of the create validator and its status
    is one of active, inactive, pending.  On the item the handler builds
    from a create request, whatever identifier it is given, it returns
    what the create validator returns on the request: the validation
    inside the adapter never rejects an item the handler accepted. *)
Theorem Item_Validate_agrees :
  (forall i : Item,
     Item_Validate i = None <->
     TrimSpace (Name i) <> "" /\ (len (Name i) <= 100)%nat /\
     TrimSpace (Description i) <> "" /\ (len (Description i) <= 500)%nat /\
     (Status i = "active" \/ Status i = "inactive" \/ Status i = "pending")) /\
  (forall (now : Time) (req : CreateItemRequest.t) (id : string),
     Item_Validate
       (DynamoDBRepository.withID
          (NewItem now (CreateItemRequest.Name req) (CreateItemRequest.Description req)) id)
     = CreateItemRequest_Validate req).
Proof.
  split; [exact Item_Validate_None |].
  intros now req id. unfold Item_Validate, CreateItemRequest_Validate.
  cbn [DynamoDBRepository.withID NewItem ID Name Description CreatedAt UpdatedAt Status].
  repeat case_match; reflexivity || discriminate.
Qed.

(** X7.  A valid patch applied to a valid item gives a valid item:
    [UpdateFields] keeps [(i *Item) Validate] satisfied when the patch
    passed [ValidateUpdate]. *)
Theorem UpdateFields_keeps_valid
    (now : Time) (item : Item) (patch : UpdateItemRequest.t) :
  Item_Validate item = None ->
  UpdateItemRequest_Validate patch = None ->
  Item_Validate (UpdateFields now item patch) = None.
Proof.
  intros Hitem Hpatch.
  apply Item_Validate_None in Hitem as (Hn & Hnl & Hd & Hdl & Hs).
  apply UpdateItemRequest_Validate_None in Hpatch as (Pn & Pd & Ps).
  apply Item_Validate_None.
  destruct (UpdateFields_frame now item patch) as (_ & _ & _ & Fn & Fd & Fs).
  rewrite Fn, Fd, Fs.
  repeat case_bool_decide; intuition congruence.
Qed.

Lemma UpdateFields_keeps_valid_witness :
  Item_Validate (UpdateFields 2000 testItem deactivate) = None.
Proof.
  apply (UpdateFields_keeps_valid 2000 testItem deactivate).
  - vm_compute; reflexivity.
  - vm_compute; reflexivity.
Defined.

Lemma isSpaceRune_single (b : N) :
  isSpaceRune [b] = ((9 <=? b) && (b <=? 13) || (b =? 32))%N.
Proof.
  destruct b as [|p]; [reflexivity |].
  do 8 (try destruct p as [p | p |]); reflexivity.
Qed.

Lemma trimLeft_blank (l : list N) (fuel : nat) :
  Forall (fun b => ((9 <=? b) && (b <=? 13) || (b =? 32))%N = true) l ->
  (length l <= fuel)%nat ->
  trimLeft fuel l = [].
Proof.
  revert fuel. induction l as [|b l IH]; intros fuel Hall Hlen.
  - destruct fuel; reflexivity.
  - destruct fuel as [|fuel]; [simpl in Hlen; lia |].
    inversion Hall as [|? ? Hb Hrest]; subst.
    cbn [trimLeft firstBytes take]. rewrite isSpaceRune_single, Hb.
    cbn [drop]. apply IH; [exact Hrest | simpl in Hlen; lia].
Qed.

Lemma TrimSpace_blank (s : string) : blank s = true -> TrimSpace s = "".
Proof.
  intros Hblank. unfold TrimSpace.
  assert (Hall : Forall (fun b => ((9 <=? b) && (b <=? 13) || (b =? 32))%N = true)
                        (map byte_val (bytes s))).
  { induction s as [|c s IH]; [constructor |].
    simpl in Hblank. apply andb_true_iff in Hblank as [Hc Hs].
    simpl. constructor; [exact Hc | exact (IH Hs)]. }
  cbv zeta. rewrite (trimLeft_blank _ _ Hall) by lia. reflexivity.
Qed.

(** X8.  A name made of ASCII white space only is rejected as empty,
    whatever its length: the emptiness check comes before the length
    check, so a create request whose name is blank is answered 400
    MISSING_FIELD even when the name is longer than 100.  The same holds
    for a blank description once the name passed: whenever the name is
    not blank and at most 100 long, a request with a blank description
    is answered 400 MISSING_FIELD, whatever the length of the
    description. *)
Theorem blank_name_is_missing (r : CreateItemRequest.t) :
  blank (CreateItemRequest.Name r) = true ->
  CreateItemRequest_Validate r = Some ErrEmptyName /\
  (forall (R : Type) (port : ItemRepository R) (h : ItemHandler R) (env : Env),
     Handlers.CreateItem h env (DecodeOK r) =
     (h, errorResponse 400 "validation" "MISSING_FIELD" "name cannot be empty" "")) /\
  (forall r' : CreateItemRequest.t,
     TrimSpace (CreateItemRequest.Name r') <> "" ->
     (len (CreateItemRequest.Name r') <= 100)%nat ->
     blank (CreateItemRequest.Description r') = true ->
     CreateItemRequest_Validate r' = Some ErrEmptyDescription /\
     forall (R : Type) (port : ItemRepository R) (h : ItemHandler R) (env : Env),
       Handlers.CreateItem h env (DecodeOK r') =
       (h, errorResponse 400 "validation" "MISSING_FIELD"
             "description cannot be empty" "")).
Proof.
  intros Hblank.
  assert (Hv : CreateItemRequest_Validate r = Some ErrEmptyName).
  { unfold CreateItemRequest_Validate.
    rewrite bool_decide_eq_true_2 by (apply TrimSpace_blank; exact Hblank). reflexivity. }
  split; [exact Hv |]. split.
  - intros R port h env. unfold Handlers.CreateItem. rewrite Hv. reflexivity.
  - intros r' Hname Hlen Hd.
    assert (Hv' : CreateItemRequest_Validate r' = Some ErrEmptyDescription).
    { unfold CreateItemRequest_Validate.
      rewrite (bool_decide_eq_false_2 _ Hname).
      apply Nat.ltb_ge in Hlen. rewrite Hlen.
      rewrite bool_decide_eq_true_2 by (apply TrimSpace_blank; exact Hd). reflexivity. }
    split; [exact Hv' |].
    intros R port h env. unfold Handlers.CreateItem. rewrite Hv'. reflexivity.
Qed.

Lemma blank_name_is_missing_witness :
  CreateItemRequest_Validate
    {| CreateItemRequest.Name := string_of_list_ascii (repeat " "%char 150);
       CreateItemRequest.Description := "d" |} = Some ErrEmptyName /\
  (forall (R : Type) (port : ItemRepository R) (h : ItemHandler R) (env : Env),
     Handlers.CreateItem h env
       (DecodeOK {| CreateItemRequest.Name := string_of_list_ascii (repeat " "%char 150);
                    CreateItemRequest.Description := "d" |}) =
     (h, errorResponse 400 "validation" "MISSING_FIELD" "name cannot be empty" "")) /\
  (forall r' : CreateItemRequest.t,
     TrimSpace (CreateItemRequest.Name r') <> "" ->
     (len (CreateItemRequest.Name r') <= 100)%nat ->
     blank (CreateItemRequest.Description r') = true ->
     CreateItemRequest_Validate r' = Some ErrEmptyDescription /\
     forall (R : Type) (port : ItemRepository R) (h : ItemHandler R) (env : Env),
       Handlers.CreateItem h env (DecodeOK r') =
       (h, errorResponse 400 "validation" "MISSING_FIELD"
             "description cannot be empty" "")).
Proof.
  apply (blank_name_is_missing
           {| CreateItemRequest.Name := string_of_list_ascii (repeat " "%char 150);
              CreateItemRequest.Description := "d" |}).
  vm_compute; reflexivity.
Defined.

End ItemValidation.

(* ===================================================================== *)
(** * Further properties: the adapter and the table                       *)
(* ===================================================================== *)

Section AdapterCases.
Import GoString GoErrors Models Repository Handlers Properties Invariants Examples.
Import DynamoDBClient.

(** The item [CreateItem] works on: the given one, with a generated
    identifier when it has none.  When the SDK call does not fail, the
    adapter either refuses and leaves the table, or stores the item. *)
Lemma DynamoDB_CreateItem_cases (r : DynamoDBRepository.t) (env : Env) (item : Item) :
  fault env = None ->
  let item' := if bool_decide (ID item = "")
               then DynamoDBRepository.withID item (UUID_String (uuid env)) else item in
  (exists e : error,
     DynamoDBRepository.CreateItem r env item = (r, item', Some e) /\
     (Item_Validate item' <> None \/
      is_Some (DynamoDBRepository.client r !! ID item'))) \/
  (DynamoDBRepository.CreateItem r env item =
   (DynamoDBRepository.withTable r
      (<[ID item' := MarshalMap item']> (DynamoDBRepository.client r)), item', None) /\
   Item_Validate item' = None /\
   DynamoDBRepository.client r !! ID item' = None).
Proof.
  intros Hf. cbv zeta. unfold DynamoDBRepository.CreateItem.
  set (item' := if bool_decide (ID item = "")
                then DynamoDBRepository.withID item (UUID_String (uuid env)) else item).
  destruct (Item_Validate item') as [e |] eqn:Hv.
  { left. eexists. split; [reflexivity | left; discriminate]. }
  unfold PutItem, servePutItem. rewrite Hf.
  cbn [put_Item put_ConditionExpression]. rewrite keyOf_MarshalMap.
  unfold holds. destruct (DynamoDBRepository.client r !! ID item') as [old |] eqn:Hl.
  - left. rewrite withTable_same. eexists. split; [reflexivity |]. right. eauto.
  - right. repeat split.
Qed.

(** Every outcome of the adapter's [DeleteItem]: an error, or the key
    deleted. *)
Lemma DynamoDB_DeleteItem_outcome (r : DynamoDBRepository.t) (env : Env) (id : string) :
  (exists (r' : DynamoDBRepository.t) (e : error),
     DynamoDBRepository.DeleteItem r env id = (r', Some e)) \/
  (DynamoDBRepository.DeleteItem r env id =
   (DynamoDBRepository.withTable r (delete id (DynamoDBRepository.client r)), None) /\
   id <> "" /\ fault env = None /\ is_Some (DynamoDBRepository.client r !! id)).
Proof.
  unfold DynamoDBRepository.DeleteItem.
  case_bool_decide as Hid; [left; eexists; eexists; reflexivity |].
  unfold DynamoDBClient.DeleteItem, serveDeleteItem.
  destruct (fault env) as [e |] eqn:Hf; [left; eexists; eexists; reflexivity |].
  unfold holds. destruct (DynamoDBRepository.client r !! id) as [old |] eqn:Hl.
  - right. repeat split; [exact Hid | eauto].
  - left. eexists. eexists. reflexivity.
Qed.

Lemma DynamoDB_DeleteItem_cases (r : DynamoDBRepository.t) (env : Env) (id : string) :
  fault env = None ->
  (exists e : error,
     DynamoDBRepository.DeleteItem r env id = (r, Some e) /\
     (id = "" \/ DynamoDBRepository.client r !! id = None)) \/
  (DynamoDBRepository.DeleteItem r env id =
   (DynamoDBRepository.withTable r (delete id (DynamoDBRepository.client r)), None) /\
   id <> "" /\ is_Some (DynamoDBRepository.client r !! id)).
Proof.
  intros Hf. unfold DynamoDBRepository.DeleteItem.
  case_bool_decide as Hid; [left; eexists; split; [reflexivity | left; exact Hid] |].
  unfold DynamoDBClient.DeleteItem, serveDeleteItem. rewrite Hf.
  unfold holds. destruct (DynamoDBRepository.client r !! id) as [old |] eqn:Hl.
  - right. repeat split; [exact Hid | eauto].
  - left. rewrite withTable_same. eexists. split; [reflexivity | right; reflexivity].
Qed.

(** An update that the adapter refuses returns before the service is
    called, whatever the service would do. *)
Lemma DynamoDB_UpdateItem_invalid
    (r : DynamoDBRepository.t) (env : Env) (id : string)
    (updates : option UpdateItemRequest.t) :
  (id = "" \/ updates = None \/
   (exists patch, updates = Some patch /\ UpdateItemRequest_Validate patch <> None)) ->
  exists e : error, DynamoDBRepository.UpdateItem r env id updates = (r, inr e).
Proof.
  intros Hwhy. unfold DynamoDBRepository.UpdateItem.
  case_bool_decide as Hid; [eexists; reflexivity |].
  destruct updates as [patch |]; [| eexists; reflexivity].
  destruct (UpdateItemRequest_Validate patch) as [e |] eqn:Hv; [eexists; reflexivity |].
  exfalso. destruct Hwhy as [? | [? | (p & [= <-] & ?)]]; congruence.
Qed.

(** When the SDK call does not fail, an update that does not find the
    key fails and leaves the table as it is. *)
Lemma DynamoDB_UpdateItem_refused
    (r : DynamoDBRepository.t) (env : Env) (id : string)
    (updates : option UpdateItemRequest.t) :
  fault env = None ->
  (id = "" \/ updates = None \/
   (exists patch, updates = Some patch /\ UpdateItemRequest_Validate patch <> None) \/
   DynamoDBRepository.client r !! id = None) ->
  exists e : error, DynamoDBRepository.UpdateItem r env id updates = (r, inr e).
Proof.
  intros Hf Hwhy. unfold DynamoDBRepository.UpdateItem.
  case_bool_decide as Hid; [eexists; reflexivity |].
  destruct updates as [patch |]; [| eexists; reflexivity].
  destruct (UpdateItemRequest_Validate patch) as [e |] eqn:Hv; [eexists; reflexivity |].
  unfold DynamoDBClient.UpdateItem, serveUpdateItem. rewrite Hf.
  cbn [upd_Key upd_UpdateExpression upd_ExpressionAttributeValues
       upd_ExpressionAttributeNames upd_ConditionExpression].
  unfold holds.
  destruct (DynamoDBRepository.client r !! id) as [old |] eqn:Hl.
  - exfalso. destruct Hwhy as [? | [? | [(p & [= <-] & ?) | ?]]]; congruence.
  - rewrite withTable_same. eexists. reflexivity.
Qed.

(** A write whose SDK call fails leaves the table as it was, or as the
    same call leaves it when the SDK reports what the service did; a
    call that does not fail is such a call. *)
Lemma DynamoDB_CreateItem_answered (r : DynamoDBRepository.t) (env : Env) (item : Item) :
  (DynamoDBRepository.CreateItem r env item).1.2 =
  (DynamoDBRepository.CreateItem r (answered env) item).1.2 /\
  (DynamoDBRepository.client (DynamoDBRepository.CreateItem r env item).1.1 =
   DynamoDBRepository.client r \/
   DynamoDBRepository.client (DynamoDBRepository.CreateItem r env item).1.1 =
   DynamoDBRepository.client (DynamoDBRepository.CreateItem r (answered env) item).1.1).
Proof.
  unfold DynamoDBRepository.CreateItem. cbn [uuid answered].
  destruct (Item_Validate _) as [ve |]; [split; [reflexivity | left; reflexivity] |].
  unfold PutItem. cbn [fault applied answered].
  destruct (fault env) as [e |]; [destruct (applied env) |].
  all: destruct (servePutItem _ _) as [tbl [pe |]].
  all: repeat match goal with |- context [As ?x ?t] => destruct (As x t) end.
  all: split; [reflexivity |]; cbn [fst snd DynamoDBRepository.client
                                     DynamoDBRepository.withTable]; auto.
Qed.

Lemma DynamoDB_UpdateItem_answered
    (r : DynamoDBRepository.t) (env : Env) (id : string)
    (updates : option UpdateItemRequest.t) :
  DynamoDBRepository.client (DynamoDBRepository.UpdateItem r env id updates).1 =
  DynamoDBRepository.client r \/
  DynamoDBRepository.client (DynamoDBRepository.UpdateItem r env id updates).1 =
  DynamoDBRepository.client (DynamoDBRepository.UpdateItem r (answered env) id updates).1.
Proof.
  unfold DynamoDBRepository.UpdateItem. cbn [now answered].
  case_bool_decide; [left; reflexivity |].
  destruct updates as [patch |]; [| left; reflexivity].
  destruct (UpdateItemRequest_Validate patch); [left; reflexivity |].
  unfold DynamoDBClient.UpdateItem. cbn [fault applied answered].
  destruct (fault env) as [e |]; [destruct (applied env) |].
  all: destruct (serveUpdateItem _ _) as [tbl [av | ue]].
  all: repeat match goal with |- context [UnmarshalMap ?x] => destruct (UnmarshalMap x) end.
  all: cbn [fst snd DynamoDBRepository.client DynamoDBRepository.withTable]; auto.
Qed.

Lemma DynamoDB_DeleteItem_answered (r : DynamoDBRepository.t) (env : Env) (id : string) :
  DynamoDBRepository.client (DynamoDBRepository.DeleteItem r env id).1 =
  DynamoDBRepository.client r \/
  DynamoDBRepository.client (DynamoDBRepository.DeleteItem r env id).1 =
  DynamoDBRepository.client (DynamoDBRepository.DeleteItem r (answered env) id).1.
Proof.
  unfold DynamoDBRepository.DeleteItem.
  case_bool_decide; [left; reflexivity |].
  unfold DynamoDBClient.DeleteItem. cbn [fault applied answered].
  destruct (fault env) as [e |]; [destruct (applied env) |].
  all: destruct (serveDeleteItem _ _ _) as [tbl [de |]].
  all: cbn [fst snd DynamoDBRepository.client DynamoDBRepository.withTable]; auto.
Qed.

Lemma storeOK_insert (tbl : Table) (key : string) (av : attrs) (item : Item) :
  storeOK tbl -> UnmarshalMap av = inl item -> ID item = key ->
  Item_Validate item = None -> storeOK (<[key := av]> tbl).
Proof.
  intros Hok Hdec Hid Hval k av' Hl.
  rewrite lookup_insert in Hl. case_decide as Hk.
  - injection Hl as <-. subst k. eauto.
  - apply Hok. exact Hl.
Qed.

Lemma storeOK_delete (tbl : Table) (key : string) :
  storeOK tbl -> storeOK (delete key tbl).
Proof.
  intros Hok k av Hl. apply lookup_delete_Some in Hl as [_ Hl]. apply Hok. exact Hl.
Qed.

Lemma storeOK_oneItemStore : storeOK (DynamoDBRepository.client (repo oneItemStore)).
Proof.
  intros key av Hl. cbn [oneItemStore repo DynamoDBRepository.client] in Hl.
  apply lookup_singleton_Some in Hl as [<- <-].
  exists testItem. repeat split; vm_compute; reflexivity.
Qed.

End AdapterCases.

Section StoreInvariant.
Import GoString GoErrors Models Repository Handlers Properties Invariants Examples.
Import DynamoDBClient.

Lemma DynamoDB_GetItem_keeps (r : DynamoDBRepository.t) (env : Env) (id : string) :
  (DynamoDBRepository.GetItem r env id).1 = r.
Proof.
  unfold DynamoDBRepository.GetItem. case_bool_decide; [reflexivity |].
  destruct (DynamoDBClient.GetItem env (DynamoDBRepository.client r) id) as [[av |] | e];
    [destruct (UnmarshalMap av) | |]; reflexivity.
Qed.

Lemma DynamoDB_ListItems_keeps
    (r : DynamoDBRepository.t) (env : Env) (options : option ListItemsOptions) :
  (DynamoDBRepository.ListItems r env options).1 = r.
Proof.
  unfold DynamoDBRepository.ListItems.
  destruct (Scan env (DynamoDBRepository.client r) _ _) as [result | e]; [| reflexivity].
  destruct (UnmarshalListOfMaps (scan_Items result)); reflexivity.
Qed.

(** The three writes keep the table well formed when the SDK call does
    not fail. *)
Lemma CreateItem_storeOK (r : DynamoDBRepository.t) (env : Env) (item : Item) :
  fault env = None ->
  storeOK (DynamoDBRepository.client r) ->
  storeOK (DynamoDBRepository.client (DynamoDBRepository.CreateItem r env item).1.1).
Proof.
  intros Hf Hok.
  destruct (DynamoDB_CreateItem_cases r env item Hf) as [(e & -> & _) | (-> & Hv & _)];
    cbv zeta; cbn [fst]; [exact Hok |].
  cbn [DynamoDBRepository.client DynamoDBRepository.withTable].
  eapply storeOK_insert; [exact Hok | apply UnmarshalMap_MarshalMap | reflexivity | exact Hv].
Qed.

Lemma UpdateItem_storeOK
    (r : DynamoDBRepository.t) (env : Env) (id : string)
    (updates : option UpdateItemRequest.t) :
  fault env = None ->
  storeOK (DynamoDBRepository.client r) ->
  storeOK (DynamoDBRepository.client (DynamoDBRepository.UpdateItem r env id updates).1).
Proof.
  intros Hf Hok.
  destruct (decide (id = "")) as [Hid | Hid];
    [destruct (DynamoDB_UpdateItem_invalid r env id updates) as [e ->];
     [tauto | exact Hok] |].
  destruct updates as [patch |];
    [| destruct (DynamoDB_UpdateItem_invalid r env id None) as [e ->]; [tauto | exact Hok]].
  destruct (UpdateItemRequest_Validate patch) as [ve |] eqn:Hv.
  { destruct (DynamoDB_UpdateItem_invalid r env id (Some patch)) as [e ->]; [| exact Hok].
    right. right. exists patch. split; [reflexivity | congruence]. }
  destruct (DynamoDBRepository.client r !! id) as [av |] eqn:Hl.
  2: { destruct (DynamoDB_UpdateItem_refused r env id (Some patch) Hf) as [e ->];
         [tauto | exact Hok]. }
  destruct (Hok id av Hl) as (item & Hdec & Hkey & Hvalid).
  rewrite (DynamoDB_UpdateItem_existing r env id patch av item) by assumption.
  cbn [fst DynamoDBRepository.client DynamoDBRepository.withTable].
  destruct (UpdateFields_frame (now env) item patch) as (Fi & _ & _ & Fn & Fd & Fs).
  eapply storeOK_insert; [exact Hok | apply patched_decodes; exact Hdec | congruence |].
  apply Item_Validate_None in Hvalid as (Hn & Hnl & Hd & Hdl & Hs).
  apply UpdateItemRequest_Validate_None in Hv as (Pn & Pd & Ps).
  apply Item_Validate_None. rewrite Fn, Fd, Fs.
  repeat case_bool_decide; intuition congruence.
Qed.

Lemma DeleteItem_storeOK (r : DynamoDBRepository.t) (env : Env) (id : string) :
  storeOK (DynamoDBRepository.client r) ->
  storeOK (DynamoDBRepository.client (DynamoDBRepository.DeleteItem r env id).1).
Proof.
  intros Hok.
  destruct (DynamoDB_DeleteItem_answered r env id) as [-> | ->]; [exact Hok |].
  destruct (DynamoDB_DeleteItem_cases r (answered env) id eq_refl)
    as [(e & -> & _) | (-> & _)]; cbn [fst]; [exact Hok |].
  cbn [DynamoDBRepository.client DynamoDBRepository.withTable].
  apply storeOK_delete. exact Hok.
Qed.

(** X9.  The adapter keeps the table well formed: if every stored
    attribute map decodes to a valid item and is stored under that
    item's identifier, the same holds after any [CreateItem],
    [UpdateItem] or [DeleteItem], whatever their arguments and outcome
    (also when the SDK call fails, whether or not the service had
    applied the write); [GetItem] and [ListItems] do not change the
    table. *)
Theorem adapter_keeps_storeOK (r : DynamoDBRepository.t) (env : Env) :
  storeOK (DynamoDBRepository.client r) ->
  (forall item : Item,
     storeOK (DynamoDBRepository.client (DynamoDBRepository.CreateItem r env item).1.1)) /\
  (forall (id : string) (updates : option UpdateItemRequest.t),
     storeOK (DynamoDBRepository.client (DynamoDBRepository.UpdateItem r env id updates).1)) /\
  (forall id : string,
     storeOK (DynamoDBRepository.client (DynamoDBRepository.DeleteItem r env id).1)) /\
  (forall id : string, (DynamoDBRepository.GetItem r env id).1 = r) /\
  (forall options : option ListItemsOptions,
     (DynamoDBRepository.ListItems r env options).1 = r).
Proof.
  intros Hok. split; [| split; [| split; [| split]]].
  - intros item.
    destruct (DynamoDB_CreateItem_answered r env item) as (_ & [-> | ->]); [exact Hok |].
    apply CreateItem_storeOK; [reflexivity | exact Hok].
  - intros id updates.
    destruct (DynamoDB_UpdateItem_answered r env id updates) as [-> | ->]; [exact Hok |].
    apply UpdateItem_storeOK; [reflexivity | exact Hok].
  - intros id. apply DeleteItem_storeOK. exact Hok.
  - apply DynamoDB_GetItem_keeps.
  - apply DynamoDB_ListItems_keeps.
Qed.

Lemma adapter_keeps_storeOK_witness :
  (forall item : Item,
     storeOK (DynamoDBRepository.client
                (DynamoDBRepository.CreateItem (repo oneItemStore) (clock 2000) item).1.1)) /\
  (forall (id : string) (updates : option UpdateItemRequest.t),
     storeOK (DynamoDBRepository.client
                (DynamoDBRepository.UpdateItem (repo oneItemStore) (clock 2000) id updates).1)) /\
  (forall id : string,
     storeOK (DynamoDBRepository.client
                (DynamoDBRepository.DeleteItem (repo oneItemStore) (clock 2000) id).1)) /\
  (forall id : string,
     (DynamoDBRepository.GetItem (repo oneItemStore) (clock 2000) id).1 = repo oneItemStore) /\
  (forall options : option ListItemsOptions,
     (DynamoDBRepository.ListItems (repo oneItemStore) (clock 2000) options).1
     = repo oneItemStore).
Proof.
  apply (adapter_keeps_storeOK (repo oneItemStore) (clock 2000)).
  exact storeOK_oneItemStore.
Defined.

(** X10.  A write that is refused changes nothing.  What the adapter
    refuses itself - an item that fails validation, an empty
    identifier, a missing or invalid patch - returns before the service
    is called, whatever the service would do.  And when the SDK call
    does not fail, so that an error is the adapter's or the service's
    refusal (validation, a failed condition), an error of [CreateItem]
    or [DeleteItem] leaves the table as before, and so does an error of
    [UpdateItem] on a well-formed table.  Nothing is claimed of a call
    that fails in the SDK: the service may have applied it. *)
Theorem refused_write_changes_nothing (r : DynamoDBRepository.t) (env : Env) :
  (forall item : Item,
     Item_Validate (DynamoDBRepository.CreateItem r env item).1.2 <> None ->
     (DynamoDBRepository.CreateItem r env item).1.1 = r /\
     is_Some (DynamoDBRepository.CreateItem r env item).2) /\
  (forall (id : string) (updates : option UpdateItemRequest.t),
     id = "" \/ updates = None \/
     (exists patch, updates = Some patch /\ UpdateItemRequest_Validate patch <> None) ->
     exists e : error, DynamoDBRepository.UpdateItem r env id updates = (r, inr e)) /\
  (exists e : error, DynamoDBRepository.DeleteItem r env "" = (r, Some e)) /\
  (fault env = None ->
   (forall (item : Item) (e : error),
      (DynamoDBRepository.CreateItem r env item).2 = Some e ->
      (DynamoDBRepository.CreateItem r env item).1.1 = r) /\
   (forall (id : string) (e : error),
      (DynamoDBRepository.DeleteItem r env id).2 = Some e ->
      (DynamoDBRepository.DeleteItem r env id).1 = r) /\
   (storeOK (DynamoDBRepository.client r) ->
    forall (id : string) (updates : option UpdateItemRequest.t) (e : error),
      (DynamoDBRepository.UpdateItem r env id updates).2 = inr e ->
      (DynamoDBRepository.UpdateItem r env id updates).1 = r)).
Proof.
  split; [| split; [| split]].
  - intros item. unfold DynamoDBRepository.CreateItem.
    set (item' := if bool_decide (ID item = "")
                  then DynamoDBRepository.withID item (UUID_String (uuid env)) else item).
    destruct (Item_Validate item') as [ve |] eqn:Hv.
    + intros _. split; [reflexivity | eexists; reflexivity].
    + destruct (PutItem env (DynamoDBRepository.client r) _) as [tbl [pe |]];
        [destruct (As pe ConditionalCheckFailedException) |];
        cbn [fst snd]; intros Hinvalid; contradiction (Hinvalid Hv).
  - apply DynamoDB_UpdateItem_invalid.
  - eexists. reflexivity.
  - intros Hf. split; [| split].
    + intros item e.
      destruct (DynamoDB_CreateItem_cases r env item Hf) as [(e' & -> & _) | (-> & _)];
        cbv zeta; cbn [fst snd]; [reflexivity | discriminate].
    + intros id e.
      destruct (DynamoDB_DeleteItem_cases r env id Hf) as [(e' & -> & _) | (-> & _)];
        cbn [fst snd]; [reflexivity | discriminate].
    + intros Hok id updates e.
      destruct (decide (id = "")) as [Hid | Hid];
        [destruct (DynamoDB_UpdateItem_invalid r env id updates) as [e' ->];
         [tauto | reflexivity] |].
      destruct updates as [patch |];
        [| destruct (DynamoDB_UpdateItem_invalid r env id None) as [e' ->];
           [tauto | reflexivity]].
      destruct (UpdateItemRequest_Validate patch) as [ve |] eqn:Hv.
      { destruct (DynamoDB_UpdateItem_invalid r env id (Some patch)) as [e' ->];
          [| reflexivity].
        right. right. exists patch. split; [reflexivity | congruence]. }
      destruct (DynamoDBRepository.client r !! id) as [av |] eqn:Hl.
      2: { destruct (DynamoDB_UpdateItem_refused r env id (Some patch) Hf) as [e' ->];
             [tauto | reflexivity]. }
      destruct (Hok id av Hl) as (item & Hdec & _).
      rewrite (DynamoDB_UpdateItem_existing r env id patch av item) by assumption.
      cbn [snd]. discriminate.
Qed.

Lemma client_UpdateItem_other_keys
    (env : Env) (tbl : Table) (input : UpdateItemInput) (key : string) :
  key <> upd_Key input ->
  (DynamoDBClient.UpdateItem env tbl input).1 !! key = tbl !! key.
Proof.
  intros Hne.
  assert (Hserved : (serveUpdateItem tbl input).1 !! key = tbl !! key).
  { unfold serveUpdateItem.
    destruct (holds _ tbl _); [| reflexivity].
    destruct (applySet input _ _); [| reflexivity].
    cbn [fst]. apply lookup_insert_ne. congruence. }
  unfold DynamoDBClient.UpdateItem.
  destruct (fault env); [destruct (applied env) |]; cbn [fst]; auto.
Qed.

(** X11.  A write touches one key: after [CreateItem], [UpdateItem] or
    [DeleteItem], whatever the outcome, every key other than the one
    concerned holds what it held before. *)
Theorem writes_touch_one_key (r : DynamoDBRepository.t) (env : Env) (key : string) :
  (forall item : Item,
     key <> ID (DynamoDBRepository.CreateItem r env item).1.2 ->
     DynamoDBRepository.client (DynamoDBRepository.CreateItem r env item).1.1 !! key
     = DynamoDBRepository.client r !! key) /\
  (forall (id : string) (updates : option UpdateItemRequest.t),
     key <> id ->
     DynamoDBRepository.client (DynamoDBRepository.UpdateItem r env id updates).1 !! key
     = DynamoDBRepository.client r !! key) /\
  (forall id : string,
     key <> id ->
     DynamoDBRepository.client (DynamoDBRepository.DeleteItem r env id).1 !! key
     = DynamoDBRepository.client r !! key).
Proof.
  split; [| split].
  - intros item.
    destruct (DynamoDB_CreateItem_answered r env item) as (-> & [-> | ->]);
      [reflexivity |].
    destruct (DynamoDB_CreateItem_cases r (answered env) item eq_refl)
      as [(e & -> & _) | (-> & _)]; cbv zeta; cbn [fst snd]; [reflexivity |].
    intros Hne. cbn [DynamoDBRepository.client DynamoDBRepository.withTable].
    apply lookup_insert_ne. congruence.
  - intros id updates Hne. unfold DynamoDBRepository.UpdateItem.
    case_bool_decide; [reflexivity |].
    destruct updates as [patch |]; [| reflexivity].
    destruct (UpdateItemRequest_Validate patch); [reflexivity |].
    match goal with
    | |- context [DynamoDBClient.UpdateItem env ?t ?i] =>
        pose proof (client_UpdateItem_other_keys env t i key) as Hother;
        destruct (DynamoDBClient.UpdateItem env t i) as [tbl result]
    end.
    cbn [upd_Key fst] in Hother. specialize (Hother Hne).
    destruct result as [av | e]; [destruct (UnmarshalMap av) |]; exact Hother.
  - intros id Hne.
    destruct (DynamoDB_DeleteItem_answered r env id) as [-> | ->]; [reflexivity |].
    destruct (DynamoDB_DeleteItem_cases r (answered env) id eq_refl)
      as [(e & -> & _) | (-> & _)]; cbn [fst]; [reflexivity |].
    cbn [DynamoDBRepository.client DynamoDBRepository.withTable].
    apply lookup_delete_ne. congruence.
Qed.

End StoreInvariant.

(* ===================================================================== *)
(** * Further properties: requests in sequence                            *)
(* ===================================================================== *)

Section RoundTrips.
Import GoString GoErrors Models Repository Handlers Properties Invariants Examples.
Import DynamoDBClient.

(** The Create handler on a valid request, a reachable service and a
    free identifier, with the state it leaves. *)
Lemma Handlers_CreateItem_stored
    (h : ItemHandler DynamoDBRepository.t) (env : Env) (req : CreateItemRequest.t) :
  CreateItemRequest_Validate req = None ->
  fault env = None ->
  DynamoDBRepository.client (repo h) !! UUID_String (uuid env) = None ->
  let item := DynamoDBRepository.withID
                (NewItem (now env) (CreateItemRequest.Name req)
                         (CreateItemRequest.Description req))
                (UUID_String (uuid env)) in
  Handlers.CreateItem h env (DecodeOK req) =
  ({| repo := DynamoDBRepository.withTable (repo h)
                (<[UUID_String (uuid env) := MarshalMap item]>
                   (DynamoDBRepository.client (repo h))) |},
   {| StatusCode := 201;
      Body := {| Success := true; Data := Some (PItem item); Error_ := None |} |}).
Proof.
  intros Hvalid Hfault Hfree. cbv zeta.
  unfold Handlers.CreateItem. rewrite Hvalid.
  change (Repository.CreateItem (repo h) env ?i)
    with (DynamoDBRepository.CreateItem (repo h) env i).
  destruct (DynamoDB_CreateItem_cases (repo h) env
              (NewItem (now env) (CreateItemRequest.Name req)
                       (CreateItemRequest.Description req)) Hfault)
    as [(e & _ & Hwhy) | (Hres & _)]; cbv zeta in *.
  - exfalso. rewrite bool_decide_eq_true_2 in Hwhy by reflexivity.
    destruct Hwhy as [Hbad | [old Hbad]].
    + apply Hbad. apply NewItem_valid. exact Hvalid.
    + cbn [DynamoDBRepository.withID ID] in Hbad. congruence.
  - rewrite bool_decide_eq_true_2 in Hres by reflexivity. rewrite Hres. reflexivity.
Qed.

Lemma Handlers_GetItem_stored
    (h : ItemHandler DynamoDBRepository.t) (env : Env) (id : string)
    (av : attrs) (item : Item) :
  id <> "" -> fault env = None ->
  DynamoDBRepository.client (repo h) !! id = Some av ->
  UnmarshalMap av = inl item ->
  Handlers.GetItem h env id =
  ({| repo := repo h |},
   {| StatusCode := 200;
      Body := {| Success := true; Data := Some (PItem item); Error_ := None |} |}).
Proof.
  intros Hid Hfault Hl Hdec. unfold Handlers.GetItem.
  rewrite bool_decide_eq_false_2 by exact Hid.
  change (Repository.GetItem (repo h) env id)
    with (DynamoDBRepository.GetItem (repo h) env id).
  unfold DynamoDBRepository.GetItem. rewrite bool_decide_eq_false_2 by exact Hid.
  unfold DynamoDBClient.GetItem. rewrite Hfault, Hl, Hdec. reflexivity.
Qed.

(** X12.  Create then Get: after a create request was answered 201, a
    Get of the returned identifier (service reachable) is answered 200
    with the very item the Create returned, and leaves the store as it
    is. *)
Theorem create_then_get
    (h : ItemHandler DynamoDBRepository.t) (env env' : Env) (req : CreateItemRequest.t) :
  CreateItemRequest_Validate req = None ->
  fault env = None ->
  DynamoDBRepository.client (repo h) !! UUID_String (uuid env) = None ->
  fault env' = None ->
  exists (h' : ItemHandler DynamoDBRepository.t) (item : Item),
    Handlers.CreateItem h env (DecodeOK req) =
    (h', {| StatusCode := 201;
            Body := {| Success := true; Data := Some (PItem item); Error_ := None |} |}) /\
    Handlers.GetItem h' env' (ID item) =
    (h', {| StatusCode := 200;
            Body := {| Success := true; Data := Some (PItem item); Error_ := None |} |}).
Proof.
  intros Hvalid Hfault Hfree Hfault'.
  pose proof (Handlers_CreateItem_stored h env req Hvalid Hfault Hfree) as Hcreate.
  cbv zeta in Hcreate. rewrite Hcreate. eexists. eexists. split; [reflexivity |].
  erewrite Handlers_GetItem_stored; [reflexivity | | exact Hfault' | |].
  - apply UUID_String_nonempty.
  - cbn [repo DynamoDBRepository.client DynamoDBRepository.withTable
         DynamoDBRepository.withID ID].
    apply lookup_insert_eq.
  - apply UnmarshalMap_MarshalMap.
Qed.

Lemma create_then_get_witness :
  exists (h' : ItemHandler DynamoDBRepository.t) (item : Item),
    Handlers.CreateItem emptyStore (clock 1000) (DecodeOK testRequest) =
    (h', {| StatusCode := 201;
            Body := {| Success := true; Data := Some (PItem item); Error_ := None |} |}) /\
    Handlers.GetItem h' (clock 2000) (ID item) =
    (h', {| StatusCode := 200;
            Body := {| Success := true; Data := Some (PItem item); Error_ := None |} |}).
Proof.
  apply (create_then_get emptyStore (clock 1000) (clock 2000) testRequest).
  - vm_compute; reflexivity.
  - reflexivity.
  - reflexivity.
  - reflexivity.
Defined.

(** X13.  Update then Get: after an update of a stored item was let
    through, a Get of the identifier is answered 200 with the item as
    the update left it. *)
Theorem update_then_get
    (h : ItemHandler DynamoDBRepository.t) (env env' : Env) (itemID : string)
    (patch : UpdateItemRequest.t) (item : Item) :
  itemID <> "" ->
  UpdateItemRequest_Validate patch = None ->
  fault env = None ->
  stores (DynamoDBRepository.client (repo h)) itemID item ->
  fault env' = None ->
  exists h' : ItemHandler DynamoDBRepository.t,
    let item' := UpdateFields (now env) item patch in
    Handlers.UpdateItem h env itemID (DecodeOK patch) =
    (h', {| StatusCode := 200;
            Body := {| Success := true; Data := Some (PItem item'); Error_ := None |} |}) /\
    Handlers.GetItem h' env' itemID =
    (h', {| StatusCode := 200;
            Body := {| Success := true; Data := Some (PItem item'); Error_ := None |} |}).
Proof.
  intros Hid Hvalid Hfault (av & Hstored & Hdecode) Hfault'.
  unfold Handlers.UpdateItem. rewrite bool_decide_eq_false_2 by exact Hid. rewrite Hvalid.
  change (Repository.UpdateItem (repo h) env itemID (Some patch))
    with (DynamoDBRepository.UpdateItem (repo h) env itemID (Some patch)).
  rewrite (DynamoDB_UpdateItem_existing (repo h) env itemID patch av item) by assumption.
  eexists. cbv zeta. split; [reflexivity |].
  erewrite Handlers_GetItem_stored; [reflexivity | exact Hid | exact Hfault' | |].
  - cbn [repo DynamoDBRepository.client DynamoDBRepository.withTable].
    apply lookup_insert_eq.
  - apply patched_decodes. exact Hdecode.
Qed.

Lemma update_then_get_witness :
  exists h' : ItemHandler DynamoDBRepository.t,
    let item' := UpdateFields (now (clock 2000)) testItem deactivate in
    Handlers.UpdateItem oneItemStore (clock 2000) testID (DecodeOK deactivate) =
    (h', {| StatusCode := 200;
            Body := {| Success := true; Data := Some (PItem item'); Error_ := None |} |}) /\
    Handlers.GetItem h' (clock 3000) testID =
    (h', {| StatusCode := 200;
            Body := {| Success := true; Data := Some (PItem item'); Error_ := None |} |}).
Proof.
  apply (update_then_get oneItemStore (clock 2000) (clock 3000) testID deactivate testItem).
  - discriminate.
  - vm_compute; reflexivity.
  - reflexivity.
  - exists (MarshalMap testItem). split; [vm_compute; reflexivity | reflexivity].
  - reflexivity.
Defined.

Lemma WriteRepositoryErrorResponse_not_200 (err : error) :
  StatusCode (WriteRepositoryErrorResponse err) <> 200.
Proof.
  unfold WriteRepositoryErrorResponse, MapRepositoryError.
  destruct (IsNotFoundError err);
    [ | destruct (IsConflictError err);
    [ | destruct (IsValidationError err);
    [ | destruct (IsConnectionError err);
    [ | destruct (IsOperationError err);
    [ destruct (containsThroughputError (Error err)) | ]]]]].
  all: cbn; discriminate.
Qed.

(** X14.  Get of an identifier that is not in the table is answered 404
    NOT_FOUND (a missing item is what [GetItem] reports itself, so the
    translation of SDK errors plays no part); in particular a Get after
    a Delete that was answered 200 is answered 404. *)
Theorem get_missing_is_not_found
    (h : ItemHandler DynamoDBRepository.t) (env : Env) (itemID : string) :
  itemID <> "" ->
  fault env = None ->
  let notFound := errorResponse 404 "not_found" "NOT_FOUND" "Resource not found"
                    "item not found" in
  (DynamoDBRepository.client (repo h) !! itemID = None ->
   (DynamoDBRepository.GetItem (repo h) env itemID).2 = inr ErrItemNotFound /\
   (Handlers.GetItem h env itemID).2 = notFound) /\
  (forall (h0 : ItemHandler DynamoDBRepository.t) (env0 : Env),
     StatusCode (Handlers.DeleteItem h0 env0 itemID).2 = 200 ->
     (Handlers.GetItem (Handlers.DeleteItem h0 env0 itemID).1 env itemID).2 = notFound).
Proof.
  intros Hid Hfault. cbv zeta.
  assert (Hget : forall h1 : ItemHandler DynamoDBRepository.t,
             DynamoDBRepository.client (repo h1) !! itemID = None ->
             (DynamoDBRepository.GetItem (repo h1) env itemID).2 = inr ErrItemNotFound /\
             (Handlers.GetItem h1 env itemID).2 =
             errorResponse 404 "not_found" "NOT_FOUND" "Resource not found"
               "item not found").
  { intros h1 Habsent.
    assert (Hrepo : DynamoDBRepository.GetItem (repo h1) env itemID
                    = (repo h1, inr ErrItemNotFound)).
    { unfold DynamoDBRepository.GetItem. rewrite bool_decide_eq_false_2 by exact Hid.
      unfold DynamoDBClient.GetItem. rewrite Hfault, Habsent. reflexivity. }
    split; [rewrite Hrepo; reflexivity |].
    unfold Handlers.GetItem. rewrite bool_decide_eq_false_2 by exact Hid.
    change (Repository.GetItem (repo h1) env itemID)
      with (DynamoDBRepository.GetItem (repo h1) env itemID).
    rewrite Hrepo. reflexivity. }
  split; [apply Hget |].
  intros h0 env0 Hok. apply Hget.
  revert Hok. unfold Handlers.DeleteItem.
  rewrite bool_decide_eq_false_2 by exact Hid.
  change (Repository.DeleteItem (repo h0) env0 itemID)
    with (DynamoDBRepository.DeleteItem (repo h0) env0 itemID).
  destruct (DynamoDB_DeleteItem_outcome (repo h0) env0 itemID)
    as [(r' & e & ->) | (-> & _)].
  - intros Hok. exfalso. revert Hok. apply WriteRepositoryErrorResponse_not_200.
  - intros _. cbn [fst repo DynamoDBRepository.client DynamoDBRepository.withTable].
    apply lookup_delete_eq.
Qed.

Lemma get_missing_is_not_found_witness :
  let notFound := errorResponse 404 "not_found" "NOT_FOUND" "Resource not found"
                    "item not found" in
  (DynamoDBRepository.client (repo emptyStore) !! testID = None ->
   (DynamoDBRepository.GetItem (repo emptyStore) (clock 4000) testID).2
     = inr ErrItemNotFound /\
   (Handlers.GetItem emptyStore (clock 4000) testID).2 = notFound) /\
  (forall (h0 : ItemHandler DynamoDBRepository.t) (env0 : Env),
     StatusCode (Handlers.DeleteItem h0 env0 testID).2 = 200 ->
     (Handlers.GetItem (Handlers.DeleteItem h0 env0 testID).1 (clock 4000) testID).2
     = notFound).
Proof.
  apply (get_missing_is_not_found emptyStore (clock 4000) testID).
  - discriminate.
  - reflexivity.
Defined.

(** X15.  Creating under an identifier that is taken: [CreateItem] of
    the adapter, given a valid item whose identifier is already a key of
    the table, returns an error that wraps AlreadyExists and leaves the
    table, with the item stored under that key, as it is; the Create
    handler, when the generated identifier is taken, answers 409
    ALREADY_EXISTS. *)
Theorem create_taken_id_is_conflict
    (h : ItemHandler DynamoDBRepository.t) (env : Env) :
  fault env = None ->
  (forall item : Item,
     Item_Validate item = None -> ID item <> "" ->
     is_Some (DynamoDBRepository.client (repo h) !! ID item) ->
     DynamoDBRepository.CreateItem (repo h) env item =
     (repo h, item,
      Some (Errorf_w_s ErrItemAlreadyExists "item with this ID already exists"))) /\
  (forall req : CreateItemRequest.t,
     CreateItemRequest_Validate req = None ->
     is_Some (DynamoDBRepository.client (repo h) !! UUID_String (uuid env)) ->
     (Handlers.CreateItem h env (DecodeOK req)).2 =
     errorResponse 409 "conflict" "ALREADY_EXISTS" "Resource already exists"
       "item already exists: item with this ID already exists" /\
     repo (Handlers.CreateItem h env (DecodeOK req)).1 = repo h).
Proof.
  intros Hfault.
  assert (Hrepo : forall item : Item,
             Item_Validate item = None ->
             is_Some (DynamoDBRepository.client (repo h) !! ID item) ->
             (let '(r', item', err) :=
                let input := {| put_Item := MarshalMap item;
                                put_ConditionExpression := attribute_not_exists_id |} in
                let '(tbl, err) := PutItem env (DynamoDBRepository.client (repo h)) input in
                match err with
                | Some err =>
                    if As err ConditionalCheckFailedException then
                      (DynamoDBRepository.withTable (repo h) tbl, item,
                       Some (Errorf_w_s ErrItemAlreadyExists
                               "item with this ID already exists"))
                    else (DynamoDBRepository.withTable (repo h) tbl, item,
                          HandleDynamoDBError (Some err))
                | None => (DynamoDBRepository.withTable (repo h) tbl, item, None)
                end in (r', item', err)) =
             (repo h, item,
              Some (Errorf_w_s ErrItemAlreadyExists "item with this ID already exists"))).
  { intros item Hv [old Hl]. cbv zeta. unfold PutItem, servePutItem. rewrite Hfault.
    cbn [put_Item put_ConditionExpression]. rewrite keyOf_MarshalMap.
    unfold holds. rewrite Hl. cbn. now rewrite withTable_same. }
  split.
  - intros item Hv Hid Htaken. unfold DynamoDBRepository.CreateItem.
    rewrite bool_decide_eq_false_2 by exact Hid. rewrite Hv.
    specialize (Hrepo item Hv Htaken). cbv zeta in Hrepo.
    destruct (PutItem env (DynamoDBRepository.client (repo h)) _) as [tbl [e |]];
      [destruct (As e ConditionalCheckFailedException) |]; exact Hrepo.
  - intros req Hv Htaken.
    set (item := DynamoDBRepository.withID
                   (NewItem (now env) (CreateItemRequest.Name req)
                            (CreateItemRequest.Description req))
                   (UUID_String (uuid env))).
    assert (Hcreate : Repository.CreateItem (repo h) env
                        (NewItem (now env) (CreateItemRequest.Name req)
                                 (CreateItemRequest.Description req)) =
                      (repo h, item,
                       Some (Errorf_w_s ErrItemAlreadyExists
                               "item with this ID already exists"))).
    { change (Repository.CreateItem (repo h) env ?i)
        with (DynamoDBRepository.CreateItem (repo h) env i).
      unfold DynamoDBRepository.CreateItem.
      rewrite bool_decide_eq_true_2 by reflexivity. fold item.
      assert (Hvi : Item_Validate item = None) by (apply NewItem_valid; exact Hv).
      rewrite Hvi. specialize (Hrepo item Hvi Htaken). cbv zeta in Hrepo.
      destruct (PutItem env (DynamoDBRepository.client (repo h)) _) as [tbl [e |]];
        [destruct (As e ConditionalCheckFailedException) |]; exact Hrepo. }
    unfold Handlers.CreateItem. rewrite Hv, Hcreate. split; reflexivity.
Qed.

Lemma create_taken_id_is_conflict_witness :
  (forall item : Item,
     Item_Validate item = None -> ID item <> "" ->
     is_Some (DynamoDBRepository.client (repo oneItemStore) !! ID item) ->
     DynamoDBRepository.CreateItem (repo oneItemStore) (clock 5000) item =
     (repo oneItemStore, item,
      Some (Errorf_w_s ErrItemAlreadyExists "item with this ID already exists"))) /\
  (forall req : CreateItemRequest.t,
     CreateItemRequest_Validate req = None ->
     is_Some (DynamoDBRepository.client (repo oneItemStore)
                !! UUID_String (uuid (clock 5000))) ->
     (Handlers.CreateItem oneItemStore (clock 5000) (DecodeOK req)).2 =
     errorResponse 409 "conflict" "ALREADY_EXISTS" "Resource already exists"
       "item already exists: item with this ID already exists" /\
     repo (Handlers.CreateItem oneItemStore (clock 5000) (DecodeOK req)).1
     = repo oneItemStore).
Proof.
  apply (create_taken_id_is_conflict oneItemStore (clock 5000)).
  reflexivity.
Defined.

End RoundTrips.

(* ===================================================================== *)
(** * Further properties: the errors the adapter returns                  *)
(* ===================================================================== *)

Section Retryable.
Import GoString GoErrors Models Repository Handlers Properties Invariants Examples.
Import DynamoDBClient.

Lemma HandleDynamoDBError_not_As (sdkErr e : error) (t : awsType) :
  HandleDynamoDBError (Some sdkErr) = Some e -> As e t = false.
Proof.
  unfold HandleDynamoDBError. intros [= <-].
  repeat (match goal with |- context [if ?b then _ else _] => destruct b end);
    reflexivity.
Qed.

Lemma handled_not_retryable (sdkErr : error) :
  IsRetryableError (match HandleDynamoDBError (Some sdkErr) with
                    | Some e => e
                    | None => sdkErr
                    end) = false.
Proof.
  destruct (HandleDynamoDBError (Some sdkErr)) as [e |] eqn:Hh; [| discriminate Hh].
  unfold IsRetryableError.
  now rewrite !(HandleDynamoDBError_not_As sdkErr e) by exact Hh.
Qed.

Lemma UnmarshalMap_error (av : attrs) (e : error) :
  UnmarshalMap av = inr e -> e = unmarshalTypeError.
Proof.
  unfold UnmarshalMap, bindE, unmarshalString, unmarshalTime.
  repeat case_match; congruence.
Qed.

Lemma UnmarshalListOfMaps_error (l : list attrs) (e : error) :
  UnmarshalListOfMaps l = inr e -> e = unmarshalTypeError.
Proof.
  induction l as [| av rest IH]; [discriminate |].
  cbn [UnmarshalListOfMaps]. unfold bindE at 1.
  destruct (UnmarshalMap av) as [item | e'] eqn:Hd.
  - unfold bindE. destruct (UnmarshalListOfMaps rest) as [items | e'']; [discriminate |].
    intros [= <-]. apply IH. reflexivity.
  - intros [= <-]. eapply UnmarshalMap_error. exact Hd.
Qed.

(** X16.  No error returned by the adapter is retryable in the sense of
    [IsRetryableError]: the translation quotes the SDK error as text and
    wraps a package-level value, so the exception types
    [IsRetryableError] looks for are never in the chain, also when the
    SDK error was a provisioned-throughput exception or an internal
    server error.  The health check wraps the SDK error itself, and
    keeps it retryable. *)
Theorem adapter_errors_never_retryable (r : DynamoDBRepository.t) (env : Env) :
  (forall sdkErr e : error,
     HandleDynamoDBError (Some sdkErr) = Some e -> IsRetryableError e = false) /\
  (forall (item : Item) (e : error),
     (DynamoDBRepository.CreateItem r env item).2 = Some e -> IsRetryableError e = false) /\
  (forall (id : string) (e : error),
     (DynamoDBRepository.GetItem r env id).2 = inr e -> IsRetryableError e = false) /\
  (forall (options : option ListItemsOptions) (e : error),
     (DynamoDBRepository.ListItems r env options).2 = inr e -> IsRetryableError e = false) /\
  (forall (id : string) (updates : option UpdateItemRequest.t) (e : error),
     (DynamoDBRepository.UpdateItem r env id updates).2 = inr e ->
     IsRetryableError e = false) /\
  (forall (id : string) (e : error),
     (DynamoDBRepository.DeleteItem r env id).2 = Some e -> IsRetryableError e = false) /\
  (forall sdkErr : error,
     fault env = Some sdkErr ->
     exists e : error,
       DynamoDBRepository.HealthCheck r env = Some e /\
       IsRetryableError e = IsRetryableError sdkErr).
Proof.
  assert (Hhandled : forall sdkErr e : error,
             HandleDynamoDBError (Some sdkErr) = Some e -> IsRetryableError e = false).
  { intros sdkErr e Hh. unfold IsRetryableError.
    now rewrite !(HandleDynamoDBError_not_As sdkErr e) by exact Hh. }
  split; [exact Hhandled |].
  split.
  { intros item e. unfold DynamoDBRepository.CreateItem.
    destruct (Item_Validate _) as [ve |]; [intros [= <-]; reflexivity |].
    destruct (PutItem env (DynamoDBRepository.client r) _) as [tbl [pe |]];
      [| discriminate].
    destruct (As pe ConditionalCheckFailedException); [intros [= <-]; reflexivity |].
    cbn [snd]. apply Hhandled. }
  split.
  { intros id e. unfold DynamoDBRepository.GetItem.
    case_bool_decide; [intros [= <-]; reflexivity |].
    destruct (DynamoDBClient.GetItem env (DynamoDBRepository.client r) id)
      as [[av |] | ge].
    - destruct (UnmarshalMap av) as [item | ue] eqn:Hd; [discriminate |].
      intros [= <-]. apply UnmarshalMap_error in Hd. subst ue. reflexivity.
    - intros [= <-]. reflexivity.
    - cbn [snd]. intros He. pose proof (handled_not_retryable ge) as Hn.
      destruct (HandleDynamoDBError (Some ge)); injection He as <-; exact Hn. }
  split.
  { intros options e. unfold DynamoDBRepository.ListItems.
    destruct (Scan env (DynamoDBRepository.client r) _ _) as [out | se].
    - destruct (UnmarshalListOfMaps (scan_Items out)) as [items | ue] eqn:Hd;
        [discriminate |].
      intros [= <-]. apply UnmarshalListOfMaps_error in Hd. subst ue. reflexivity.
    - cbn [snd]. intros He. pose proof (handled_not_retryable se) as Hn.
      destruct (HandleDynamoDBError (Some se)); injection He as <-; exact Hn. }
  split.
  { intros id updates e. unfold DynamoDBRepository.UpdateItem.
    case_bool_decide; [intros [= <-]; reflexivity |].
    destruct updates as [patch |]; [| intros [= <-]; reflexivity].
    destruct (UpdateItemRequest_Validate patch) as [ve |]; [intros [= <-]; reflexivity |].
    destruct (DynamoDBClient.UpdateItem env (DynamoDBRepository.client r) _)
      as [tbl [av | ue]].
    - destruct (UnmarshalMap av) as [item | de] eqn:Hd; [discriminate |].
      intros [= <-]. apply UnmarshalMap_error in Hd. subst de. reflexivity.
    - cbn [snd]. intros He. pose proof (handled_not_retryable ue) as Hn.
      destruct (HandleDynamoDBError (Some ue)); injection He as <-; exact Hn. }
  split.
  { intros id e. unfold DynamoDBRepository.DeleteItem.
    case_bool_decide; [intros [= <-]; reflexivity |].
    destruct (DynamoDBClient.DeleteItem env (DynamoDBRepository.client r) id _)
      as [tbl [de |]]; [| discriminate].
    cbn [snd]. apply Hhandled. }
  intros sdkErr Hf. unfold DynamoDBRepository.HealthCheck, DescribeTable.
  rewrite Hf. eexists. split; reflexivity.
Qed.

End Retryable.

(* ===================================================================== *)
(** * Further properties: listing                                         *)
(* ===================================================================== *)

Section Listing.
Import GoString GoErrors Models Repository Handlers Properties Invariants Examples.
Import DynamoDBClient.







End Listing.

(* ===================================================================== *)
(** * Further properties: what the handlers answer, over any storage port *)
(* ===================================================================== *)

Section Answers.
Import GoString GoErrors Models Repository Handlers Properties Invariants Examples.
Context {R : Type} {port : ItemRepository R}.

Lemma CreateItemRequest_Validate_errors (req : CreateItemRequest.t) (e : error) :
  CreateItemRequest_Validate req = Some e ->
  e = ErrEmptyName \/ e = ErrNameTooLong \/
  e = ErrEmptyDescription \/ e = ErrDescriptionTooLong.
Proof.
  unfold CreateItemRequest_Validate.
  repeat (case_match; [intros [= <-]; tauto |]). discriminate.
Qed.

Lemma UpdateItemRequest_Validate_errors (patch : UpdateItemRequest.t) (e : error) :
  UpdateItemRequest_Validate patch = Some e ->
  e = ErrEmptyName \/ e = ErrNameTooLong \/
  e = ErrEmptyDescription \/ e = ErrDescriptionTooLong \/ e = ErrInvalidStatus.
Proof.
  unfold UpdateItemRequest_Validate.
  repeat case_match; intros Heq; simplify_eq; tauto.
Qed.

(** X18.  Requests that are refused before the storage port is called:
    the handler state is returned as it was and the answer is fixed by
    the request alone.  An empty item identifier gives 400 MISSING_FIELD,
    a body that does not decode 400 INVALID_FORMAT, and a body that
    decodes but fails validation 400 with the code chosen from the text
    of the validator's error: MISSING_FIELD for an empty name or
    description, VALUE_TOO_LONG for one that is too long, INVALID_VALUE
    for a status outside the list. *)
Theorem rejected_before_storage (h : ItemHandler R) (env : Env) :
  let missingID :=
    errorResponse 400 "validation" "MISSING_FIELD" "Item ID is required"
      "The required parameter 'Item ID' is missing from the request" in
  let badJSON :=
    errorResponse 400 "validation" "INVALID_FORMAT" "Invalid JSON format"
      "Request body contains malformed JSON" in
  let refused (v : option error) (answer : ItemHandler R * Response) :=
    v = None \/
    (v = Some ErrEmptyName /\
     answer = (h, errorResponse 400 "validation" "MISSING_FIELD"
                    "name cannot be empty" "")) \/
    (v = Some ErrNameTooLong /\
     answer = (h, errorResponse 400 "validation" "VALUE_TOO_LONG"
                    "name cannot exceed 100 characters" "")) \/
    (v = Some ErrEmptyDescription /\
     answer = (h, errorResponse 400 "validation" "MISSING_FIELD"
                    "description cannot be empty" "")) \/
    (v = Some ErrDescriptionTooLong /\
     answer = (h, errorResponse 400 "validation" "VALUE_TOO_LONG"
                    "description cannot exceed 500 characters" "")) \/
    (v = Some ErrInvalidStatus /\
     answer = (h, errorResponse 400 "validation" "INVALID_VALUE"
                    "status must be one of: active, inactive, pending" "")) in
  Handlers.GetItem h env "" = (h, missingID) /\
  Handlers.DeleteItem h env "" = (h, missingID) /\
  (forall body : Decoded UpdateItemRequest.t,
     Handlers.UpdateItem h env "" body = (h, missingID)) /\
  (forall e : error, Handlers.CreateItem h env (DecodeError e) = (h, badJSON)) /\
  (forall (itemID : string) (e : error),
     itemID <> "" -> Handlers.UpdateItem h env itemID (DecodeError e) = (h, badJSON)) /\
  (forall req : CreateItemRequest.t,
     refused (CreateItemRequest_Validate req) (Handlers.CreateItem h env (DecodeOK req))) /\
  (forall (itemID : string) (patch : UpdateItemRequest.t),
     itemID <> "" ->
     refused (UpdateItemRequest_Validate patch)
             (Handlers.UpdateItem h env itemID (DecodeOK patch))).
Proof.
  cbv zeta.
  split; [reflexivity |]. split; [reflexivity |]. split; [reflexivity |].
  split; [reflexivity |].
  split.
  { intros itemID e Hid. unfold Handlers.UpdateItem.
    rewrite bool_decide_eq_false_2 by exact Hid. reflexivity. }
  split.
  - intros req. unfold Handlers.CreateItem.
    destruct (CreateItemRequest_Validate req) as [e |] eqn:Hv; [| left; reflexivity].
    right. apply CreateItemRequest_Validate_errors in Hv.
    destruct Hv as [-> | [-> | [-> | ->]]].
    + left. split; [reflexivity |]. f_equal.
    + right; left. split; [reflexivity |]. f_equal.
    + right; right; left. split; [reflexivity |]. f_equal.
    + right; right; right; left. split; [reflexivity |]. f_equal.
  - intros itemID patch Hid. unfold Handlers.UpdateItem.
    rewrite bool_decide_eq_false_2 by exact Hid.
    destruct (UpdateItemRequest_Validate patch) as [e |] eqn:Hv; [| left; reflexivity].
    right. apply UpdateItemRequest_Validate_errors in Hv.
    destruct Hv as [-> | [-> | [-> | [-> | ->]]]].
    + left. split; [reflexivity |]. f_equal.
    + right; left. split; [reflexivity |]. f_equal.
    + right; right; left. split; [reflexivity |]. f_equal.
    + right; right; right; left. split; [reflexivity |]. f_equal.
    + right; right; right; right. split; [reflexivity |]. f_equal.
Qed.

Lemma WriteRepositoryErrorResponse_status (err : error) :
  statusMatchesType (WriteRepositoryErrorResponse err).
Proof.
  unfold WriteRepositoryErrorResponse, MapRepositoryError.
  destruct (IsNotFoundError err);
    [ | destruct (IsConflictError err);
    [ | destruct (IsValidationError err);
    [ | destruct (IsConnectionError err);
    [ | destruct (IsOperationError err);
    [ destruct (containsThroughputError (Error err)) | ]]]]].
  all: split; [reflexivity |]; cbn; tauto.
Qed.

Lemma WriteValidationErrorResponse_status (err : error) :
  statusMatchesType (WriteValidationErrorResponse err).
Proof.
  unfold WriteValidationErrorResponse, MapValidationError, statusMatchesType.
  cbn -[containsError]. split; [reflexivity |]. left. split; reflexivity.
Qed.

(** X19.  The status line agrees with the envelope in every answer of the
    item handlers and of the API health check: an answer without error
    object has success true and status 200 or 201; an answer with one
    has success false, and status 400 for type validation, 404 for
    not_found, 409 for conflict, 429, 500 or 503 for database, 500 for
    system. *)
Theorem status_matches_error_type (h : ItemHandler R) (env : Env) :
  statusMatchesType (HealthCheck h).2 /\
  (forall body : Decoded CreateItemRequest.t,
     statusMatchesType (Handlers.CreateItem h env body).2) /\
  (forall itemID : string, statusMatchesType (Handlers.GetItem h env itemID).2) /\
  (forall limitStr token : string,
     statusMatchesType (Handlers.ListItems h env limitStr token).2) /\
  (forall (itemID : string) (body : Decoded UpdateItemRequest.t),
     statusMatchesType (Handlers.UpdateItem h env itemID body).2) /\
  (forall itemID : string, statusMatchesType (Handlers.DeleteItem h env itemID).2).
Proof.
  assert (Hparam : statusMatchesType (WriteMissingParameterErrorResponse "Item ID")).
  { split; [reflexivity |]. left. split; reflexivity. }
  assert (Hparse : forall e : error, statusMatchesType (WriteJSONParseErrorResponse e)).
  { intros e. split; [reflexivity |]. left. split; reflexivity. }
  assert (Hok : forall p : Payload,
             statusMatchesType
               (writeJSONResponse StatusOK
                  {| Success := true; Data := Some p; Error_ := None |})).
  { intros p. split; [reflexivity | left; reflexivity]. }
  split; [apply Hok |].
  split.
  { intros [req | e]; unfold Handlers.CreateItem; [| apply Hparse].
    destruct (CreateItemRequest_Validate req) as [e |].
    - apply WriteValidationErrorResponse_status.
    - destruct (Repository.CreateItem (repo h) env _) as [[r item] [e |]].
      + apply WriteRepositoryErrorResponse_status.
      + split; [reflexivity | right; reflexivity]. }
  split.
  { intros itemID. unfold Handlers.GetItem. case_bool_decide; [exact Hparam |].
    destruct (Repository.GetItem (repo h) env itemID) as [r [item | e]].
    - apply Hok.
    - apply WriteRepositoryErrorResponse_status. }
  split.
  { intros limitStr token. unfold Handlers.ListItems.
    destruct (ListItems_options limitStr) as [options | response] eqn:Hopts.
    - unfold ListItems_query.
      destruct (Repository.ListItems (repo h) env _) as [r [res | e]].
      + apply Hok.
      + apply WriteRepositoryErrorResponse_status.
    - revert Hopts. unfold ListItems_options. case_bool_decide; [| discriminate].
      destruct (Atoi limitStr) as [limit | e].
      + destruct ((limit <=? 0) || (100 <? limit)); [| discriminate].
        intros [= <-]. split; [reflexivity |]. left. split; reflexivity.
      + intros [= <-]. split; [reflexivity |]. left. split; reflexivity. }
  split.
  { intros itemID [req | e]; unfold Handlers.UpdateItem;
      (case_bool_decide; [exact Hparam |]); [| apply Hparse].
    destruct (UpdateItemRequest_Validate req) as [e |].
    - apply WriteValidationErrorResponse_status.
    - destruct (Repository.UpdateItem (repo h) env itemID _) as [r [item | e]].
      + apply Hok.
      + apply WriteRepositoryErrorResponse_status. }
  intros itemID. unfold Handlers.DeleteItem. case_bool_decide; [exact Hparam |].
  destruct (Repository.DeleteItem (repo h) env itemID) as [r [e |]].
  - apply WriteRepositoryErrorResponse_status.
  - apply Hok.
Qed.

(** X20.  The database health check answers 200 with success true, or
    503 with success false, and never changes the handler; it answers
    200 exactly when the storage port is the DynamoDB adapter and the
    DescribeTable call of the SDK does not fail; when that call fails
    the payload carries the wrapped error text and the table name.
    With any other port (the mock of the unit tests) it answers 503 and
    reports status and table name unknown. *)
Theorem HealthCheckDB_status (h : ItemHandler R) (env : Env) :
  let response := (HealthCheckDB h env).2 in
  (HealthCheckDB h env).1 = h /\
  ((StatusCode response = 200 /\ Success (Body response) = true) \/
   (StatusCode response = 503 /\ Success (Body response) = false)) /\
  (StatusCode response = 200 <->
   is_Some (asDynamoDB (repo h)) /\ fault env = None) /\
  (asDynamoDB (repo h) = None ->
   exists fields : gmap string Field,
     Data (Body response) = Some (PObject fields) /\
     fields !! "status" = Some (FString "unknown") /\
     fields !! "tableName" = Some (FString "unknown")) /\
  (forall (d : DynamoDBRepository.t) (e : error),
     asDynamoDB (repo h) = Some d -> fault env = Some e ->
     exists fields : gmap string Field,
       Data (Body response) = Some (PObject fields) /\
       fields !! "status" = Some (FString "unhealthy") /\
       fields !! "message" = Some (FString ("DynamoDB health check failed: " +:+ Error e)) /\
       fields !! "tableName" = Some (FString (DynamoDBRepository.tableName d))).
Proof.
  cbv zeta. unfold HealthCheckDB, getTableName, DynamoDBRepository.HealthCheck,
    DynamoDBClient.DescribeTable.
  destruct (asDynamoDB (repo h)) as [d |] eqn:Hd;
    [destruct (fault env) as [e |] eqn:Hf |].
  - split; [reflexivity |]. split; [right; split; reflexivity |].
    split; [split; [discriminate | intros [_ ?]; discriminate] |].
    split; [discriminate |].
    intros d' e' [= <-] [= <-]. eexists. split; [reflexivity |].
    repeat split; reflexivity.
  - split; [reflexivity |]. split; [left; split; reflexivity |].
    split; [split; [intros _; split; [eauto | reflexivity] | reflexivity] |].
    split; discriminate.
  - split; [reflexivity |]. split; [right; split; reflexivity |].
    split; [split; [discriminate | intros [[? ?] _]; discriminate] |].
    split; [| discriminate].
    intros _. eexists. split; [reflexivity |]. split; reflexivity.
Qed.

End Answers.

(* ===================================================================== *)
(** * Further properties: the client configuration                        *)
(* ===================================================================== *)

Section Configuration.
Import GoString GoErrors Config.

(** X21.  [NewDynamoDBConfig] fails exactly when DYNAMODB_TABLE_NAME is
    unset or empty.  A configuration it returns has the table name of
    the environment and never an empty table name or region: the region
    is AWS_REGION, or us-east-1 when that is unset or empty. *)
Theorem NewDynamoDBConfig_result (environ : gmap string string) :
  ((exists e : error, NewDynamoDBConfig environ = inr e) <->
   environ !! "DYNAMODB_TABLE_NAME" = None \/
   environ !! "DYNAMODB_TABLE_NAME" = Some "") /\
  (forall cfg : DynamoDBConfig,
     NewDynamoDBConfig environ = inl cfg ->
     environ !! "DYNAMODB_TABLE_NAME" = Some (TableName cfg) /\
     TableName cfg <> "" /\ Region cfg <> "" /\
     (environ !! "AWS_REGION" = Some (Region cfg) \/
      (Region cfg = "us-east-1" /\
       (environ !! "AWS_REGION" = None \/ environ !! "AWS_REGION" = Some "")))).
Proof.
  unfold NewDynamoDBConfig, Getenv.
  destruct (environ !! "DYNAMODB_TABLE_NAME") as [name |] eqn:Hname; cbn [default from_option id].
  - case_bool_decide as Hn.
    + subst name. split; [split; [intros _; right; reflexivity | eauto] |].
      discriminate.
    + split.
      { split; [intros [e He]; discriminate He |].
        intros [Hnone | Hempty]; [discriminate Hnone |].
        injection Hempty as ->. contradiction. }
      intros cfg [= <-]. cbn [TableName Region].
      split; [reflexivity |]. split; [exact Hn |].
      destruct (environ !! "AWS_REGION") as [region |]; cbn [default from_option id].
      * case_bool_decide as Hr.
        -- subst region. split; [discriminate |]. right. split; [reflexivity | tauto].
        -- split; [exact Hr | left; reflexivity].
      * rewrite bool_decide_eq_true_2 by reflexivity.
        split; [discriminate |]. right. split; [reflexivity | tauto].
  - rewrite bool_decide_eq_true_2 by reflexivity.
    split; [split; [intros _; left; reflexivity | eauto] |]. discriminate.
Qed.

End Configuration.
